(** * The MSO REST client: retrying executor, backoff, login and version gate

    A shallow embedding of the client core of the MSO Terraform provider
    (package [client]: [MakeRestRequest], [Authenticate], [GetDomainId],
    [GetVersion], [CompareVersion], [DoWithRetryFunc], [backoff],
    [stripQuotes], the construction options and [initClient]).

    Conventions of the embedding:
    - Go [int] and [time.Duration] are 64-bit: values are [Z], and the
      wrap-around of the operations the code performs is written out
      ([wrap_int]).
    - [float64] values of [backoff] are exact rationals ([Q]): no rounding
      of [math.Pow], of the products or of the jitter draw is modelled.
    - A Go [error] is the text its [Error()] method returns; [nil] is [None].
    - Pointers that may be [nil] ([*container.Container], [*http.Response],
      [*Auth]) are [option]s.
    - The network, the clock, the random source and the sleeps form the
      [World] that every operation threads; the client is threaded beside it
      because methods assign to its fields.
    - [log.Printf] calls are diagnostic and left out. *)

From Stdlib Require Import ZArith QArith Qpower Qminmax Qround List String Ascii Bool Lia Lqa.
From Stdlib Require Import Decimal DecimalString.
Import ListNotations.

Set Warnings "-register-all".

Local Open Scope string_scope.
Local Open Scope Z_scope.

(** ** Go base types *)

Definition int_min : Z := - 2 ^ 63.
Definition int_max : Z := 2 ^ 63 - 1.

(** Two's-complement wrap-around of a 64-bit signed result. *)
Definition wrap_int (z : Z) : Z := (z + 2 ^ 63) mod 2 ^ 64 - 2 ^ 63.

(** [error]: the value [errors.New] and [fmt.Errorf] build. *)
Record error : Type := errors_New { Error : string }.

(** The verb [%d] of [fmt]. *)
Definition itoa (z : Z) : string := NilZero.string_of_int (Z.to_int z).

(** [time.Duration] counts nanoseconds. *)
Definition Duration : Type := Z.
Definition Second : Duration := 1000000000.

(** [time.Duration(n) * time.Second] on 64-bit integers. *)
Definition seconds (n : Z) : Duration := wrap_int (n * Second).

(** [float64(d)] for an integer [d]. *)
Definition float64 (z : Z) : Q := inject_Z z.

(** [time.Duration(f)] for a float [f]: the fraction is dropped. *)
Definition Duration_of_float (f : Q) : Duration := Z.quot (Qnum f) (Zpos (Qden f)).

(** [math.Pow(x, float64(n))]. *)
Definition math_Pow (x : Q) (n : Z) : Q := Qpower x n.

(** ** Strings: [strings.HasPrefix], [HasSuffix], [TrimPrefix], [TrimSuffix] *)

Fixpoint string_rev (s : string) : string :=
  match s with
  | EmptyString => EmptyString
  | String a s' => string_rev s' ++ String a EmptyString
  end.

Definition HasPrefix (s p : string) : bool := String.prefix p s.

Definition HasSuffix (s suf : string) : bool :=
  String.prefix (string_rev suf) (string_rev s).

Definition TrimPrefix (s p : string) : string :=
  if HasPrefix s p
  then substring (String.length p) (String.length s - String.length p) s
  else s.

Definition TrimSuffix (s suf : string) : string :=
  if HasSuffix s suf
  then substring 0 (String.length s - String.length suf) s
  else s.

(** The characters a Go literal escapes. *)
Definition dquote : string := String (ascii_of_nat 34) EmptyString.
Definition newline : string := String (ascii_of_nat 10) EmptyString.
Definition tab : string := String (ascii_of_nat 9) EmptyString.

Definition stripQuotes (word : string) : string :=
  if HasPrefix word dquote && HasSuffix word dquote
  then TrimSuffix (TrimPrefix word dquote) dquote
  else word.

(** ** The packages the client imports

    [container] (JSON documents), [models], [net/url], [net/http] and
    [hashicorp/go-version] are not part of the sources at hand: the client is
    verified against any implementation of the operations it calls. *)

Class GoLib : Type := {
  (** [*container.Container], not nil. *)
  Container : Type;
  (** [container.ParseJSON]; with an error the container returned is nil. *)
  ParseJSON : string -> Container + error;
  (** [obj.S(path...)] and [obj.Search(path...)]; the receiver may be nil. *)
  Container_S : option Container -> list string -> Container;
  (** [obj.String()]. *)
  Container_String : Container -> string;
  (** [obj.Set(value, path...)]; the receiver is updated in place. *)
  Container_Set : Container -> string -> list string -> Container;
  (** [obj.Bytes()] on a receiver that is not nil. *)
  Container_Bytes : Container -> string;
  (** [obj.Bytes()] on a nil receiver: the bytes it yields, or [None] when
      the call dereferences the receiver and panics. *)
  Container_Bytes_nil : option string;
  (** [obj.ArrayCount(path...)]; the receiver may be nil. *)
  Container_ArrayCount : option Container -> list string -> Z + error;
  (** [obj.ArrayElement(i, path...)]; the receiver may be nil. *)
  Container_ArrayElement : option Container -> Z -> list string -> Container + error;
  (** [models.StripQuotes]. *)
  models_StripQuotes : string -> string;
  (** [CheckForErrors(obj, method)] of the client package; [obj] may be nil. *)
  CheckForErrors : option Container -> string -> option error;
  (** [*url.URL]. *)
  URL : Type;
  (** [url.Parse]. *)
  url_Parse : string -> URL + error;
  (** [q := u.Query(); q.Set(k, v); u.RawQuery = q.Encode()]. *)
  URL_setQuery : URL -> string -> string -> URL;
  (** [base.ResolveReference(ref)]. *)
  URL_ResolveReference : URL -> URL -> URL;
  (** [u.String()]. *)
  URL_String : URL -> string;
  (** The error of [http.NewRequest(method, url, body)], if any. *)
  http_NewRequest_error : string -> string -> option error;
  (** [*version.Version]. *)
  Version : Type;
  (** [version.NewVersion]. *)
  version_NewVersion : string -> Version + error;
  (** [v.Compare(other)]. *)
  Version_Compare : Version -> Version -> Z
}.

(** ** Requests, responses, the session token and the client *)

Record Request : Type := mkRequest {
  Method : string;
  ReqURL : string;
  ReqBody : option string;
  Header : list (string * string)
}.

(** [req.Header.Set(k, v)]: one value per key. *)
Definition Header_Set (k v : string) (req : Request) : Request :=
  mkRequest (Method req) (ReqURL req) (ReqBody req)
    ((k, v) :: filter (fun kv => negb (String.eqb (fst kv) k)) (Header req)).

(** A response as the executor reads it: the status code and what
    [ioutil.ReadAll(resp.Body)] returns. *)
Record Response : Type := mkResponse {
  StatusCode : Z;
  BodyBytes : string;
  ReadErr : option error
}.

Record Auth : Type := mkAuth {
  Token : string;
  Expiry : Z
}.

Section Client.

Context {lib : GoLib}.

Record Client : Type := mkClient {
  BaseURL : URL;
  AuthToken : option Auth;
  username : string;
  password : string;
  insecure : bool;
  reqTimeoutSet : bool;
  reqTimeoutVal : Z;
  proxyUrl : string;
  domain : string;
  platform : string;
  version : string;
  skipLoggingPayload : bool;
  maxRetries : Z;
  backoffMinDelay : Z;
  backoffMaxDelay : Z;
  backoffDelayFactor : Q
}.

(** Field assignments [c.f = v]. *)
Definition set_AuthToken (v : option Auth) (c : Client) : Client :=
  mkClient (BaseURL c) v (username c) (password c) (insecure c)
    (reqTimeoutSet c) (reqTimeoutVal c) (proxyUrl c) (domain c) (platform c)
    (version c) (skipLoggingPayload c) (maxRetries c) (backoffMinDelay c)
    (backoffMaxDelay c) (backoffDelayFactor c).

Definition set_password (v : string) (c : Client) : Client :=
  mkClient (BaseURL c) (AuthToken c) (username c) v (insecure c)
    (reqTimeoutSet c) (reqTimeoutVal c) (proxyUrl c) (domain c) (platform c)
    (version c) (skipLoggingPayload c) (maxRetries c) (backoffMinDelay c)
    (backoffMaxDelay c) (backoffDelayFactor c).

Definition set_insecure (v : bool) (c : Client) : Client :=
  mkClient (BaseURL c) (AuthToken c) (username c) (password c) v
    (reqTimeoutSet c) (reqTimeoutVal c) (proxyUrl c) (domain c) (platform c)
    (version c) (skipLoggingPayload c) (maxRetries c) (backoffMinDelay c)
    (backoffMaxDelay c) (backoffDelayFactor c).

Definition set_proxyUrl (v : string) (c : Client) : Client :=
  mkClient (BaseURL c) (AuthToken c) (username c) (password c) (insecure c)
    (reqTimeoutSet c) (reqTimeoutVal c) v (domain c) (platform c)
    (version c) (skipLoggingPayload c) (maxRetries c) (backoffMinDelay c)
    (backoffMaxDelay c) (backoffDelayFactor c).

Definition set_domain (v : string) (c : Client) : Client :=
  mkClient (BaseURL c) (AuthToken c) (username c) (password c) (insecure c)
    (reqTimeoutSet c) (reqTimeoutVal c) (proxyUrl c) v (platform c)
    (version c) (skipLoggingPayload c) (maxRetries c) (backoffMinDelay c)
    (backoffMaxDelay c) (backoffDelayFactor c).

Definition set_platform (v : string) (c : Client) : Client :=
  mkClient (BaseURL c) (AuthToken c) (username c) (password c) (insecure c)
    (reqTimeoutSet c) (reqTimeoutVal c) (proxyUrl c) (domain c) v
    (version c) (skipLoggingPayload c) (maxRetries c) (backoffMinDelay c)
    (backoffMaxDelay c) (backoffDelayFactor c).

Definition set_version (v : string) (c : Client) : Client :=
  mkClient (BaseURL c) (AuthToken c) (username c) (password c) (insecure c)
    (reqTimeoutSet c) (reqTimeoutVal c) (proxyUrl c) (domain c) (platform c)
    v (skipLoggingPayload c) (maxRetries c) (backoffMinDelay c)
    (backoffMaxDelay c) (backoffDelayFactor c).

Definition set_skipLoggingPayload (v : bool) (c : Client) : Client :=
  mkClient (BaseURL c) (AuthToken c) (username c) (password c) (insecure c)
    (reqTimeoutSet c) (reqTimeoutVal c) (proxyUrl c) (domain c) (platform c)
    (version c) v (maxRetries c) (backoffMinDelay c)
    (backoffMaxDelay c) (backoffDelayFactor c).

Definition set_maxRetries (v : Z) (c : Client) : Client :=
  mkClient (BaseURL c) (AuthToken c) (username c) (password c) (insecure c)
    (reqTimeoutSet c) (reqTimeoutVal c) (proxyUrl c) (domain c) (platform c)
    (version c) (skipLoggingPayload c) v (backoffMinDelay c)
    (backoffMaxDelay c) (backoffDelayFactor c).

Definition set_backoffMinDelay (v : Z) (c : Client) : Client :=
  mkClient (BaseURL c) (AuthToken c) (username c) (password c) (insecure c)
    (reqTimeoutSet c) (reqTimeoutVal c) (proxyUrl c) (domain c) (platform c)
    (version c) (skipLoggingPayload c) (maxRetries c) v
    (backoffMaxDelay c) (backoffDelayFactor c).

Definition set_backoffMaxDelay (v : Z) (c : Client) : Client :=
  mkClient (BaseURL c) (AuthToken c) (username c) (password c) (insecure c)
    (reqTimeoutSet c) (reqTimeoutVal c) (proxyUrl c) (domain c) (platform c)
    (version c) (skipLoggingPayload c) (maxRetries c) (backoffMinDelay c)
    v (backoffDelayFactor c).

Definition set_backoffDelayFactor (v : Q) (c : Client) : Client :=
  mkClient (BaseURL c) (AuthToken c) (username c) (password c) (insecure c)
    (reqTimeoutSet c) (reqTimeoutVal c) (proxyUrl c) (domain c) (platform c)
    (version c) (skipLoggingPayload c) (maxRetries c) (backoffMinDelay c)
    (backoffMaxDelay c) v.

End Client.

Arguments Client {lib}.

(** ** The world outside the process *)

(** What the process cannot decide: the reply to its [k]-th HTTP round trip
    ([inr] is a transport error of [httpClient.Do]) and its [k]-th draw of
    [rand.Float64]. *)
Record Env : Type := mkEnv {
  transport : nat -> Request -> Response + error;
  rand_Float64 : nat -> Q
}.

Record World : Type := mkWorld {
  (** round trips made so far *)
  calls : nat;
  (** draws of [rand.Float64] so far *)
  draws : nat;
  (** the durations passed to [time.Sleep], the latest first *)
  slept : list Duration;
  (** [time.Now()], in nanoseconds *)
  now : Z
}.

Definition world0 : World := mkWorld 0 0 [] 0.

Section Operations.

Context {lib : GoLib}.
Variable env : Env.

(** *** Computations over the client and the world

    A method either returns (possibly with a Go [error] among its results),
    panics on a nil dereference, or is still looping when the fuel of the
    model runs out. *)

Inductive outcome (A : Type) : Type :=
| Done (a : A) (c : Client) (w : World)
| Panic
| OutOfFuel.

Arguments Done {A} a c w.
Arguments Panic {A}.
Arguments OutOfFuel {A}.

Definition M (A : Type) : Type := Client -> World -> outcome A.

Definition ret {A : Type} (a : A) : M A := fun c w => Done a c w.

Definition bind {A B : Type} (m : M A) (k : A -> M B) : M B :=
  fun c w =>
    match m c w with
    | Done a c' w' => k a c' w'
    | Panic => Panic
    | OutOfFuel => OutOfFuel
    end.

Notation "x <- m ;; k" := (bind m (fun x => k))
  (at level 100, m at next level, right associativity).
Notation "m ;;; k" := (bind m (fun _ => k))
  (at level 100, right associativity).

Definition getClient : M Client := fun c w => Done c c w.
Definition modifyClient (f : Client -> Client) : M unit := fun c w => Done tt (f c) w.
Definition panic {A : Type} : M A := fun _ _ => Panic.

(** [c.httpClient.Do(req)] *)
Definition httpClient_Do (req : Request) : M (Response + error) :=
  fun c w =>
    Done (transport env (calls w) req) c
         (mkWorld (S (calls w)) (draws w) (slept w) (now w)).

(** [rand.Float64()] *)
Definition rand_draw : M Q :=
  fun c w =>
    Done (rand_Float64 env (draws w)) c
         (mkWorld (calls w) (S (draws w)) (slept w) (now w)).

(** [time.Sleep(d)] *)
Definition time_Sleep (d : Duration) : M unit :=
  fun c w => Done tt c (mkWorld (calls w) (draws w) (d :: slept w) (now w + d)).

(** [time.Now()] *)
Definition time_Now : M Z := fun c w => Done (now w) c w.

(** *** [backoff] *)

Definition DefaultBackoffMinDelay : Z := 4.
Definition DefaultBackoffMaxDelay : Z := 60.
Definition DefaultBackoffDelayFactor : Q := 3%Q.

(** The three settings [backoff] reads, each with its default. *)
Definition backoff_minDelay (c : Client) : Duration :=
  if backoffMinDelay c =? 0 then seconds DefaultBackoffMinDelay
  else seconds (backoffMinDelay c).

Definition backoff_maxDelay (c : Client) : Duration :=
  if backoffMaxDelay c =? 0 then seconds DefaultBackoffMaxDelay
  else seconds (backoffMaxDelay c).

Definition backoff_factor (c : Client) : Q :=
  if Qeq_bool (backoffDelayFactor c) 0 then DefaultBackoffDelayFactor
  else backoffDelayFactor c.

(** The float [backoff] holds before it is turned into a duration; [u] is
    the draw of [rand.Float64]. *)
Definition backoff_value (c : Client) (attempts : Z) (u : Q) : Q :=
  let minDelay := backoff_minDelay c in
  let maxDelay := backoff_maxDelay c in
  let factor := backoff_factor c in
  let min := float64 minDelay in
  let backoff := (min * math_Pow factor attempts)%Q in
  let backoff :=
    if negb (Qle_bool backoff (float64 maxDelay)) then float64 maxDelay
    else backoff in
  ((u / 2 + (1 # 2)) * (backoff - min) + min)%Q.

Definition backoff (attempts : Z) : M bool :=
  c <- getClient ;;
  if attempts >? maxRetries c then ret false
  else
    u <- rand_draw ;;
    let backoffDuration := Duration_of_float (backoff_value c attempts u) in
    time_Sleep backoffDuration ;;;
    ret true.

(** *** [DoWithRetryFunc] and [Do] *)

Definition CallbackRetryFunc : Type := Container -> bool.

(** What [Do] returns: the payload, the response and the error. *)
Definition DoResult : Type := (option Container * option Response * option error)%type.

(** ["[ERROR] HTTP Request failed with status code %d after %d attempts"] *)
Definition retries_exhausted (code attempts : Z) : error :=
  errors_New ("[ERROR] HTTP Request failed with status code " ++ itoa code
              ++ " after " ++ itoa attempts ++ " attempts").

(** The body of [for attempts := 1; ; attempts++]; [fuel] bounds the
    iterations of the model. *)
Fixpoint DoWithRetryFunc_loop (fuel : nat) (req : Request)
    (retryFunc : option CallbackRetryFunc) (attempts : Z) : M DoResult :=
  match fuel with
  | O => fun _ _ => OutOfFuel
  | S fuel' =>
    let continue :=
      DoWithRetryFunc_loop fuel' req retryFunc (wrap_int (attempts + 1)) in
    r <- httpClient_Do req ;;
    match r with
    | inr err =>
      ok <- backoff attempts ;;
      if negb ok then ret (None, None, Some err) else continue
    | inl resp =>
      let bodyBytes := BodyBytes resp in
      let err := ReadErr resp in
      if StatusCode resp =? 204 then ret (None, None, None)
      else
        (* from "Attempt retry for the following error codes" on *)
        let rest (obj : option Container) (err : option error) (retry : bool)
            : M DoResult :=
          let retry :=
            if (StatusCode resp =? 429) || (StatusCode resp =? 503) then true
            else retry in
          if retry then
            ok <- backoff attempts ;;
            if negb ok
            then ret (obj, Some resp,
                      Some (retries_exhausted (StatusCode resp) attempts))
            else continue
          else ret (None, Some resp, err) in
        if (200 <=? StatusCode resp) && (StatusCode resp <? 300) then
          match ParseJSON bodyBytes with
          | inr perr => rest None (Some perr) true
          | inl obj =>
            if match retryFunc with Some f => f obj | None => false end
            then rest (Some obj) None true
            else ret (Some obj, Some resp, None)
          end
        else rest None err false
    end
  end.

(** The loop leaves by a [return] within [maxRetries + 1] iterations. *)
Definition DoWithRetryFunc (req : Request) (retryFunc : option CallbackRetryFunc)
    : M DoResult :=
  c <- getClient ;;
  DoWithRetryFunc_loop (S (Z.to_nat (maxRetries c))) req retryFunc 1.

Definition Do (req : Request) : M DoResult := DoWithRetryFunc req None.

(** *** [MakeRestRequest] *)

(** [http.NewRequest(method, url, body)] *)
Definition http_NewRequest (method url : string) (body : option string)
    : Request + error :=
  match http_NewRequest_error method url with
  | Some err => inr err
  | None => inl (mkRequest method url body [])
  end.

(** [body.Bytes()] for a [body] that may be nil. *)
Definition body_Bytes (body : option Container) : M string :=
  match body with
  | Some b => ret (Container_Bytes b)
  | None =>
    match Container_Bytes_nil with
    | Some bs => ret bs
    | None => panic
    end
  end.

(** Modelled from the spec: [InjectAuthenticationHeader] is declared in a
    file of the client package that is not among the sources. The spec has it
    attach whatever token currently exists, without looking at its expiry,
    and signal NotAuthenticatedError when no login has succeeded yet. *)
Definition InjectAuthenticationHeader (req : Request) (path : string)
    : M (option Request * option error) :=
  c <- getClient ;;
  match AuthToken c with
  | None => ret (Some req, Some (errors_New "NotAuthenticatedError"))
  | Some a => ret (Some (Header_Set "Authorization" ("Bearer " ++ Token a) req), None)
  end.

(** The path [MakeRestRequest] goes on with: behind the gateway segment on
    the platform [nd], the login path apart. *)
Definition gateway_path (c : Client) (path : string) : string :=
  if String.eqb (platform c) "nd" && negb (String.eqb path "/login") then
    let path :=
      if HasPrefix path "/"
      then substring 1 (String.length path - 1) path
      else path in
    "mso/" ++ path
  else path.

Definition MakeRestRequest (method path : string) (body : option Container)
    (authenticated : bool) : M (option Request * option error) :=
  c <- getClient ;;
  let path := gateway_path c path in
  match url_Parse path with
  | inr err => ret (None, Some err)
  | inl url =>
    let url :=
      if String.eqb method "PATCH" then URL_setQuery url "validate" "false"
      else url in
    let fURL := URL_ResolveReference (BaseURL c) url in
    r <- (if String.eqb method "GET" || String.eqb method "DELETE"
          then ret (http_NewRequest method (URL_String fURL) None)
          else
            bs <- body_Bytes body ;;
            ret (http_NewRequest method (URL_String fURL) (Some bs))) ;;
    match r with
    | inr err => ret (None, Some err)
    | inl req =>
      let req := Header_Set "Content-Type" "application/json" req in
      if authenticated then
        i <- InjectAuthenticationHeader req path ;;
        match snd i with
        | Some err => ret (fst i, Some err)
        | None => ret (fst i, None)
        end
      else ret (Some req, None)
    end
  end.

(** *** [GetDomainId] *)

(** The loop [for i := 0; i < count; i++] over the indices still to visit. *)
Fixpoint GetDomainId_scan (obj : option Container) (domain : string)
    (indices : list Z) : string * option error :=
  match indices with
  | [] =>
    (EmptyString,
     Some (errors_New ("Unable to find domain id for domain " ++ domain)))
  | i :: indices' =>
    match Container_ArrayElement obj i ["domains"] with
    | inr err => (EmptyString, Some err)
    | inl domainCont =>
      let domainName :=
        models_StripQuotes (Container_String (Container_S (Some domainCont) ["name"])) in
      if String.eqb domainName domain
      then (models_StripQuotes (Container_String (Container_S (Some domainCont) ["id"])),
            None)
      else GetDomainId_scan obj domain indices'
    end
  end.

Definition GetDomainId (domain : string) : M (string * option error) :=
  r <- MakeRestRequest "GET" "/api/v1/auth/login-domains" None false ;;
  match r with
  | (_, Some err) => ret (EmptyString, Some err)
  | (None, None) => panic
  | (Some req, None) =>
    d <- Do req ;;
    let '(obj, _, err) := d in
    match err with
    | Some err => ret (EmptyString, Some err)
    | None =>
      match CheckForErrors obj "GET" with
      | Some err => ret (EmptyString, Some err)
      | None =>
        match Container_ArrayCount obj ["domains"] with
        | inr err => ret (EmptyString, Some err)
        | inl count =>
          ret (GetDomainId_scan obj domain
                 (map Z.of_nat (seq 0 (Z.to_nat count))))
        end
      end
    end
  end.

(** *** [Authenticate] *)

(** [fmt.Sprintf(msoAuthPayload, username, password)] *)
Definition msoAuthPayload (username password : string) : string :=
  "{" ++ newline
  ++ tab ++ dquote ++ "username" ++ dquote ++ ": " ++ dquote ++ username ++ dquote ++ "," ++ newline
  ++ tab ++ dquote ++ "password" ++ dquote ++ ": " ++ dquote ++ password ++ dquote ++ newline
  ++ "}".

(** [fmt.Sprintf(ndAuthPayload, username, password)] *)
Definition ndAuthPayload (username password : string) : string :=
  "{" ++ newline
  ++ tab ++ dquote ++ "userName" ++ dquote ++ ": " ++ dquote ++ username ++ dquote ++ "," ++ newline
  ++ tab ++ dquote ++ "userPasswd" ++ dquote ++ ": " ++ dquote ++ password ++ dquote ++ newline
  ++ "}".

(** Modelled from the spec: [Auth] and its [CalculateExpiry] are declared in
    a file of the client package that is not among the sources. The spec has
    the expiry be the instant of authentication plus the validity window given
    in seconds. *)
Definition CalculateExpiry (willExpire : Z) (a : Auth) : M Auth :=
  t <- time_Now ;;
  ret (mkAuth (Token a) (t + willExpire * Second)).

(** From the top of [Authenticate] to the login body with its domain: the
    body and the login path, or the error returned. *)
Definition Authenticate_body : M (Container * string + error) :=
  c <- getClient ;;
  payload <-
    (if String.eqb (platform c) "nd" then
       (if String.eqb (domain c) EmptyString
        then modifyClient (set_domain "DefaultAuth")
        else ret tt) ;;;
       ret (ndAuthPayload, "/login")
     else ret (msoAuthPayload, "/api/v1/auth/login")) ;;
  let '(authPayload, path) := payload in
  match ParseJSON (authPayload (username c) (password c)) with
  | inr err => ret (inr err)
  | inl body =>
    c <- getClient ;;
    if negb (String.eqb (domain c) EmptyString) then
      if String.eqb (platform c) "nd"
      then ret (inl (Container_Set body (domain c) ["domain"], path))
      else
        d <- GetDomainId (domain c) ;;
        match snd d with
        | Some err => ret (inr err)
        | None => ret (inl (Container_Set body (fst d) ["domainId"], path))
        end
    else ret (inl (body, path))
  end.

(** From [c.skipLoggingPayload = true] to the test of the error of [Do]:
    the payload [Do] returned, or the error returned. *)
Definition Authenticate_exchange (body : Container) (path : string)
    : M (option Container + error) :=
  modifyClient (set_skipLoggingPayload true) ;;;
  r <- MakeRestRequest "POST" path (Some body) false ;;
  match r with
  | (_, Some err) => ret (inr err)
  | (None, None) => panic
  | (Some req, None) =>
    d <- Do req ;;
    let '(obj, _, err) := d in
    modifyClient (set_skipLoggingPayload false) ;;;
    match err with
    | Some err => ret (inr err)
    | None => ret (inl obj)
    end
  end.

(** The token a login payload carries:
    [models.StripQuotes(obj.S("token").String())]. *)
Definition login_token (obj : Container) : string :=
  models_StripQuotes (Container_String (Container_S (Some obj) ["token"])).

(** From [if obj == nil] to the end. *)
Definition Authenticate_store (obj : option Container) : M (option error) :=
  match obj with
  | None => ret (Some (errors_New "Empty response"))
  | Some obj =>
    let token := login_token obj in
    if String.eqb token EmptyString || String.eqb token "{}"
    then ret (Some (errors_New "Invalid Username or Password"))
    else
      c <- getClient ;;
      let a := match AuthToken c with Some a => a | None => mkAuth EmptyString 0 end in
      a <- CalculateExpiry 1200 (mkAuth (stripQuotes token) (Expiry a)) ;;
      modifyClient (set_AuthToken (Some a)) ;;;
      ret None
  end.

Definition Authenticate : M (option error) :=
  b <- Authenticate_body ;;
  match b with
  | inr err => ret (Some err)
  | inl (body, path) =>
    x <- Authenticate_exchange body path ;;
    match x with
    | inr err => ret (Some err)
    | inl obj => Authenticate_store obj
    end
  end.

(** *** [GetVersion] and [CompareVersion] *)

Definition GetVersion : M (string * option error) :=
  r <- MakeRestRequest "GET" "/api/v1/platform/version" None true ;;
  match r with
  | (_, Some err) => ret ("unknown", Some err)
  | (None, None) => panic
  | (Some req, None) =>
    d <- Do req ;;
    let '(obj, _, err) := d in
    match err with
    | Some err => ret ("unknown", Some err)
    | None =>
      match CheckForErrors obj "GET" with
      | Some err => ret ("unknown", Some err)
      | None =>
        let version := stripQuotes (Container_String (Container_S obj ["version"])) in
        if String.eqb version EmptyString
        then ret ("unknown", Some (errors_New "Unable to identify version"))
        else
          modifyClient (set_version version) ;;;
          ret (version, None)
      end
    end
  end.

Definition CompareVersion (v : string) : M (Z * option error) :=
  c <- getClient ;;
  (if String.eqb (version c) EmptyString
   then GetVersion ;;; ret tt
   else ret tt) ;;;
  c <- getClient ;;
  if String.eqb (version c) "unknown"
  then ret (0, Some (errors_New "Could not retrieve version"))
  else
    match version_NewVersion (version c) with
    | inr _ => ret (0, Some (errors_New "Could not parse retrieved version"))
    | inl v1 =>
      match version_NewVersion v with
      | inr _ => ret (0, Some (errors_New "Could not parse version"))
      | inl v2 => ret (Version_Compare v2 v1, None)
      end
    end.

(** *** Construction *)

Definition Option : Type := Client -> Client.

Definition Insecure (insecure : bool) : Option := set_insecure insecure.
Definition Password (password : string) : Option := set_password password.
Definition ProxyUrl (pUrl : string) : Option := set_proxyUrl pUrl.
Definition Domain (domain : string) : Option := set_domain domain.
Definition Platform (platform : string) : Option := set_platform platform.
(** The option [Version]; the name without the underscore is the type of
    parsed versions. *)
Definition Version_ (version : string) : Option := set_version version.
Definition SkipLoggingPayload (skipLoggingPayload : bool) : Option :=
  set_skipLoggingPayload skipLoggingPayload.
Definition MaxRetries (maxRetries : Z) : Option := set_maxRetries maxRetries.
Definition BackoffMinDelay (backoffMinDelay : Z) : Option :=
  set_backoffMinDelay backoffMinDelay.
Definition BackoffMaxDelay (backoffMaxDelay : Z) : Option :=
  set_backoffMaxDelay backoffMaxDelay.
Definition BackoffDelayFactor (backoffDelayFactor : Q) : Option :=
  set_backoffDelayFactor backoffDelayFactor.

(** [&Client{BaseURL: bUrl, username: username, ...}]: the fields not named
    hold their zero values. *)
Definition newClient (bUrl : URL) (username : string) : Client :=
  mkClient bUrl None username EmptyString false false 0 EmptyString
    EmptyString EmptyString EmptyString false 0 0 0 0%Q.

(** [None] is [log.Fatal]: the process exits and no client is returned. *)
Definition initClient (clientUrl username : string) (options : list Option)
    : option Client :=
  match url_Parse clientUrl with
  | inr _ => None
  | inl bUrl =>
    let client := fold_left (fun c option => option c) options (newClient bUrl username) in
    if negb (String.eqb (proxyUrl client) EmptyString) then
      match url_Parse (proxyUrl client) with
      | inr _ => None
      | inl _ => Some client
      end
    else Some client
  end.

(** [GetClient] over the package variable [clientImpl]: the client returned
    is also the new value of the variable. *)
Definition GetClient (clientImpl : option Client) (clientUrl username : string)
    (options : list Option) : option Client :=
  match clientImpl with
  | None => initClient clientUrl username options
  | Some c => Some c
  end.

End Operations.

Arguments Done {lib A} a c w.
Arguments Panic {lib A}.
Arguments OutOfFuel {lib A}.

(** ** The provider: the site service graph resource and the contract
    data source

    The functions of package [mso] that call the client. Their data are the
    dynamically typed values of Go ([interface{}]), and some of them panic:
    on a type assertion that fails, on an index out of range. *)

(** [interface{}] as far as these functions look: nil, strings, slices
    ([[]interface{}]) and maps ([map[string]interface{}]). *)
Inductive Value : Type :=
| VNil
| VString (s : string)
| VList (items : list Value)
| VMap (entries : list (string * Value)).

(** [m[k]]: nil for a key that is missing. *)
Fixpoint map_index (m : list (string * Value)) (k : string) : Value :=
  match m with
  | [] => VNil
  | (k', v) :: m' => if String.eqb k k' then v else map_index m' k
  end.

(** [v == s] for an [interface{}] and a string: the value is that string. *)
Definition is_string (v : Value) (s : string) : bool :=
  match v with
  | VString s' => String.eqb s s'
  | _ => false
  end.

(** Code without effects that returns or panics. *)
Inductive go (A : Type) : Type :=
| Returns (a : A)
| Panics.

Arguments Returns {A} a.
Arguments Panics {A}.

(** [strings.Split(s, sep)] for a separator of one character. *)
Fixpoint Split (s : string) (sep : ascii) : list string :=
  match s with
  | EmptyString => [EmptyString]
  | String a s' =>
    if Ascii.eqb a sep then EmptyString :: Split s' sep
    else
      match Split s' sep with
      | x :: xs => String a x :: xs
      | [] => [String a EmptyString]
      end
  end.

(** The text [s] holds the character [c]. *)
Fixpoint has_char (c : ascii) (s : string) : bool :=
  match s with
  | EmptyString => false
  | String a s' => Ascii.eqb a c || has_char c s'
  end.

(** The imported packages again, for the provider: [Data] of [container],
    the verb [%s] of [fmt] on a value, and [schema.ResourceData] of the
    Terraform SDK with the two facts about its identifier that the
    properties below use. *)
Class GoSdk (lib : GoLib) : Type := {
  (** [obj.Data()]. *)
  Container_Data : Container -> Value;
  (** What [%s] prints for a value; for a string, the string. *)
  fmt_s : Value -> string;
  fmt_s_string : forall s, fmt_s (VString s) = s;
  (** [*schema.ResourceData]. *)
  ResourceData : Type;
  (** [d.Id()], [d.SetId(id)], [d.Get(key)], [d.Set(key, value)],
      [d.GetOk(key)], [d.HasChange(key)]. *)
  d_Id : ResourceData -> string;
  d_SetId : string -> ResourceData -> ResourceData;
  d_Get : ResourceData -> string -> Value;
  d_Set : string -> Value -> ResourceData -> ResourceData;
  d_GetOk : ResourceData -> string -> Value * bool;
  d_HasChange : ResourceData -> string -> bool;
  d_Id_SetId : forall id d, d_Id (d_SetId id d) = id;
  d_Id_Set : forall key value d, d_Id (d_Set key value d) = d_Id d
}.

Section Provider.

Context {lib : GoLib} {sdk : GoSdk lib}.

(** *** [CustomizeDiff] of the site service graph resource *)

Definition other_provider_connector_type_list : list string :=
  ["none"; "redir"].

Definition firewall_provider_connector_type_list : list string :=
  ["none"; "redir"; "snat"; "dnat"; "snat_dnat"].

(** [for _, value := range list { if value == v { found = true; break } }],
    from [found]. *)
Definition found_in (list : list string) (v : Value) (found : bool) : bool :=
  if existsb (is_string v) list then true else found.

Definition other_error (i : Z) (got : Value) : error :=
  errors_New
    ("The expected value for service_node." ++ itoa i
     ++ ".provider_connector_type have to be one of [none, redir] when service_node."
     ++ itoa i ++ ".service_node_type is other, got " ++ fmt_s got ++ ".").

Definition firewall_error (i : Z) (got : Value) : error :=
  errors_New
    ("The expected value for service_node." ++ itoa i
     ++ ".provider_connector_type have to be one of [none, redir, snat, dnat, snat_dnat] when service_node."
     ++ itoa i ++ ".service_node_type is firewall, got " ++ fmt_s got ++ ".").

(** The body of the loop for the element [val] at index [i]: the error
    returned, or none to go on. *)
Definition CustomizeDiff_node (i : Z) (val : Value) : go (option error) :=
  let found := false in
  match val with
  | VMap serviceNode =>
    let other :=
      if is_string (map_index serviceNode "service_node_type") "other" then
        let found :=
          found_in other_provider_connector_type_list
            (map_index serviceNode "provider_connector_type") found in
        if negb found
        then (found, Some (other_error i (map_index serviceNode "provider_connector_type")))
        else (found, None)
      else (found, None) in
    match other with
    | (_, Some err) => Returns (Some err)
    | (found, None) =>
      if is_string (map_index serviceNode "service_node_type") "firewall" then
        let found :=
          found_in firewall_provider_connector_type_list
            (map_index serviceNode "provider_connector_type") found in
        if negb found
        then Returns (Some (firewall_error i
                              (map_index serviceNode "provider_connector_type")))
        else Returns None
      else Returns None
    end
  | _ => Panics
  end.

Fixpoint CustomizeDiff_loop (i : Z) (serviceNodeMap : list Value)
    : go (option error) :=
  match serviceNodeMap with
  | [] => Returns None
  | val :: rest =>
    match CustomizeDiff_node i val with
    | Returns None => CustomizeDiff_loop (i + 1) rest
    | r => r
    end
  end.

(** [CustomizeDiff], from the new value [valB] of [service_node]. *)
Definition CustomizeDiff (valB : Value) : go (option error) :=
  match valB with
  | VList serviceNodeMap => CustomizeDiff_loop 0 serviceNodeMap
  | _ => Panics
  end.

(** *** [createSiteServiceNodeList] and [setServiceNodeList] *)

(** [graphCont.S("serviceNodes").Data()] *)
Definition serviceNodes_Data (graphCont : Container) : Value :=
  Container_Data (Container_S (Some graphCont) ["serviceNodes"]).

(** The map built for the template node [serviceNode] and the site node
    [siteServiceNodeMap]. *)
Definition site_node (serviceNode siteServiceNodeMap : list (string * Value))
    : Value :=
  VMap [("serviceNodeRef", map_index serviceNode "serviceNodeRef");
        ("device", VMap [("dn", map_index siteServiceNodeMap "device_dn")]);
        ("consumerConnectorType", map_index siteServiceNodeMap "consumer_connector_type");
        ("providerConnectorType", map_index siteServiceNodeMap "provider_connector_type");
        ("consumerInterface", map_index siteServiceNodeMap "consumer_interface");
        ("providerInterface", map_index siteServiceNodeMap "provider_interface")].

(** The loop over the template nodes still to visit, the next at [index]. *)
Fixpoint createSiteServiceNodeList_loop (siteServiceNodes : Value)
    (index : nat) (nodes : list Value) (siteServiceNodeList : list Value)
    : go (list Value) :=
  match nodes with
  | [] => Returns siteServiceNodeList
  | serviceNode :: nodes' =>
    match siteServiceNodes with
    | VList sites =>
      match nth_error sites index with
      | Some (VMap siteServiceNodeMap) =>
        match serviceNode with
        | VMap serviceNode =>
          createSiteServiceNodeList_loop siteServiceNodes (S index) nodes'
            (siteServiceNodeList ++ [site_node serviceNode siteServiceNodeMap])
        | _ => Panics
        end
      | _ => Panics
      end
    | _ => Panics
    end
  end.

Definition createSiteServiceNodeList (msoClient : Client)
    (siteServiceNodes : Value) (graphCont : Container)
    : go (list Value * option error) :=
  match serviceNodes_Data graphCont with
  | VList nodes =>
    match createSiteServiceNodeList_loop siteServiceNodes 0 nodes [] with
    | Returns siteServiceNodeList => Returns (siteServiceNodeList, None)
    | Panics => Panics
    end
  | _ => Panics
  end.

(** The map [setServiceNodeList] builds for the node [val]. *)
Definition state_node (val : Value) : go Value :=
  match val with
  | VMap node =>
    match map_index node "device" with
    | VMap device =>
      Returns
        (VMap [("device_dn", map_index device "dn");
               ("consumer_connector_type", map_index node "consumerConnectorType");
               ("provider_connector_type", map_index node "providerConnectorType");
               ("consumer_interface", map_index node "consumerInterface");
               ("provider_interface", map_index node "providerInterface")])
    | _ => Panics
    end
  | _ => Panics
  end.

Fixpoint setServiceNodeList_loop (nodes : list Value)
    (serviceNodeList : list Value) : go (list Value) :=
  match nodes with
  | [] => Returns serviceNodeList
  | val :: nodes' =>
    match state_node val with
    | Returns serviceNodeMap =>
      setServiceNodeList_loop nodes' (serviceNodeList ++ [serviceNodeMap])
    | Panics => Panics
    end
  end.

Definition setServiceNodeList (graphCont : Container)
    : go (list Value * option error) :=
  match serviceNodes_Data graphCont with
  | VList nodes =>
    match setServiceNodeList_loop nodes [] with
    | Returns serviceNodeList => Returns (serviceNodeList, None)
    | Panics => Panics
    end
  | _ => Panics
  end.

(** *** What the functions above amount to *)

(** The connector types [CustomizeDiff] allows for a node, when its type
    restricts them. *)
Definition allowed_connectors (serviceNode : list (string * Value))
    : option (list string) :=
  if is_string (map_index serviceNode "service_node_type") "other"
  then Some other_provider_connector_type_list
  else if is_string (map_index serviceNode "service_node_type") "firewall"
  then Some firewall_provider_connector_type_list
  else None.

Definition node_accepted (serviceNode : list (string * Value)) : bool :=
  match allowed_connectors serviceNode with
  | Some list =>
    existsb (is_string (map_index serviceNode "provider_connector_type")) list
  | None => true
  end.

Definition node_error (i : Z) (serviceNode : list (string * Value)) : error :=
  if is_string (map_index serviceNode "service_node_type") "other"
  then other_error i (map_index serviceNode "provider_connector_type")
  else firewall_error i (map_index serviceNode "provider_connector_type").

(** The attributes of a configured service node that come back from the
    API. *)
Definition read_back (siteServiceNodeMap : list (string * Value)) : Value :=
  VMap [("device_dn", map_index siteServiceNodeMap "device_dn");
        ("consumer_connector_type", map_index siteServiceNodeMap "consumer_connector_type");
        ("provider_connector_type", map_index siteServiceNodeMap "provider_connector_type");
        ("consumer_interface", map_index siteServiceNodeMap "consumer_interface");
        ("provider_interface", map_index siteServiceNodeMap "provider_interface")].

End Provider.

(** *** The functions that talk to the API *)

Section ProviderCalls.

Context {lib : GoLib} {sdk : GoSdk lib}.

(** Functions of the client and of the provider that are declared in files
    other than the ones at hand. [GetViaURL] and [PatchbyID] are methods of
    the client; the two graph lookups return a container that is not nil
    when they return no error. *)
Variable GetViaURL : string -> M (option Container * option error).
Variable Payload : Type.
Variable GetPatchPayloadList : string -> string -> list Value -> Payload.
Variable PatchbyID : string -> Payload -> M (option Container * option error).
Variable getSiteServiceGraphCont :
  option Container -> string -> string -> string -> string ->
  Container * Z + error.
Variable getTemplateServiceGraphCont :
  option Container -> string -> string -> Container * Z + error.
Variable errorForObjectNotFound :
  error -> string -> option Container -> ResourceData ->
  ResourceData * option error.

Notation "x <- m ;; k" := (bind m (fun x => k))
  (at level 100, m at next level, right associativity).

(** Code that may panic, run among the calls. *)
Definition lift {A : Type} (g : go A) : M A :=
  match g with
  | Returns a => ret a
  | Panics => panic
  end.

(** [v.(string)] *)
Definition as_string (v : Value) : go string :=
  match v with
  | VString s => Returns s
  | _ => Panics
  end.

Definition slash : ascii := ascii_of_nat 47.

(** ["%s/sites/%s/template/%s/serviceGraphs/%s"], the identifier [Create]
    sets. *)
Definition created_id (schemaId siteId templateName graphName : string)
    : string :=
  schemaId ++ "/sites/" ++ siteId ++ "/template/" ++ templateName
  ++ "/serviceGraphs/" ++ graphName.

(** ["%s/templates/%s/serviceGraphs/%s"], the identifier [Import] sets. *)
Definition imported_id (schemaId templateName graphName : string) : string :=
  schemaId ++ "/templates/" ++ templateName ++ "/serviceGraphs/" ++ graphName.

(** The five [d.Set] that [Import] and [Read] share. *)
Definition set_graph_attributes (serviceNodeList : list Value)
    (schemaId templateName siteId graphName : string) (d : ResourceData)
    : ResourceData :=
  let d := d_Set "service_node" (VList serviceNodeList) d in
  let d := d_Set "schema_id" (VString schemaId) d in
  let d := d_Set "template_name" (VString templateName) d in
  let d := d_Set "site_id" (VString siteId) d in
  d_Set "service_graph_name" (VString graphName) d.

(** [Import] once the four names are read off the identifier. *)
Definition Import_of (schemaId siteId templateName graphName : string)
    (d : ResourceData) : M (ResourceData * option error) :=
  r <- GetViaURL ("api/v1/schemas/" ++ schemaId) ;;
  match snd r with
  | Some err => ret (d, Some err)
  | None =>
    match getSiteServiceGraphCont (fst r) schemaId templateName siteId graphName with
    | inr err => ret (d_SetId EmptyString d, Some err)
    | inl (graphCont, _) =>
      s <- lift (setServiceNodeList graphCont) ;;
      let d := set_graph_attributes (fst s) schemaId templateName siteId graphName d in
      let d := d_SetId (imported_id schemaId templateName graphName) d in
      ret (d, None)
    end
  end.

(** The resource data come back changed also with an error; with none, the
    slice returned holds them alone. *)
Definition resourceMSOSchemaSiteServiceGraphImport (d : ResourceData)
    : M (ResourceData * option error) :=
  let get_attribute := Split (d_Id d) slash in
  match nth_error get_attribute 0, nth_error get_attribute 2,
        nth_error get_attribute 4, nth_error get_attribute 6 with
  | Some schemaId, Some siteId, Some templateName, Some graphName =>
    Import_of schemaId siteId templateName graphName d
  | _, _, _, _ => panic
  end.

(** [d.Get(key).(string)] for the four names, in the order of the code. *)
Definition get_names (d : ResourceData) : go (string * string * string * string) :=
  match as_string (d_Get d "schema_id") with
  | Panics => Panics
  | Returns schemaId =>
    match as_string (d_Get d "template_name") with
    | Panics => Panics
    | Returns templateName =>
      match as_string (d_Get d "site_id") with
      | Panics => Panics
      | Returns siteId =>
        match as_string (d_Get d "service_graph_name") with
        | Panics => Panics
        | Returns graphName =>
          Returns (schemaId, templateName, siteId, graphName)
        end
      end
    end
  end.

Definition resourceMSOSchemaSiteServiceGraphRead (d : ResourceData)
    : M (ResourceData * option error) :=
  let nodeIdSt := d_Id d in
  n <- lift (get_names d) ;;
  let '(schemaId, templateName, siteId, graphName) := n in
  r <- GetViaURL ("api/v1/schemas/" ++ schemaId) ;;
  match snd r with
  | Some err => ret (errorForObjectNotFound err (d_Id d) (fst r) d)
  | None =>
    match getSiteServiceGraphCont (fst r) schemaId templateName siteId graphName with
    | inr _ => ret (d_SetId EmptyString d, None)
    | inl (graphCont, _) =>
      s <- lift (setServiceNodeList graphCont) ;;
      let d := set_graph_attributes (fst s) schemaId templateName siteId graphName d in
      let d := d_SetId nodeIdSt d in
      ret (d, None)
    end
  end.

Definition service_node_path (siteId templateName graphName : string) : string :=
  "/sites/" ++ siteId ++ "-" ++ templateName ++ "/serviceGraphs/" ++ graphName
  ++ "/serviceNodes".

Definition resourceMSOSchemaSiteServiceGraphCreate (d : ResourceData)
    : M (ResourceData * option error) :=
  msoClient <- getClient ;;
  n <- lift (get_names d) ;;
  let '(schemaId, templateName, siteId, graphName) := n in
  r <- GetViaURL ("api/v1/schemas/" ++ schemaId) ;;
  match snd r with
  | Some err => ret (d, Some err)
  | None =>
    match getTemplateServiceGraphCont (fst r) templateName graphName with
    | inr err => ret (d, Some err)
    | inl (graphCont, _) =>
      l <- (let (siteServiceNodes, ok) := d_GetOk d "service_node" in
            if ok
            then lift (createSiteServiceNodeList msoClient siteServiceNodes graphCont)
            else ret ([], None)) ;;
      match snd l with
      | Some err => ret (d, Some err)
      | None =>
        let serviceNodePath := service_node_path siteId templateName graphName in
        let siteServiceGraphPayload :=
          GetPatchPayloadList "add" serviceNodePath (fst l) in
        p <- PatchbyID ("/api/v1/schemas/" ++ schemaId) siteServiceGraphPayload ;;
        match snd p with
        | Some err => ret (d, Some err)
        | None =>
          let d := d_SetId (created_id schemaId siteId templateName graphName) d in
          resourceMSOSchemaSiteServiceGraphRead d
        end
      end
    end
  end.

Definition resourceMSOSchemaSiteServiceGraphUpdate (d : ResourceData)
    : M (ResourceData * option error) :=
  msoClient <- getClient ;;
  n <- lift (get_names d) ;;
  let '(schemaId, templateName, siteId, graphName) := n in
  r <- GetViaURL ("api/v1/schemas/" ++ schemaId) ;;
  match snd r with
  | Some err => ret (d, Some err)
  | None =>
    let finish := resourceMSOSchemaSiteServiceGraphRead (d_SetId (d_Id d) d) in
    if d_HasChange d "service_node" then
      match getTemplateServiceGraphCont (fst r) templateName graphName with
      | inr err => ret (d, Some err)
      | inl (graphCont, _) =>
        let (siteServiceNodes, ok) := d_GetOk d "service_node" in
        if ok then
          l <- lift (createSiteServiceNodeList msoClient siteServiceNodes graphCont) ;;
          match snd l with
          | Some err => ret (d, Some err)
          | None =>
            let serviceNodePath := service_node_path siteId templateName graphName in
            let siteServiceGraphPayload :=
              GetPatchPayloadList "replace" serviceNodePath (fst l) in
            p <- PatchbyID ("/api/v1/schemas/" ++ schemaId) siteServiceGraphPayload ;;
            match snd p with
            | Some err => ret (d, Some err)
            | None => finish
            end
          end
        else finish
      end
    else finish
  end.

Definition resourceMSOSchemaSiteServiceGraphDelete (d : ResourceData)
    : M (ResourceData * option error) :=
  ret (d, None).

(** *** [dataSourceMSOTemplateContractRead] *)

(** [models.StripQuotes(c.S(key).String())] *)
Definition quoted_field (c : Container) (key : string) : string :=
  models_StripQuotes (Container_String (Container_S (Some c) [key])).

(** The indices [0 <= i < count]. *)
Definition indices (count : Z) : list Z := map Z.of_nat (seq 0 (Z.to_nat count)).

(** The map built for one filter relationship. *)
Definition filter_map (filterCont : Container) : go Value :=
  match Container_Data (Container_S (Some filterCont) ["filterRef"]) with
  | VString filRef =>
    let split := Split filRef slash in
    match nth_error split 2, nth_error split 4, nth_error split 6 with
    | Some schema, Some template, Some name =>
      match Container_Data (Container_S (Some filterCont) ["directives"]) with
      | VList directives =>
        match Container_Data (Container_S (Some filterCont) ["action"]) with
        | VString action =>
          Returns (VMap [("filter_schema_id", VString schema);
                         ("filter_template_name", VString template);
                         ("filter_name", VString name);
                         ("directives", VList directives);
                         ("action", VString action)])
        | _ => Panics
        end
      | _ => Panics
      end
    | _, _, _ => Panics
    end
  | _ => Panics
  end.

(** The loop over the filter relationships of a contract: the list, or the
    error returned. *)
Fixpoint filters_loop (contractCont : Container) (todo : list Z)
    (filterList : list Value) : go (list Value + error) :=
  match todo with
  | [] => Returns (inl filterList)
  | i :: todo' =>
    match Container_ArrayElement (Some contractCont) i ["filterRelationships"] with
    | inr _ =>
      Returns (inr (errors_New "Unable to parse the filter Relationships list"))
    | inl filterCont =>
      match filter_map filterCont with
      | Returns filterMap =>
        filters_loop contractCont todo' (filterList ++ [filterMap])
      | Panics => Panics
      end
    end
  end.

Definition contract_id (schemaId stateTemplate stateContract : string) : string :=
  schemaId ++ "/templates/" ++ stateTemplate ++ "/contracts/" ++ stateContract.

(** What is done for the contract found: the data and the error returned,
    nil when the search ends with [found]. With an error of [ArrayCount] the
    count of filter relationships is 0. *)
Definition contract_found (d : ResourceData)
    (schemaId stateTemplate stateContract apiTemplate apiContract : string)
    (contractCont : Container) : go (ResourceData * option error) :=
  let d := d_SetId (contract_id schemaId stateTemplate stateContract) d in
  let d := d_Set "contract_name" (VString apiContract) d in
  let d := d_Set "schema_id" (VString schemaId) d in
  let d := d_Set "template_name" (VString apiTemplate) d in
  let d := d_Set "display_name" (VString (quoted_field contractCont "displayName")) d in
  let d := d_Set "filter_type" (VString (quoted_field contractCont "filterType")) d in
  let d := d_Set "scope" (VString (quoted_field contractCont "scope")) d in
  let count :=
    match Container_ArrayCount (Some contractCont) ["filterRelationships"] with
    | inl count => count
    | inr _ => 0
    end in
  match filters_loop contractCont (indices count) [] with
  | Panics => Panics
  | Returns (inr err) => Returns (d, Some err)
  | Returns (inl filterList) =>
    Returns (d_Set "filter_relationships" (VList filterList) d, None)
  end.

(** How the loop over the contracts of a template ends: with what the
    function then returns ([found] and [break] lead to [return nil]), or
    with [found] still false. *)
Inductive search : Type :=
| Returned (d : ResourceData) (err : option error)
| NotFound.

(** The loop over the contracts of a template named as asked. *)
Fixpoint contracts_loop (d : ResourceData)
    (schemaId stateTemplate stateContract apiTemplate : string)
    (tempCont : Container) (todo : list Z) : go search :=
  match todo with
  | [] => Returns NotFound
  | j :: todo' =>
    match Container_ArrayElement (Some tempCont) j ["contracts"] with
    | inr err => Returns (Returned d (Some err))
    | inl contractCont =>
      let apiContract := quoted_field contractCont "name" in
      if String.eqb apiContract stateContract then
        match contract_found d schemaId stateTemplate stateContract apiTemplate
                apiContract contractCont with
        | Panics => Panics
        | Returns (d, Some err) => Returns (Returned d (Some err))
        | Returns (d, None) => Returns (Returned d None)
        end
      else
        contracts_loop d schemaId stateTemplate stateContract apiTemplate
          tempCont todo'
    end
  end.

(** The loop over the templates; it is left as soon as [found] is set, after
    which the function returns nil. *)
Fixpoint templates_loop (d : ResourceData)
    (schemaId stateTemplate stateContract : string) (cont : option Container)
    (todo : list Z) : go (ResourceData * option error) :=
  match todo with
  | [] =>
    Returns (d, Some (errors_New
                        ("Unable to find the Contract " ++ stateContract
                         ++ " in Template " ++ stateTemplate
                         ++ " of Schema Id " ++ schemaId)))
  | i :: todo' =>
    match Container_ArrayElement cont i ["templates"] with
    | inr err => Returns (d, Some err)
    | inl tempCont =>
      let apiTemplate := quoted_field tempCont "name" in
      if String.eqb apiTemplate stateTemplate then
        match Container_ArrayCount (Some tempCont) ["contracts"] with
        | inr _ => Returns (d, Some (errors_New "Unable to get contract list"))
        | inl contractCount =>
          match contracts_loop d schemaId stateTemplate stateContract apiTemplate
                  tempCont (indices contractCount) with
          | Panics => Panics
          | Returns (Returned d err) => Returns (d, err)
          | Returns NotFound =>
            templates_loop d schemaId stateTemplate stateContract cont todo'
          end
        end
      else templates_loop d schemaId stateTemplate stateContract cont todo'
    end
  end.

Definition dataSourceMSOTemplateContractRead (d : ResourceData)
    : M (ResourceData * option error) :=
  schemaId <- lift (as_string (d_Get d "schema_id")) ;;
  r <- GetViaURL ("api/v1/schemas/" ++ schemaId) ;;
  let (cont, err) := r in
  match err with
  | Some err => ret (d, Some err)
  | None =>
    match Container_ArrayCount cont ["templates"] with
    | inr _ => ret (d, Some (errors_New "No Template found"))
    | inl count =>
      stateTemplate <- lift (as_string (d_Get d "template_name")) ;;
      stateContract <- lift (as_string (d_Get d "contract_name")) ;;
      lift (templates_loop d schemaId stateTemplate stateContract cont
              (indices count))
    end
  end.

(** The contracts named [stateContract] in the templates named
    [stateTemplate], in the order of the document; each template comes with
    the list of its contracts. *)
Definition contract_hits (stateTemplate stateContract : string)
    (templates : list (Container * list Container))
    : list (Container * Container) :=
  flat_map
    (fun tc : Container * list Container =>
       if String.eqb (quoted_field (fst tc) "name") stateTemplate
       then map (pair (fst tc))
                (filter (fun x => String.eqb (quoted_field x "name") stateContract)
                        (snd tc))
       else [])
    templates.

Definition contract_not_found (schemaId stateTemplate stateContract : string)
    : error :=
  errors_New ("Unable to find the Contract " ++ stateContract ++ " in Template "
              ++ stateTemplate ++ " of Schema Id " ++ schemaId).

End ProviderCalls.

(** ** Stand-ins for the imported packages and the network

    A small implementation of [GoLib] and a few scripted networks, on which
    the operations evaluate. *)

Module Fake.

(** JSON documents. *)
Inductive JSON : Type :=
| JNull
| JString (s : string)
| JObject (fields : list (string * JSON))
| JArray (items : list JSON).

Fixpoint field (k : string) (fields : list (string * JSON)) : JSON :=
  match fields with
  | [] => JNull
  | (k', v) :: fields' => if String.eqb k k' then v else field k fields'
  end.

Definition search (obj : option JSON) (path : list string) : JSON :=
  match obj, path with
  | Some (JObject fields), [k] => field k fields
  | _, _ => JNull
  end.

(** A string prints between quotes; what holds no data prints as [{}]. *)
Definition render (j : JSON) : string :=
  match j with
  | JString s => dquote ++ s ++ dquote
  | _ => "{}"
  end.

Definition set (obj : JSON) (value : string) (path : list string) : JSON :=
  match obj, path with
  | JObject fields, [k] => JObject ((k, JString value) :: fields)
  | _, _ => obj
  end.

(** The document with the one field [k], a string. *)
Definition doc (k v : string) : string :=
  "{" ++ dquote ++ k ++ dquote ++ ":" ++ dquote ++ v ++ dquote ++ "}".

Definition doc_open (k : string) : string :=
  "{" ++ dquote ++ k ++ dquote ++ ":" ++ dquote.

Definition doc_close : string := dquote ++ "}".

(** A parser for one-field documents; any other text between braces is read
    as an object without fields. *)
Definition parse_field (k s : string) : option JSON :=
  if HasPrefix s (doc_open k) && HasSuffix s doc_close
  then Some (JObject [(k, JString (TrimSuffix (TrimPrefix s (doc_open k)) doc_close))])
  else None.

Definition parse (s : string) : JSON + error :=
  match parse_field "token" s, parse_field "version" s with
  | Some j, _ => inl j
  | None, Some j => inl j
  | None, None =>
    if HasPrefix s "{" then inl (JObject [])
    else inr (errors_New "invalid character looking for beginning of value")
  end.

Definition array_count (obj : option JSON) (path : list string) : Z + error :=
  match search obj path with
  | JArray items => inl (Z.of_nat (List.length items))
  | _ => inr (errors_New "not an array")
  end.

Definition array_element (obj : option JSON) (i : Z) (path : list string)
    : JSON + error :=
  match search obj path with
  | JArray items =>
    match nth_error items (Z.to_nat i) with
    | Some j => inl j
    | None => inr (errors_New "out of bounds")
    end
  | _ => inr (errors_New "not an array")
  end.

(** URLs are their text; a reference extends the base. Text with a blank
    does not parse. *)
Fixpoint has_blank (s : string) : bool :=
  match s with
  | EmptyString => false
  | String a s' => Ascii.eqb a " "%char || has_blank s'
  end.

Definition url_parse (s : string) : string + error :=
  if has_blank s then inr (errors_New "invalid character in URL") else inl s.

Definition new_request_error (method url : string) : option error :=
  if has_blank url then Some (errors_New "invalid character in host name")
  else None.

(** Versions are their numeric segments. *)
Definition digit (a : ascii) : option Z :=
  let n := Z.of_nat (nat_of_ascii a) in
  if (48 <=? n) && (n <=? 57) then Some (n - 48) else None.

Fixpoint parse_segments (s : string) (cur : option Z) (acc : list Z)
    : option (list Z) :=
  match s with
  | EmptyString =>
    match cur with
    | Some n => Some (List.rev (n :: acc))
    | None => None
    end
  | String a s' =>
    match digit a with
    | Some d =>
      parse_segments s' (Some (10 * match cur with Some n => n | None => 0 end + d)) acc
    | None =>
      if Ascii.eqb a "."%char then
        match cur with
        | Some n => parse_segments s' None (n :: acc)
        | None => None
        end
      else None
    end
  end.

Definition new_version (s : string) : list Z + error :=
  match parse_segments s None [] with
  | Some segments => inl segments
  | None => inr (errors_New ("Malformed version: " ++ s))
  end.

Definition all_zero (l : list Z) : bool := forallb (Z.eqb 0) l.

(** Three-way comparison, segment by segment; missing segments count as 0. *)
Fixpoint compare (a b : list Z) : Z :=
  match a, b with
  | [], _ => if all_zero b then 0 else -1
  | _, [] => if all_zero a then 0 else 1
  | x :: a', y :: b' =>
    if x <? y then -1 else if y <? x then 1 else compare a' b'
  end.

(** The stand-in library; [bytes_nil] is what [Bytes] does on a nil
    receiver. *)
Definition lib (bytes_nil : option string) : GoLib := {|
  Container := JSON;
  ParseJSON := parse;
  Container_S := search;
  Container_String := render;
  Container_Set := set;
  Container_Bytes := render;
  Container_Bytes_nil := bytes_nil;
  Container_ArrayCount := array_count;
  Container_ArrayElement := array_element;
  models_StripQuotes := stripQuotes;
  CheckForErrors := fun _ _ => None;
  URL := string;
  url_Parse := url_parse;
  URL_setQuery := fun u k v => u ++ "?" ++ k ++ "=" ++ v;
  URL_ResolveReference := fun base ref => base ++ ref;
  URL_String := fun u => u;
  http_NewRequest_error := new_request_error;
  Version := list Z;
  version_NewVersion := new_version;
  Version_Compare := compare
|}.

(** A network that gives every request the same reply, and a random source
    that always draws [u]. *)
Definition env_const (reply : Response + error) (u : Q) : Env :=
  mkEnv (fun _ _ => reply) (fun _ => u).

(** A network that replies by script, then with [reply] for ever. *)
Definition env_script (script : list (Response + error)) (reply : Response + error)
    (u : Q) : Env :=
  mkEnv (fun k _ => nth k script reply) (fun _ => u).

Definition status (code : Z) (body : string) : Response + error :=
  inl (mkResponse code body None).

(** A client of the classic platform with the given retry budget. *)
Definition client (bytes_nil : option string) (retries : Z) : @Client (lib bytes_nil) :=
  @mkClient (lib bytes_nil) "https://mso.example" None "admin" "secret" false false 0
    EmptyString EmptyString EmptyString EmptyString false retries 0 0 0%Q.

Definition get (path : string) : Request :=
  mkRequest "GET" ("https://mso.example" ++ path) None [].

(** A client that retries twice. *)
Definition retry2 : @Client (lib None) := client None 2.

(** The replies of the scenarios below. *)
Definition not_found : Response := mkResponse 404 "page not found" None.
Definition unavailable : Response := mkResponse 503 "busy" None.
Definition logged_in : Response := mkResponse 200 (doc "token" "abc") None.
Definition no_token : Response := mkResponse 200 (doc "token" EmptyString) None.

(** A client that holds a token from an earlier login. *)
Definition client_logged_in : @Client (lib None) :=
  set_AuthToken (Some (mkAuth "old" 7)) retry2.

(** A client of the platform [nd], built with [SkipLoggingPayload(true)]
    and no login domain. *)
Definition options_nd : list (@Option (lib None)) :=
  [Password "secret"; Platform "nd"; SkipLoggingPayload true; MaxRetries 2].

Definition client_nd : @Client (lib None) :=
  fold_left (fun c option => option c) options_nd
    (newClient (lib := lib None) "https://nd.example" "admin").

(** A client whose base URL no request can be built from. *)
Definition client_bad_base : @Client (lib None) :=
  @mkClient (lib None) "https://mso example" None "admin" "secret" false false 0
    EmptyString EmptyString EmptyString EmptyString false 2 0 0 0%Q.

(** A client built with a password and nothing else. *)
Definition client_default : option (@Client (lib None)) :=
  initClient "https://mso.example" "admin" [Password "secret"].

(** [a] is the larger version when [compare] says so both ways round. *)
Definition larger (a b : list Z) : Prop := compare a b = 1 /\ compare b a = -1.

(** A network that answers 429, then 503, then 200 with a token. *)
Definition busy_twice : Env :=
  env_script [status 429 "slow down"; status 503 "busy"] (inl logged_in) (1 # 4).

(** The same library with a parser that reads every body as the document
    [reply]. *)
Definition lib_reading (reply : JSON) : GoLib := {|
  Container := JSON;
  ParseJSON := fun _ => inl reply;
  Container_S := search;
  Container_String := render;
  Container_Set := set;
  Container_Bytes := render;
  Container_Bytes_nil := None;
  Container_ArrayCount := array_count;
  Container_ArrayElement := array_element;
  models_StripQuotes := stripQuotes;
  CheckForErrors := fun _ _ => None;
  URL := string;
  url_Parse := url_parse;
  URL_setQuery := fun u k v => u ++ "?" ++ k ++ "=" ++ v;
  URL_ResolveReference := fun base ref => base ++ ref;
  URL_String := fun u => u;
  http_NewRequest_error := new_request_error;
  Version := list Z;
  version_NewVersion := new_version;
  Version_Compare := compare
|}.

Definition named (name id : string) : JSON :=
  JObject [("name", JString name); ("id", JString id)].

(** A listing of two login domains. *)
Definition login_domains : JSON :=
  JObject [("domains", JArray [named "local" "0000"; named "radius" "1111"])].

Definition client_reading (reply : JSON) (domain : string)
    : @Client (lib_reading reply) :=
  @mkClient (lib_reading reply) "https://mso.example" None "admin" "secret" false
    false 0 EmptyString domain EmptyString EmptyString false 2 0 0 0%Q.

(** A client of the classic platform with the login domain "radius". *)
Definition client_radius : @Client (lib None) :=
  @mkClient (lib None) "https://mso.example" None "admin" "secret" false false 0
    EmptyString "radius" EmptyString EmptyString false 2 0 0 0%Q.

(** [Data]: the document as a value of Go. *)
Fixpoint data (j : JSON) : Value :=
  match j with
  | JNull => VNil
  | JString s => VString s
  | JObject fields =>
    VMap ((fix entries (l : list (string * JSON)) : list (string * Value) :=
             match l with
             | [] => []
             | (k, v) :: l' => (k, data v) :: entries l'
             end) fields)
  | JArray items =>
    VList ((fix values (l : list JSON) : list Value :=
              match l with
              | [] => []
              | x :: l' => data x :: values l'
              end) items)
  end.

(** The other way round. *)
Fixpoint document (v : Value) : JSON :=
  match v with
  | VNil => JNull
  | VString s => JString s
  | VMap entries =>
    JObject ((fix fields (l : list (string * Value)) : list (string * JSON) :=
                match l with
                | [] => []
                | (k, x) :: l' => (k, document x) :: fields l'
                end) entries)
  | VList items =>
    JArray ((fix elements (l : list Value) : list JSON :=
               match l with
               | [] => []
               | x :: l' => document x :: elements l'
               end) items)
  end.

Definition print_s (v : Value) : string :=
  match v with
  | VNil => "%!s(<nil>)"
  | VString s => s
  | VList _ => "[...]"
  | VMap _ => "map[...]"
  end.

(** Resource data: an identifier and the attributes set, the latest first. *)
Record Data : Type := mkData {
  id : string;
  attributes : list (string * Value)
}.

Definition sdk (lib : GoLib) (Data_of : @Container lib -> Value) : GoSdk lib := {|
  Container_Data := Data_of;
  fmt_s := print_s;
  fmt_s_string := fun _ => eq_refl;
  ResourceData := Data;
  d_Id := id;
  d_SetId := fun i d => mkData i (attributes d);
  d_Get := fun d k => map_index (attributes d) k;
  d_Set := fun k v d => mkData (id d) ((k, v) :: attributes d);
  d_GetOk := fun d k =>
    (map_index (attributes d) k,
     match map_index (attributes d) k with VNil => false | _ => true end);
  d_HasChange := fun _ _ => true;
  d_Id_SetId := fun _ _ => eq_refl;
  d_Id_Set := fun _ _ _ => eq_refl
|}.

Definition sdk0 : GoSdk (lib None) := sdk (lib None) data.

(** Two service nodes of a template and their configuration at a site. *)
Definition template_nodes : list (list (string * Value)) :=
  [[("name", VString "fw"); ("serviceNodeRef", VString "/schemas/s1/templates/t1/serviceGraphs/g1/serviceNodes/fw")];
   [("name", VString "lb"); ("serviceNodeRef", VString "/schemas/s1/templates/t1/serviceGraphs/g1/serviceNodes/lb")]].

Definition site_nodes : list (list (string * Value)) :=
  [[("device_dn", VString "uni/tn-t/lDevVip-fw");
    ("service_node_type", VString "firewall");
    ("consumer_connector_type", VString "none");
    ("provider_connector_type", VString "snat");
    ("consumer_interface", VString "in");
    ("provider_interface", VString "out")];
   [("device_dn", VString "uni/tn-t/lDevVip-lb");
    ("service_node_type", VString "other");
    ("consumer_connector_type", VString "none");
    ("provider_connector_type", VString "redir");
    ("consumer_interface", VString "one");
    ("provider_interface", VString "two")]].

(** The graph of a template and the graph of a site with the given service
    nodes. *)
Definition graph (nodes : list Value) : JSON :=
  JObject [("serviceNodes", document (VList nodes))].

(** The nodes sent to the API for [site_nodes]. *)
Definition created_nodes : list Value :=
  map (fun p => site_node (fst p) (snd p)) (combine template_nodes site_nodes).

(** A schema with two templates; the second holds the contract "web" and
    its filter. *)
Definition filter_web : JSON :=
  JObject [("filterRef", JString "/schemas/s1/templates/t1/filters/http");
           ("directives", JArray [JString "none"]);
           ("action", JString "permit")].

Definition contract (name : string) (filters : list JSON) : JSON :=
  JObject [("name", JString name); ("displayName", JString name);
           ("filterType", JString "bothWay"); ("scope", JString "context");
           ("filterRelationships", JArray filters)].

Definition template (name : string) (contracts : list JSON) : JSON :=
  JObject [("name", JString name); ("contracts", JArray contracts)].

Definition schema_templates : list (JSON * list JSON) :=
  [(template "t0" [contract "web" []], [contract "web" []]);
   (template "t1" [contract "db" []; contract "web" [filter_web]],
    [contract "db" []; contract "web" [filter_web]])].

Definition schema : JSON :=
  JObject [("templates", JArray (map fst schema_templates))].

(** The API as the provider sees it: every schema is [schema], and the
    one site graph is "g1", with the nodes [nodes]. *)
Definition get_schema (url : string)
    : @M (lib None) (option JSON * option error) :=
  fun c w =>
    Done (Some schema, None) c (mkWorld (S (calls w)) (draws w) (slept w) (now w)).

Definition site_graph (nodes : list Value) (cont : option JSON)
    (schemaId templateName siteId graphName : string) : JSON * Z + error :=
  if String.eqb graphName "g1" then inl (graph nodes, 0)
  else inr (errors_New "Unable to find the service graph").

Definition not_found_gone (err : error) (id : string) (cont : option JSON)
    (d : Data) : Data * option error :=
  (mkData EmptyString (attributes d), None).

(** Resource data with the identifier [i] and the four names set. *)
Definition resource (i : string) : Data :=
  mkData i [("schema_id", VString "s1"); ("template_name", VString "t1");
            ("site_id", VString "site1"); ("service_graph_name", VString "g1");
            ("contract_name", VString "web")].

End Fake.

(** ** The outcome of one attempt

    The classification that drives the loop of [DoWithRetryFunc], as a
    function of the reply to the attempt. *)

Section Outcomes.

Context {lib : GoLib}.

Inductive AttemptOutcome : Type :=
| SuccessWithPayload (obj : Container) (resp : Response)
| SuccessNoContent
| RetryableTransportError (err : error)
| RetryableStatus (resp : Response)
| RetryableMalformedSuccessBody (resp : Response)
| CallerSignaledRetry (obj : Container) (resp : Response)
| NonRetryableError (resp : Response).

Definition classify (retryFunc : option CallbackRetryFunc)
    (reply : Response + error) : AttemptOutcome :=
  match reply with
  | inr err => RetryableTransportError err
  | inl resp =>
    let code := StatusCode resp in
    if code =? 204 then SuccessNoContent
    else if (200 <=? code) && (code <? 300) then
      match ParseJSON (BodyBytes resp) with
      | inr _ => RetryableMalformedSuccessBody resp
      | inl obj =>
        if match retryFunc with Some f => f obj | None => false end
        then CallerSignaledRetry obj resp
        else SuccessWithPayload obj resp
      end
    else if (code =? 429) || (code =? 503) then RetryableStatus resp
    else NonRetryableError resp
  end.

Definition retryable (o : AttemptOutcome) : bool :=
  match o with
  | RetryableTransportError _ | RetryableStatus _
  | RetryableMalformedSuccessBody _ | CallerSignaledRetry _ _ => true
  | SuccessWithPayload _ _ | SuccessNoContent | NonRetryableError _ => false
  end.

(** What the loop returns on an outcome that ends it, and on a retryable
    outcome met at attempt [attempts] with the budget spent. *)
Definition returned (o : AttemptOutcome) (attempts : Z) : DoResult :=
  match o with
  | SuccessWithPayload obj resp => (Some obj, Some resp, None)
  | SuccessNoContent => (None, None, None)
  | NonRetryableError resp => (None, Some resp, ReadErr resp)
  | RetryableTransportError err => (None, None, Some err)
  | RetryableStatus resp | RetryableMalformedSuccessBody resp =>
    (None, Some resp, Some (retries_exhausted (StatusCode resp) attempts))
  | CallerSignaledRetry obj resp =>
    (Some obj, Some resp, Some (retries_exhausted (StatusCode resp) attempts))
  end.

(** The world after one more round trip, and after one more backoff sleep
    of the client [c] at attempt [attempts]. *)
Definition tick (w : World) : World :=
  mkWorld (S (calls w)) (draws w) (slept w) (now w).

Definition nap (env : Env) (c : Client) (attempts : Z) (w : World) : World :=
  let d := Duration_of_float (backoff_value c attempts (rand_Float64 env (draws w))) in
  mkWorld (calls w) (S (draws w)) (d :: slept w) (now w + d).

(** A reply that asks for a retry whatever its body: the transport failed,
    or the status is 429 or 503. *)
Definition failed_or_throttled (reply : Response + error) : Prop :=
  match reply with
  | inr _ => True
  | inl resp => StatusCode resp = 429 \/ StatusCode resp = 503
  end.

(** The fields no method of the client assigns to. *)
Definition fixed_config (c : Client)
    : URL * string * string * bool * bool * Z * string * string * Z * Z * Z * Q :=
  (BaseURL c, username c, password c, insecure c, reqTimeoutSet c,
   reqTimeoutVal c, proxyUrl c, platform c, maxRetries c, backoffMinDelay c,
   backoffMaxDelay c, backoffDelayFactor c).

(** Every field set through a construction option, the login domain, the
    declared version and the payload-logging flag included. *)
Definition configuration (c : Client)
    : URL * string * string * bool * bool * Z * string * string * Z * Z * Z * Q
      * string * string * bool :=
  (fixed_config c, domain c, version c, skipLoggingPayload c).

(** An option that leaves the retry budget alone. *)
Definition keeps_maxRetries (option : Option) : Prop :=
  forall c, maxRetries (option c) = maxRetries c.

End Outcomes.

(** ** Runs of the retry loop *)

Section Traces.

Context {lib : GoLib}.

(** The world after [k] attempts in a row that were retried, the first of
    them counted [attempts]. *)
Fixpoint naps (env : Env) (c : Client) (attempts : Z) (k : nat) (w : World)
    : World :=
  match k with
  | O => w
  | S k' => naps env c (attempts + 1) k' (nap env c attempts (tick w))
  end.

(** What the retry predicate says of a payload; no predicate says no. *)
Definition asks_retry (retryFunc : option CallbackRetryFunc) (obj : Container)
    : bool :=
  match retryFunc with
  | Some f => f obj
  | None => false
  end.


(** The name and the identifier [GetDomainId] reads off an element of the
    listing. *)
Definition domain_name (e : Container) : string :=
  models_StripQuotes (Container_String (Container_S (Some e) ["name"])).

Definition domain_id (e : Container) : string :=
  models_StripQuotes (Container_String (Container_S (Some e) ["id"])).

(** What stops the scan of [GetDomainId] at an element: it cannot be read,
    or it bears the name looked for. *)
Definition stops_scan (domain : string) (x : Container + error) : bool :=
  match x with
  | inl e => String.eqb (domain_name e) domain
  | inr _ => true
  end.

Definition scan_result (domain : string) (x : option (Container + error))
    : string * option error :=
  match x with
  | Some (inl e) => (domain_id e, None)
  | Some (inr err) => (EmptyString, Some err)
  | None =>
    (EmptyString,
     Some (errors_New ("Unable to find domain id for domain " ++ domain)))
  end.


End Traces.

(** ** Proof steps *)

(** Case analysis on the scrutinee of the first [match] of a run [H]. *)
Ltac run_case H :=
  match type of H with
  | context [match ?x with _ => _ end] =>
    lazymatch x with
    | context [match _ with _ => _ end] => fail
    | _ => destruct x eqn:?
    end
  end.

Ltac run_cases H := repeat (run_case H; try discriminate H).

(** * Properties *)

Section Properties.

Context {lib : GoLib}.
Variable env : Env.

Lemma bind_Done_inv {A B : Type} (m : M A) (k : A -> M B) c w b c2 w2 :
  bind m k c w = Done b c2 w2 ->
  exists a c1 w1, m c w = Done a c1 w1 /\ k a c1 w1 = Done b c2 w2.
Proof.
  unfold bind. destruct (m c w) as [a c1 w1| |]; try discriminate.
  intros H. exists a, c1, w1. split; [reflexivity | exact H].
Qed.

Lemma bind_Done {A B : Type} (m : M A) (k : A -> M B) c w a c1 w1 :
  m c w = Done a c1 w1 -> bind m k c w = k a c1 w1.
Proof. unfold bind. intros ->. reflexivity. Qed.

(** [backoff] either refuses at once or draws, sleeps and accepts. *)
Lemma backoff_exhausted (attempts : Z) c w :
  attempts > maxRetries c -> backoff env attempts c w = Done false c w.
Proof.
  intros H. unfold backoff, bind, getClient.
  destruct (Z.gtb_spec attempts (maxRetries c)); [reflexivity | lia].
Qed.

Lemma backoff_sleeps (attempts : Z) c w :
  attempts <= maxRetries c ->
  backoff env attempts c w = Done true c (nap env c attempts w).
Proof.
  intros H. unfold backoff, bind, getClient.
  destruct (Z.gtb_spec attempts (maxRetries c)); [lia | reflexivity].
Qed.

(** One iteration of the loop, by the outcome of its attempt. *)
Lemma loop_returns fuel req retryFunc attempts c w :
  let o := classify retryFunc (transport env (calls w) req) in
  retryable o = false ->
  DoWithRetryFunc_loop env (S fuel) req retryFunc attempts c w
  = Done (returned o attempts) c (tick w).
Proof.
  cbn zeta. unfold classify. cbn [DoWithRetryFunc_loop].
  unfold bind at 1. unfold httpClient_Do at 1. fold (tick w).
  destruct (transport env (calls w) req) as [resp|err]; [|discriminate].
  destruct (StatusCode resp =? 204) eqn:E204; [reflexivity|].
  destruct ((200 <=? StatusCode resp) && (StatusCode resp <? 300)) eqn:E2xx.
  - destruct (ParseJSON (BodyBytes resp)) as [obj|perr]; [|discriminate].
    destruct (match retryFunc with Some f => f obj | None => false end);
      [discriminate | reflexivity].
  - destruct ((StatusCode resp =? 429) || (StatusCode resp =? 503));
      [discriminate | reflexivity].
Qed.

Lemma loop_exhausted fuel req retryFunc attempts c w :
  let o := classify retryFunc (transport env (calls w) req) in
  retryable o = true ->
  attempts > maxRetries c ->
  DoWithRetryFunc_loop env (S fuel) req retryFunc attempts c w
  = Done (returned o attempts) c (tick w).
Proof.
  cbn zeta. unfold classify. intros Hr Ha. cbn [DoWithRetryFunc_loop].
  unfold bind at 1. unfold httpClient_Do at 1. fold (tick w).
  destruct (transport env (calls w) req) as [resp|err].
  - destruct (StatusCode resp =? 204) eqn:E204; [discriminate|].
    destruct ((200 <=? StatusCode resp) && (StatusCode resp <? 300)) eqn:E2xx.
    + destruct (ParseJSON (BodyBytes resp)) as [obj|perr].
      * destruct (match retryFunc with Some f => f obj | None => false end);
          [|discriminate].
        destruct ((StatusCode resp =? 429) || (StatusCode resp =? 503));
          unfold bind; rewrite (backoff_exhausted _ _ _ Ha); reflexivity.
      * destruct ((StatusCode resp =? 429) || (StatusCode resp =? 503));
          unfold bind; rewrite (backoff_exhausted _ _ _ Ha); reflexivity.
    + destruct ((StatusCode resp =? 429) || (StatusCode resp =? 503));
        [|discriminate].
      unfold bind; rewrite (backoff_exhausted _ _ _ Ha); reflexivity.
  - unfold bind; rewrite (backoff_exhausted _ _ _ Ha); reflexivity.
Qed.

Lemma loop_retries fuel req retryFunc attempts c w :
  retryable (classify retryFunc (transport env (calls w) req)) = true ->
  attempts <= maxRetries c ->
  DoWithRetryFunc_loop env (S fuel) req retryFunc attempts c w
  = DoWithRetryFunc_loop env fuel req retryFunc (wrap_int (attempts + 1)) c
      (nap env c attempts (tick w)).
Proof.
  unfold classify. intros Hr Ha. cbn [DoWithRetryFunc_loop].
  unfold bind at 1. unfold httpClient_Do at 1. fold (tick w).
  destruct (transport env (calls w) req) as [resp|err].
  - destruct (StatusCode resp =? 204) eqn:E204; [discriminate|].
    destruct ((200 <=? StatusCode resp) && (StatusCode resp <? 300)) eqn:E2xx.
    + destruct (ParseJSON (BodyBytes resp)) as [obj|perr].
      * destruct (match retryFunc with Some f => f obj | None => false end);
          [|discriminate].
        destruct ((StatusCode resp =? 429) || (StatusCode resp =? 503));
          unfold bind; rewrite (backoff_sleeps _ _ _ Ha); reflexivity.
      * destruct ((StatusCode resp =? 429) || (StatusCode resp =? 503));
          unfold bind; rewrite (backoff_sleeps _ _ _ Ha); reflexivity.
    + destruct ((StatusCode resp =? 429) || (StatusCode resp =? 503));
        [|discriminate].
      unfold bind; rewrite (backoff_sleeps _ _ _ Ha); reflexivity.
  - unfold bind; rewrite (backoff_sleeps _ _ _ Ha); reflexivity.
Qed.

Lemma wrap_int_small (z : Z) : int_min <= z <= int_max -> wrap_int z = z.
Proof.
  unfold wrap_int, int_min, int_max. intros H.
  rewrite Z.mod_small; lia.
Qed.

Lemma DoWithRetryFunc_unfold req retryFunc c w :
  DoWithRetryFunc env req retryFunc c w
  = DoWithRetryFunc_loop env (S (Z.to_nat (maxRetries c))) req retryFunc 1 c w.
Proof. reflexivity. Qed.

(** With [k] retries left in the budget the loop returns within [k + 1]
    iterations, and the client it returns with is the one it started with. *)
Lemma loop_total req retryFunc c (k : nat) :
  forall fuel attempts w,
    1 <= attempts -> maxRetries c < int_max ->
    maxRetries c + 1 - attempts <= Z.of_nat k ->
    (k < fuel)%nat ->
    exists r w', DoWithRetryFunc_loop env fuel req retryFunc attempts c w
                 = Done r c w'.
Proof.
  induction k as [|k IH]; intros fuel attempts w Ha Hm Hk Hf;
    (destruct fuel as [|fuel]; [lia|]);
    destruct (retryable (classify retryFunc (transport env (calls w) req))) eqn:R.
  - eexists _, _. apply loop_exhausted; [exact R | lia].
  - eexists _, _. apply loop_returns. exact R.
  - destruct (Z_le_gt_dec attempts (maxRetries c)) as [Hle|Hgt].
    + rewrite (loop_retries _ _ _ _ _ _ R Hle).
      rewrite wrap_int_small by (unfold int_min, int_max in *; lia).
      apply IH; lia.
    + eexists _, _. apply loop_exhausted; [exact R | exact Hgt].
  - eexists _, _. apply loop_returns. exact R.
Qed.

(** [DoWithRetryFunc] returns, and leaves the client as it found it. *)
Lemma DoWithRetryFunc_total req retryFunc c w :
  maxRetries c < int_max ->
  exists r w', DoWithRetryFunc env req retryFunc c w = Done r c w'.
Proof.
  intros Hm. rewrite DoWithRetryFunc_unfold.
  apply (loop_total req retryFunc c (Z.to_nat (maxRetries c))); lia.
Qed.

Lemma loop_client fuel req retryFunc :
  forall attempts c w r c' w',
    DoWithRetryFunc_loop env fuel req retryFunc attempts c w = Done r c' w' ->
    c' = c.
Proof.
  induction fuel as [|fuel IH]; intros attempts c w r c' w' H; [discriminate|].
  destruct (retryable (classify retryFunc (transport env (calls w) req))) eqn:R.
  - destruct (Z_le_gt_dec attempts (maxRetries c)) as [Hle|Hgt].
    + rewrite (loop_retries _ _ _ _ _ _ R Hle) in H. exact (IH _ _ _ _ _ _ H).
    + rewrite (loop_exhausted _ _ _ _ _ _ R Hgt) in H. congruence.
  - rewrite (loop_returns _ _ _ _ _ _ R) in H. congruence.
Qed.

Lemma DoWithRetryFunc_client req retryFunc c w r c' w' :
  DoWithRetryFunc env req retryFunc c w = Done r c' w' -> c' = c.
Proof. rewrite DoWithRetryFunc_unfold. apply loop_client. Qed.

(** While every reply asks for a retry, the loop spends what is left of the
    budget: [k] sleeps and [k + 1] round trips. *)
Lemma loop_spends_budget req retryFunc c (k : nat) :
  forall fuel attempts w,
    1 <= attempts -> maxRetries c < int_max ->
    attempts + Z.of_nat k = maxRetries c + 1 ->
    (k < fuel)%nat ->
    (forall j, (j <= k)%nat ->
       retryable (classify retryFunc (transport env (calls w + j) req)) = true) ->
    exists w',
      DoWithRetryFunc_loop env fuel req retryFunc attempts c w
      = Done (returned (classify retryFunc (transport env (calls w + k) req))
                       (maxRetries c + 1)) c w'
      /\ calls w' = (calls w + k + 1)%nat
      /\ List.length (slept w') = (List.length (slept w) + k)%nat.
Proof.
  induction k as [|k IH]; intros fuel attempts w Ha Hm Hk Hf Hall;
    (destruct fuel as [|fuel]; [lia|]).
  - exists (tick w). rewrite Nat.add_0_r.
    replace (maxRetries c + 1) with attempts by lia.
    split; [|split].
    + apply loop_exhausted; [|lia].
      specialize (Hall 0%nat (Nat.le_refl _)). rewrite Nat.add_0_r in Hall.
      exact Hall.
    + cbn. lia.
    + cbn. lia.
  - assert (R : retryable (classify retryFunc (transport env (calls w) req)) = true).
    { specialize (Hall 0%nat (Nat.le_0_l _)). rewrite Nat.add_0_r in Hall.
      exact Hall. }
    rewrite (loop_retries _ _ _ _ _ _ R) by lia.
    rewrite wrap_int_small by (unfold int_min, int_max in *; lia).
    destruct (IH fuel (attempts + 1) (nap env c attempts (tick w)))
      as (w' & Hrun & Hcalls & Hslept); try lia.
    { intros j Hj. cbn [nap tick calls].
      replace (S (calls w) + j)%nat with (calls w + S j)%nat by lia.
      apply Hall. lia. }
    exists w'. cbn [nap tick calls slept List.length] in *.
    replace (calls w + S k)%nat with (S (calls w) + k)%nat by lia.
    split; [exact Hrun | split; lia].
Qed.

Lemma classify_throttled retryFunc resp :
  StatusCode resp = 429 \/ StatusCode resp = 503 ->
  classify retryFunc (inl resp) = RetryableStatus resp.
Proof. unfold classify. intros [H|H]; rewrite H; reflexivity. Qed.

Lemma failed_or_throttled_retryable retryFunc reply :
  failed_or_throttled reply -> retryable (classify retryFunc reply) = true.
Proof.
  destruct reply as [resp|err]; cbn; [|reflexivity].
  intros [H|H]; rewrite H; reflexivity.
Qed.

Lemma classify_other_status retryFunc resp :
  ~ (200 <= StatusCode resp < 300) ->
  StatusCode resp <> 429 -> StatusCode resp <> 503 ->
  classify retryFunc (inl resp) = NonRetryableError resp.
Proof.
  intros H2 H429 H503. unfold classify.
  destruct (Z.eqb_spec (StatusCode resp) 204); [lia|].
  destruct (Z.leb_spec 200 (StatusCode resp));
    destruct (Z.ltb_spec (StatusCode resp) 300); try lia;
    destruct (Z.eqb_spec (StatusCode resp) 429);
    destruct (Z.eqb_spec (StatusCode resp) 503); try lia; reflexivity.
Qed.

(** C1, as the code has it. A response whose status is neither 2xx (204
    included) nor 429 nor 503 ends [DoWithRetryFunc] on that very attempt:
    one round trip more, no draw and no sleep. The payload returned is nil,
    the response is returned, and the error returned is the one
    [ioutil.ReadAll] left, nil when the body was read: no error is built
    from the status code and the attempt count. *)
Theorem other_status_returns_at_once c req retryFunc w resp :
  transport env (calls w) req = inl resp ->
  ~ (200 <= StatusCode resp < 300) ->
  StatusCode resp <> 429 -> StatusCode resp <> 503 ->
  exists w',
    DoWithRetryFunc env req retryFunc c w
    = Done (None, Some resp, ReadErr resp) c w'
    /\ calls w' = S (calls w) /\ slept w' = slept w /\ draws w' = draws w.
Proof.
  intros Hreply H2 H429 H503. exists (tick w). split; [|repeat split].
  rewrite DoWithRetryFunc_unfold.
  pose proof (loop_returns (Z.to_nat (maxRetries c)) req retryFunc 1 c w) as L.
  cbn zeta in L. rewrite Hreply in L.
  rewrite (classify_other_status _ _ H2 H429 H503) in L.
  exact (L eq_refl).
Qed.

(** C2. With a retry budget [n >= 1] (and [n + 1] an [int]), a request that
    meets only transport failures and responses 429 or 503 makes exactly
    [n + 1] round trips and sleeps exactly [n] times, failures and statuses
    counted by the one counter. When the last reply is a response the error
    returned reads "... status code <code> after <n + 1> attempts"; when it
    is a transport failure that failure is the error returned. *)
Theorem throttled_request_spends_budget c req retryFunc w (n : Z) :
  maxRetries c = n -> 1 <= n < int_max ->
  (forall k, (k <= Z.to_nat n)%nat ->
     failed_or_throttled (transport env (calls w + k) req)) ->
  exists r w',
    DoWithRetryFunc env req retryFunc c w = Done r c w'
    /\ calls w' = (calls w + Z.to_nat n + 1)%nat
    /\ List.length (slept w') = (List.length (slept w) + Z.to_nat n)%nat
    /\ match transport env (calls w + Z.to_nat n) req with
       | inl resp =>
         r = (None, Some resp,
              Some (errors_New
                      ("[ERROR] HTTP Request failed with status code "
                       ++ itoa (StatusCode resp) ++ " after " ++ itoa (n + 1)
                       ++ " attempts")))
       | inr err => r = (None, None, Some err)
       end.
Proof.
  intros Hn Hrange Hall. rewrite DoWithRetryFunc_unfold, Hn.
  destruct (loop_spends_budget req retryFunc c (Z.to_nat n)
              (S (Z.to_nat n)) 1 w) as (w' & Hrun & Hcalls & Hslept);
    try lia.
  { intros j Hj. apply failed_or_throttled_retryable, Hall, Hj. }
  rewrite Hn in Hrun. eexists _, w'. split; [exact Hrun|].
  split; [exact Hcalls|]. split; [exact Hslept|].
  specialize (Hall (Z.to_nat n) (Nat.le_refl _)).
  destruct (transport env (calls w + Z.to_nat n) req) as [resp|err];
    [|reflexivity].
  rewrite (classify_throttled _ _ Hall). reflexivity.
Qed.

Lemma fold_options_maxRetries (options : list Option) :
  Forall keeps_maxRetries options ->
  forall c, maxRetries (fold_left (fun c option => option c) options c)
            = maxRetries c.
Proof.
  induction 1 as [|o options Ho _ IH]; intros c; cbn; [reflexivity|].
  rewrite IH. apply Ho.
Qed.

(** Every named option but [MaxRetries] leaves the retry budget alone. *)
Lemma named_options_keep_maxRetries :
  (forall b, keeps_maxRetries (Insecure b))
  /\ (forall s, keeps_maxRetries (Password s))
  /\ (forall s, keeps_maxRetries (ProxyUrl s))
  /\ (forall s, keeps_maxRetries (Domain s))
  /\ (forall s, keeps_maxRetries (Platform s))
  /\ (forall s, keeps_maxRetries (Version_ s))
  /\ (forall b, keeps_maxRetries (SkipLoggingPayload b))
  /\ (forall n, keeps_maxRetries (BackoffMinDelay n))
  /\ (forall n, keeps_maxRetries (BackoffMaxDelay n))
  /\ (forall q, keeps_maxRetries (BackoffDelayFactor q)).
Proof. repeat split. Qed.

Lemma initClient_maxRetries clientUrl username options c :
  initClient clientUrl username options = Some c ->
  Forall keeps_maxRetries options ->
  maxRetries c = 0.
Proof.
  unfold initClient. intros H Hopts.
  destruct (url_Parse clientUrl) as [bUrl|]; [|discriminate].
  pose proof (fold_options_maxRetries options Hopts (newClient bUrl username)) as E.
  cbn [newClient maxRetries] in E.
  destruct (negb _) in H.
  - destruct (url_Parse _) in H; [|discriminate].
    injection H as <-. exact E.
  - injection H as <-. exact E.
Qed.

(** C6, as the code has it. A client built without the option [MaxRetries]
    has a retry budget of 0, and [DoWithRetryFunc] retries nothing: a
    retryable outcome of the first attempt ends the loop there, after one
    round trip and no sleep, with the result of a spent budget. *)
Theorem unset_maxRetries_means_no_retry clientUrl username options c req
    retryFunc w :
  initClient clientUrl username options = Some c ->
  Forall keeps_maxRetries options ->
  retryable (classify retryFunc (transport env (calls w) req)) = true ->
  exists w',
    DoWithRetryFunc env req retryFunc c w
    = Done (returned (classify retryFunc (transport env (calls w) req)) 1) c w'
    /\ calls w' = S (calls w) /\ slept w' = slept w.
Proof.
  intros Hinit Hopts R. exists (tick w). split; [|split; reflexivity].
  rewrite DoWithRetryFunc_unfold.
  apply loop_exhausted; [exact R|].
  rewrite (initClient_maxRetries _ _ _ _ Hinit Hopts). lia.
Qed.

(** C7. When the first response is a 200 whose body parses as JSON, and no
    retry predicate is given or the predicate returns false on the payload,
    [DoWithRetryFunc] makes one round trip, does not sleep, and returns the
    payload, the response and a nil error. *)
Theorem ok_response_returns_payload c req retryFunc w resp obj :
  transport env (calls w) req = inl resp ->
  StatusCode resp = 200 ->
  ParseJSON (BodyBytes resp) = inl obj ->
  match retryFunc with Some f => f obj | None => false end = false ->
  exists w',
    DoWithRetryFunc env req retryFunc c w = Done (Some obj, Some resp, None) c w'
    /\ calls w' = S (calls w) /\ slept w' = slept w.
Proof.
  intros Hreply Hcode Hparse Hpred. exists (tick w).
  split; [|split; reflexivity].
  rewrite DoWithRetryFunc_unfold.
  pose proof (loop_returns (Z.to_nat (maxRetries c)) req retryFunc 1 c w) as L.
  cbn zeta in L. rewrite Hreply in L. unfold classify in L.
  cbv zeta in L. rewrite Hcode in L.
  change (200 =? 204) with false in L.
  change ((200 <=? 200) && (200 <? 300)) with true in L.
  cbv beta iota in L. rewrite Hparse in L. cbv beta iota in L.
  destruct retryFunc as [f|]; [rewrite Hpred in L|]; exact (L eq_refl).
Qed.

(** *** The backoff delay *)





(** *** What each method does to the client *)

Lemma body_Bytes_pure body c w bs c' w' :
  body_Bytes body c w = Done bs c' w' -> c' = c /\ w' = w.
Proof.
  unfold body_Bytes, ret, panic. intros H. run_cases H;
    injection H as _ <- <-; split; reflexivity.
Qed.

Lemma MakeRestRequest_pure method path body authenticated c w r c' w' :
  MakeRestRequest method path body authenticated c w = Done r c' w' ->
  c' = c /\ w' = w.
Proof.
  unfold MakeRestRequest, InjectAuthenticationHeader, bind, getClient, ret.
  intros H.
  destruct (url_Parse (gateway_path c path)); [|injection H as _ <- <-; auto].
  destruct (String.eqb method "GET" || String.eqb method "DELETE").
  - run_cases H; injection H as _ <- <-; auto.
  - destruct (body_Bytes body c w) as [bs c1 w1| |] eqn:B; try discriminate H.
    destruct (body_Bytes_pure _ _ _ _ _ _ B) as [-> ->].
    run_cases H; injection H as _ <- <-; auto.
Qed.

Lemma GetDomainId_client domain c w r c' w' :
  GetDomainId env domain c w = Done r c' w' -> c' = c.
Proof.
  unfold GetDomainId. intros H.
  apply bind_Done_inv in H as (r0 & c1 & w1 & HM & H).
  apply MakeRestRequest_pure in HM as [-> ->].
  destruct r0 as [[req|] [err|]]; unfold ret, panic in H;
    try (injection H as _ <- _; reflexivity); try discriminate H.
  apply bind_Done_inv in H as (d & c2 & w2 & HD & H).
  apply DoWithRetryFunc_client in HD as ->.
  destruct d as [[obj resp] err]. unfold ret in H.
  run_cases H; injection H as _ <- _; reflexivity.
Qed.

Lemma Authenticate_body_client c w r c' w' :
  Authenticate_body env c w = Done r c' w' ->
  c' = c
  \/ (platform c = "nd" /\ domain c = EmptyString
      /\ c' = set_domain "DefaultAuth" c).
Proof.
  unfold Authenticate_body. intros H.
  apply bind_Done_inv in H as (c0 & c1 & w1 & HG & H).
  injection HG as <- <- <-.
  apply bind_Done_inv in H as (payload & c1 & w1 & HP & H).
  assert (Hc1 : c1 = c
                \/ (platform c = "nd" /\ domain c = EmptyString
                    /\ c1 = set_domain "DefaultAuth" c)).
  { destruct (String.eqb_spec (platform c) "nd") as [Hnd|_].
    - destruct (String.eqb_spec (domain c) EmptyString) as [Hdom|_];
        injection HP as _ <- _; auto.
    - injection HP as _ <- _. auto. }
  clear HP. destruct payload as [authPayload path].
  destruct (ParseJSON _) as [body|err] in H.
  - apply bind_Done_inv in H as (c2 & c3 & w3 & HG & H).
    injection HG as <- <- <-.
    destruct (negb _) in H.
    + destruct (String.eqb (platform c1) "nd") in H.
      * injection H as _ <- _. exact Hc1.
      * apply bind_Done_inv in H as (d & c4 & w4 & HD & H).
        apply GetDomainId_client in HD as ->.
        unfold ret in H. run_cases H; injection H as _ <- _; exact Hc1.
    + injection H as _ <- _. exact Hc1.
  - injection H as _ <- _. exact Hc1.
Qed.

(** The exchange either stops at a request that cannot be built, the flag
    still up, or goes through [Do], the flag down afterwards. *)
Lemma Authenticate_exchange_client body path c w r c' w' :
  Authenticate_exchange env body path c w = Done r c' w' ->
  let c1 := set_skipLoggingPayload true c in
  (exists req err,
      MakeRestRequest "POST" path (Some body) false c1 w = Done (req, Some err) c1 w
      /\ r = inr err /\ c' = c1 /\ w' = w)
  \/ (exists req d,
         MakeRestRequest "POST" path (Some body) false c1 w
         = Done (Some req, None) c1 w
         /\ Do env req c1 w = Done d c1 w'
         /\ r = match snd d with
                | Some err => inr err
                | None => inl (fst (fst d))
                end
         /\ c' = set_skipLoggingPayload false c1).
Proof.
  unfold Authenticate_exchange. intros H. cbv zeta.
  apply bind_Done_inv in H as (u & c1 & w1 & HS & H).
  injection HS as _ <- <-.
  apply bind_Done_inv in H as (r0 & c2 & w2 & HM & H).
  destruct (MakeRestRequest_pure _ _ _ _ _ _ _ _ _ HM) as [-> ->].
  destruct r0 as [[req|] [err|]]; unfold ret, panic in H; try discriminate H.
  - left. injection H as <- <- <-. exists (Some req), err. auto.
  - right. apply bind_Done_inv in H as (d & c3 & w3 & HD & H).
    pose proof (DoWithRetryFunc_client _ _ _ _ _ _ _ HD) as ->.
    exists req, d. destruct d as [[obj resp] err].
    apply bind_Done_inv in H as (u' & c4 & w4 & HS & H).
    injection HS as _ <- <-. cbn [fst snd].
    destruct err as [err|]; injection H as <- <- <-; auto.
  - left. injection H as <- <- <-. exists None, err. auto.
Qed.

Lemma Authenticate_store_client obj c w r c' w' :
  Authenticate_store obj c w = Done r c' w' ->
  (exists err, r = Some err /\ c' = c /\ w' = w)
  \/ (exists a, r = None /\ c' = set_AuthToken (Some a) c).
Proof.
  unfold Authenticate_store, CalculateExpiry, bind, ret, getClient,
    modifyClient, time_Now.
  intros H. destruct obj as [obj|].
  - destruct (_ || _) in H; injection H as <- <- <-; eauto.
  - injection H as <- <- <-. eauto.
Qed.

Lemma Authenticate_unfold c w body path c1 w1 :
  Authenticate_body env c w = Done (inl (body, path)) c1 w1 ->
  Authenticate env c w
  = match Authenticate_exchange env body path c1 w1 with
    | Done (inr err) c2 w2 => Done (Some err) c2 w2
    | Done (inl obj) c2 w2 => Authenticate_store obj c2 w2
    | Panic => Panic
    | OutOfFuel => OutOfFuel
    end.
Proof.
  intros Hb. unfold Authenticate. rewrite (bind_Done _ _ _ _ _ _ _ Hb).
  unfold bind. destruct (Authenticate_exchange env body path c1 w1) as [[obj|err] c2 w2| |];
    reflexivity.
Qed.

(** A login that fails leaves the stored token as it was. *)
Lemma Authenticate_failure_keeps_token c w err c' w' :
  Authenticate env c w = Done (Some err) c' w' -> AuthToken c' = AuthToken c.
Proof.
  unfold Authenticate. intros H.
  apply bind_Done_inv in H as (b & c1 & w1 & Hb & H).
  assert (T1 : AuthToken c1 = AuthToken c).
  { destruct (Authenticate_body_client _ _ _ _ _ Hb) as [->|(_ & _ & ->)];
      reflexivity. }
  destruct b as [[body path]|e]; [|injection H as _ <- _; exact T1].
  apply bind_Done_inv in H as (x & c2 & w2 & Hx & H).
  assert (T2 : AuthToken c2 = AuthToken c1).
  { destruct (Authenticate_exchange_client _ _ _ _ _ _ _ Hx)
      as [(? & ? & _ & _ & -> & _)|(? & ? & _ & _ & _ & ->)]; reflexivity. }
  destruct x as [obj|e]; [|injection H as _ <- _; congruence].
  destruct (Authenticate_store_client _ _ _ _ _ _ H)
    as [(? & _ & -> & _)|(? & E & _)]; [congruence | discriminate E].
Qed.

(** C4. When the payload of the login exchange carries an empty token, or
    the placeholder [{}], [Authenticate] returns the error "Invalid Username
    or Password" and the stored [AuthToken] is the one from before the
    call. *)
Theorem empty_token_is_refused c w body path c1 w1 obj c2 w2 :
  Authenticate_body env c w = Done (inl (body, path)) c1 w1 ->
  Authenticate_exchange env body path c1 w1 = Done (inl (Some obj)) c2 w2 ->
  login_token obj = EmptyString \/ login_token obj = "{}" ->
  Authenticate env c w
  = Done (Some (errors_New "Invalid Username or Password")) c2 w2
  /\ AuthToken c2 = AuthToken c.
Proof.
  intros Hb Hx Htok.
  assert (Hrun : Authenticate env c w
                 = Done (Some (errors_New "Invalid Username or Password")) c2 w2).
  { rewrite (Authenticate_unfold _ _ _ _ _ _ Hb), Hx.
    unfold Authenticate_store.
    destruct Htok as [-> | ->]; reflexivity. }
  split; [exact Hrun|].
  exact (Authenticate_failure_keeps_token _ _ _ _ _ Hrun).
Qed.

(** C9. Once the login body is built, [Authenticate] raises the
    payload-logging flag. If the login request cannot be built it returns
    that error with the flag still up. Otherwise [Do] runs with the flag up
    and, whatever [Do] returns, [Authenticate] ends with the flag down: the
    value the flag had before the call is not put back. *)
Theorem login_overwrites_logging_flag c w body path c1 w1 :
  Authenticate_body env c w = Done (inl (body, path)) c1 w1 ->
  let c2 := set_skipLoggingPayload true c1 in
  (forall req err,
      MakeRestRequest "POST" path (Some body) false c2 w1
      = Done (req, Some err) c2 w1 ->
      Authenticate env c w = Done (Some err) c2 w1
      /\ skipLoggingPayload c2 = true)
  /\ (forall req,
        MakeRestRequest "POST" path (Some body) false c2 w1
        = Done (Some req, None) c2 w1 ->
        maxRetries c < int_max ->
        exists d w2 e c3 w3,
          Do env req c2 w1 = Done d c2 w2
          /\ skipLoggingPayload c2 = true
          /\ Authenticate env c w = Done e c3 w3
          /\ skipLoggingPayload c3 = false).
Proof.
  intros Hb. cbv zeta. rewrite (Authenticate_unfold _ _ _ _ _ _ Hb).
  unfold Authenticate_exchange.
  assert (Hm : maxRetries (set_skipLoggingPayload true c1) = maxRetries c).
  { destruct (Authenticate_body_client _ _ _ _ _ Hb) as [->|(_ & _ & ->)];
      reflexivity. }
  split.
  - intros req err HM. unfold bind at 1. unfold modifyClient at 1.
    rewrite (bind_Done _ _ _ _ _ _ _ HM).
    split; [|reflexivity]. destruct req; reflexivity.
  - intros req HM Hmax. unfold bind at 1. unfold modifyClient at 1.
    rewrite (bind_Done _ _ _ _ _ _ _ HM).
    destruct (DoWithRetryFunc_total req None (set_skipLoggingPayload true c1) w1)
      as (d & w2 & HD); [rewrite Hm; exact Hmax|].
    change (DoWithRetryFunc env req None) with (Do env req) in HD.
    rewrite (bind_Done _ _ _ _ _ _ _ HD).
    destruct d as [[obj resp] err].
    exists (obj, resp, err), w2.
    destruct err as [err|].
    + exists (Some err), (set_skipLoggingPayload false (set_skipLoggingPayload true c1)), w2.
      repeat split; try reflexivity. exact HD.
    + cbn.
      destruct (Authenticate_store obj
                  (set_skipLoggingPayload false (set_skipLoggingPayload true c1)) w2)
        as [e c3 w3| |] eqn:S.
      * exists e, c3, w3. repeat split; try reflexivity; try exact HD.
        destruct (Authenticate_store_client _ _ _ _ _ _ S)
          as [(? & _ & -> & _)|(? & _ & ->)]; reflexivity.
      * unfold Authenticate_store, CalculateExpiry, bind, ret, getClient,
          modifyClient, time_Now in S.
        destruct obj; [destruct (_ || _) in S|]; discriminate S.
      * unfold Authenticate_store, CalculateExpiry, bind, ret, getClient,
          modifyClient, time_Now in S.
        destruct obj; [destruct (_ || _) in S|]; discriminate S.
Qed.

Lemma Authenticate_client c w e c' w' :
  Authenticate env c w = Done e c' w' -> fixed_config c' = fixed_config c.
Proof.
  unfold Authenticate. intros H.
  apply bind_Done_inv in H as (b & c1 & w1 & Hb & H).
  assert (F1 : fixed_config c1 = fixed_config c).
  { destruct (Authenticate_body_client _ _ _ _ _ Hb) as [->|(_ & _ & ->)];
      reflexivity. }
  destruct b as [[body path]|err]; [|injection H as _ <- _; exact F1].
  apply bind_Done_inv in H as (x & c2 & w2 & Hx & H).
  assert (F2 : fixed_config c2 = fixed_config c1).
  { destruct (Authenticate_exchange_client _ _ _ _ _ _ _ Hx)
      as [(? & ? & _ & _ & -> & _)|(? & ? & _ & _ & _ & ->)]; reflexivity. }
  destruct x as [obj|err]; [|injection H as _ <- _; congruence].
  destruct (Authenticate_store_client _ _ _ _ _ _ H)
    as [(? & _ & -> & _)|(? & _ & ->)]; [congruence|].
  rewrite <- F1, <- F2. reflexivity.
Qed.

Lemma GetVersion_client c w r c' w' :
  GetVersion env c w = Done r c' w' ->
  c' = c \/ exists v, c' = set_version v c.
Proof.
  unfold GetVersion. intros H.
  apply bind_Done_inv in H as (r0 & c1 & w1 & HM & H).
  apply MakeRestRequest_pure in HM as [-> ->].
  destruct r0 as [[req|] [err|]]; unfold ret, panic in H;
    try (injection H as _ <- _; left; reflexivity); try discriminate H.
  apply bind_Done_inv in H as (d & c2 & w2 & HD & H).
  apply DoWithRetryFunc_client in HD as ->.
  destruct d as [[obj resp] err]. unfold bind, modifyClient, ret in H.
  run_cases H; injection H as _ <- _; eauto.
Qed.

Lemma CompareVersion_client v c w r c' w' :
  CompareVersion env v c w = Done r c' w' ->
  c' = c \/ exists v', c' = set_version v' c.
Proof.
  unfold CompareVersion. intros H.
  apply bind_Done_inv in H as (c0 & c1 & w1 & HG & H).
  injection HG as <- <- <-.
  apply bind_Done_inv in H as (u & c1 & w1 & HV & H).
  assert (Hc1 : c1 = c \/ exists v', c1 = set_version v' c).
  { destruct (String.eqb (version c) EmptyString).
    - apply bind_Done_inv in HV as (r0 & c2 & w2 & HV & HR).
      injection HR as _ <- _. exact (GetVersion_client _ _ _ _ _ HV).
    - injection HV as _ <- _. left. reflexivity. }
  clear HV. unfold bind, getClient, ret in H.
  run_cases H; injection H as _ <- _; exact Hc1.
Qed.

(** C5, as the code has it. No method writes the base URL, the user name,
    the password, the TLS and timeout settings, the proxy URL, the platform,
    the retry budget or the backoff settings. The login domain, the
    payload-logging flag and the declared version are written after
    construction: [Authenticate] may set the domain and sets the flag, and
    [GetVersion] sets the version. *)
Theorem methods_keep_fixed_config :
  (forall c w e c' w',
      Authenticate env c w = Done e c' w' -> fixed_config c' = fixed_config c)
  /\ (forall req retryFunc c w r c' w',
        DoWithRetryFunc env req retryFunc c w = Done r c' w' ->
        configuration c' = configuration c)
  /\ (forall method path body authenticated c w r c' w',
        MakeRestRequest method path body authenticated c w = Done r c' w' ->
        configuration c' = configuration c)
  /\ (forall domain c w r c' w',
        GetDomainId env domain c w = Done r c' w' ->
        configuration c' = configuration c)
  /\ (forall c w r c' w',
        GetVersion env c w = Done r c' w' ->
        fixed_config c' = fixed_config c /\ domain c' = domain c
        /\ skipLoggingPayload c' = skipLoggingPayload c)
  /\ (forall v c w r c' w',
        CompareVersion env v c w = Done r c' w' ->
        fixed_config c' = fixed_config c /\ domain c' = domain c
        /\ skipLoggingPayload c' = skipLoggingPayload c).
Proof.
  split; [|split; [|split; [|split; [|split]]]].
  - exact Authenticate_client.
  - intros req retryFunc c w r c' w' H.
    apply DoWithRetryFunc_client in H as ->. reflexivity.
  - intros method path body authenticated c w r c' w' H.
    apply MakeRestRequest_pure in H as [-> _]. reflexivity.
  - intros domain c w r c' w' H.
    apply GetDomainId_client in H as ->. reflexivity.
  - intros c w r c' w' H.
    destruct (GetVersion_client _ _ _ _ _ H) as [->|[v ->]]; auto.
  - intros v c w r c' w' H.
    destruct (CompareVersion_client _ _ _ _ _ _ H) as [->|[v' ->]]; auto.
Qed.

(** C8. With a version cached that parses, [CompareVersion target] makes no
    request and returns [target.Compare(cached)]. Hence, for a [Compare] that
    gives 0 on equal versions, 1 when its receiver is the larger and -1 when
    it is the smaller: the cached version against itself gives 0, a larger
    target gives 1 and a smaller target gives -1. *)
Theorem CompareVersion_of_target_against_cached
    (larger : Version -> Version -> Prop) c w target v1 v2 :
  version c <> EmptyString -> version c <> "unknown" ->
  version_NewVersion (version c) = inl v1 ->
  version_NewVersion target = inl v2 ->
  (forall a, Version_Compare a a = 0) ->
  (forall a b, larger a b -> Version_Compare a b = 1) ->
  (forall a b, larger b a -> Version_Compare a b = -1) ->
  CompareVersion env target c w = Done (Version_Compare v2 v1, None) c w
  /\ CompareVersion env (version c) c w = Done (0, None) c w
  /\ (larger v2 v1 -> CompareVersion env target c w = Done (1, None) c w)
  /\ (larger v1 v2 -> CompareVersion env target c w = Done (-1, None) c w).
Proof.
  intros Hne Hunk Hv1 Hv2 Heq Hgt Hlt.
  assert (Hrun : forall t vt, version_NewVersion t = inl vt ->
            CompareVersion env t c w = Done (Version_Compare vt v1, None) c w).
  { intros t vt Ht. unfold CompareVersion, bind, getClient, ret.
    destruct (String.eqb_spec (version c) EmptyString) as [E|_]; [contradiction|].
    destruct (String.eqb_spec (version c) "unknown") as [E|_]; [contradiction|].
    rewrite Hv1, Ht. reflexivity. }
  split; [exact (Hrun _ _ Hv2)|]. split; [|split].
  - rewrite (Hrun _ _ Hv1), Heq. reflexivity.
  - intros L. rewrite (Hrun _ _ Hv2), (Hgt _ _ L). reflexivity.
  - intros L. rewrite (Hrun _ _ Hv2), (Hlt _ _ L). reflexivity.
Qed.

(** C10. For a method other than GET and DELETE, [MakeRestRequest] calls
    [Bytes] on its body without testing it for nil: with a nil body the call
    panics where [Bytes] dereferences its receiver, and otherwise the
    request is built from the bytes [Bytes] yields for nil, as for any body
    with those bytes; no error is returned for the nil body. For GET and
    DELETE the body is not looked at: the result is that of a nil body, never
    a panic, and a request returned carries no body. *)
Theorem nil_body_reaches_Bytes c w method path authenticated u :
  url_Parse (gateway_path c path) = inl u ->
  (String.eqb method "GET" || String.eqb method "DELETE" = false ->
     match Container_Bytes_nil with
     | None => MakeRestRequest method path None authenticated c w = Panic
     | Some bs =>
       (forall body, Container_Bytes body = bs ->
          MakeRestRequest method path None authenticated c w
          = MakeRestRequest method path (Some body) authenticated c w)
       /\ (forall req err c' w',
             MakeRestRequest method path None authenticated c w
             = Done (Some req, err) c' w' ->
             ReqBody req = Some bs)
     end)
  /\ (String.eqb method "GET" || String.eqb method "DELETE" = true ->
       (forall body,
          MakeRestRequest method path body authenticated c w
          = MakeRestRequest method path None authenticated c w)
       /\ MakeRestRequest method path None authenticated c w <> Panic
       /\ (forall req err c' w',
             MakeRestRequest method path None authenticated c w
             = Done (Some req, err) c' w' ->
             ReqBody req = None)).
Proof.
  intros Hu. split; intros Hm.
  - destruct Container_Bytes_nil as [bs|] eqn:Hnil.
    + split.
      * intros body Hb.
        unfold MakeRestRequest, bind, getClient, body_Bytes, ret.
        rewrite Hu, Hm, Hnil, Hb. reflexivity.
      * intros req err c' w'.
        unfold MakeRestRequest, InjectAuthenticationHeader, bind, getClient,
          body_Bytes, ret, http_NewRequest.
        rewrite Hu, Hm, Hnil. intros H.
        run_cases H; injection H as <- _ _ _; reflexivity.
    + unfold MakeRestRequest, bind, getClient, body_Bytes, panic.
      rewrite Hu, Hm, Hnil. reflexivity.
  - split; [|split].
    + intros body. unfold MakeRestRequest, bind, getClient.
      rewrite Hu, Hm. reflexivity.
    + unfold MakeRestRequest, InjectAuthenticationHeader, bind, getClient, ret.
      rewrite Hu, Hm. intros H. run_cases H.
    + intros req err c' w'.
      unfold MakeRestRequest, InjectAuthenticationHeader, bind, getClient,
        ret, http_NewRequest.
      rewrite Hu, Hm. intros H.
      run_cases H; injection H as <- _ _ _; reflexivity.
Qed.

End Properties.

(** ** The theorems at work

    Each statement below is the instance of a theorem above on the stand-in
    library and a scripted network, or the evaluation of the model there. *)

(** A 404 on the first attempt: the client gets a nil payload and a nil
    error, after one round trip and no sleep. *)
Lemma not_found_returns_nil_error :
  DoWithRetryFunc (Fake.env_const (inl Fake.not_found) 0) (Fake.get "/api/v1/x")
    None Fake.retry2 world0
  = Done (None, Some Fake.not_found, None) Fake.retry2 (mkWorld 1 0 [] 0).
Proof. reflexivity. Qed.

Lemma other_status_returns_at_once_witness :
  exists w',
    DoWithRetryFunc (Fake.env_const (inl Fake.not_found) 0) (Fake.get "/api/v1/x")
      None Fake.retry2 world0
    = Done (None, Some Fake.not_found, None) Fake.retry2 w'
    /\ calls w' = 1%nat /\ slept w' = [] /\ draws w' = 0%nat.
Proof.
  apply (other_status_returns_at_once
           (Fake.env_const (inl Fake.not_found) 0) Fake.retry2
           (Fake.get "/api/v1/x") None world0 Fake.not_found).
  - reflexivity.
  - cbn. lia.
  - cbn. lia.
  - cbn. lia.
Defined.

(** A 503 on every attempt with a budget of two retries: three round trips,
    two sleeps, and the error counts three attempts. *)
Lemma throttled_request_spends_budget_witness :
  exists r w',
    DoWithRetryFunc (Fake.env_const (inl Fake.unavailable) (1 # 4))
      (Fake.get "/api/v1/x") None Fake.retry2 world0
    = Done r Fake.retry2 w'
    /\ calls w' = 3%nat
    /\ List.length (slept w') = 2%nat
    /\ r = (None, Some Fake.unavailable,
            Some (errors_New
                    "[ERROR] HTTP Request failed with status code 503 after 3 attempts")).
Proof.
  apply (throttled_request_spends_budget
           (Fake.env_const (inl Fake.unavailable) (1 # 4)) Fake.retry2
           (Fake.get "/api/v1/x") None world0 2).
  - reflexivity.
  - unfold int_max. lia.
  - intros k _. right. reflexivity.
Defined.

(** Two 429 and then a 200, with a budget of two retries: the payload comes
    back after three round trips and two sleeps. *)
Example throttled_twice_then_ok :
  exists w',
    Do (Fake.env_script [Fake.status 429 "slow down"; Fake.status 429 "slow down"]
          (inl Fake.logged_in) (1 # 4))
       (Fake.get "/api/v1/x") Fake.retry2 world0
    = Done (Some (Fake.JObject [("token", Fake.JString "abc")]),
            Some Fake.logged_in, None) Fake.retry2 w'
    /\ calls w' = 3%nat /\ List.length (slept w') = 2%nat.
Proof. eexists. split; [vm_compute; reflexivity | split; reflexivity]. Qed.


Example backoff_default_first_delay :
  Duration_of_float (backoff_value Fake.retry2 1 (1 # 4)) = 9 * Second.
Proof. reflexivity. Qed.

(** A client built without [MaxRetries] meets a 503: one round trip, no
    sleep, and the loop is over. *)
Lemma unset_maxRetries_gives_up_at_once :
  exists c,
    Fake.client_default = Some c
    /\ maxRetries c = 0
    /\ DoWithRetryFunc (Fake.env_const (inl Fake.unavailable) (1 # 4))
         (Fake.get "/api/v1/x") None c world0
       = Done (None, Some Fake.unavailable,
               Some (errors_New
                       "[ERROR] HTTP Request failed with status code 503 after 1 attempts"))
              c (mkWorld 1 0 [] 0).
Proof. eexists. split; [reflexivity|]. split; reflexivity. Qed.

Lemma unset_maxRetries_means_no_retry_witness :
  exists w',
    DoWithRetryFunc (Fake.env_const (inr (errors_New "connection refused")) 0)
      (Fake.get "/api/v1/x") None
      (set_password "secret" (newClient (lib := Fake.lib None) "https://mso.example" "admin"))
      world0
    = Done (None, None, Some (errors_New "connection refused"))
        (set_password "secret" (newClient (lib := Fake.lib None) "https://mso.example" "admin"))
        w'
    /\ calls w' = 1%nat /\ slept w' = [].
Proof.
  apply (unset_maxRetries_means_no_retry
           (Fake.env_const (inr (errors_New "connection refused")) 0)
           "https://mso.example" "admin" [Password "secret"]).
  - reflexivity.
  - repeat constructor.
  - reflexivity.
Defined.

(** A 200 with a JSON body: one round trip and the payload. *)
Lemma ok_response_returns_payload_witness :
  exists w',
    DoWithRetryFunc (Fake.env_const (inl Fake.logged_in) 0) (Fake.get "/api/v1/x")
      None Fake.retry2 world0
    = Done (Some (Fake.JObject [("token", Fake.JString "abc")]),
            Some Fake.logged_in, None) Fake.retry2 w'
    /\ calls w' = 1%nat /\ slept w' = [].
Proof.
  apply (ok_response_returns_payload
           (Fake.env_const (inl Fake.logged_in) 0) Fake.retry2
           (Fake.get "/api/v1/x") None world0 Fake.logged_in);
    reflexivity.
Defined.

(** A login answered with an empty token, by a client that holds a token
    from before: the error is returned and the token stays. *)
Lemma empty_token_is_refused_witness :
  exists c2 w2,
    Authenticate (Fake.env_const (inl Fake.no_token) 0) Fake.client_logged_in world0
    = Done (Some (errors_New "Invalid Username or Password")) c2 w2
    /\ AuthToken c2 = Some (mkAuth "old" 7).
Proof.
  eexists _, _.
  eapply (empty_token_is_refused
            (Fake.env_const (inl Fake.no_token) 0) Fake.client_logged_in world0).
  - reflexivity.
  - reflexivity.
  - left. reflexivity.
Defined.

(** The same client, answered with a token: the stored token is replaced. *)
Example login_stores_token :
  exists c' w',
    Authenticate (Fake.env_const (inl Fake.logged_in) 0) Fake.client_logged_in world0
    = Done None c' w'
    /\ AuthToken c' = Some (mkAuth "abc" (1200 * Second)).
Proof. eexists _, _. split; [vm_compute; reflexivity | reflexivity]. Qed.

(** On the platform [nd], a client built with [SkipLoggingPayload(true)] and
    no login domain: after [Authenticate] the domain is "DefaultAuth" and
    the flag is down. *)
Lemma login_rewrites_configuration :
  exists c' w',
    initClient "https://nd.example" "admin" Fake.options_nd = Some Fake.client_nd
    /\ Authenticate (Fake.env_const (inl Fake.logged_in) 0) Fake.client_nd world0
       = Done None c' w'
    /\ domain Fake.client_nd = EmptyString /\ domain c' = "DefaultAuth"
    /\ skipLoggingPayload Fake.client_nd = true /\ skipLoggingPayload c' = false
    /\ configuration c' <> configuration Fake.client_nd.
Proof.
  eexists _, _. split; [reflexivity|].
  split; [vm_compute; reflexivity|].
  repeat (split; [reflexivity|]). discriminate.
Qed.

(** [GetVersion] writes the declared version. *)
Example GetVersion_sets_version :
  exists c' w',
    GetVersion (Fake.env_const (inl (mkResponse 200 (Fake.doc "version" "4.2.2") None)) 0)
      Fake.client_logged_in world0
    = Done ("4.2.2", None) c' w'
    /\ version Fake.client_logged_in = EmptyString /\ version c' = "4.2.2".
Proof. eexists _, _. split; [vm_compute; reflexivity | split; reflexivity]. Qed.

Lemma compare_refl (a : list Z) : Fake.compare a a = 0.
Proof.
  induction a as [|x a IH]; [reflexivity|].
  cbn [Fake.compare]. rewrite Z.ltb_irrefl. exact IH.
Qed.

(** The version 4.2.2 is cached: the target 5.2.2 gives 1, the target 4.2.2
    gives 0 and the target 3.9 gives -1. *)
Lemma CompareVersion_of_target_against_cached_witness :
  let c := set_version "4.2.2" Fake.retry2 in
  let env := Fake.env_const (inl Fake.not_found) 0 in
  CompareVersion env "5.2.2" c world0 = Done (1, None) c world0
  /\ CompareVersion env "4.2.2" c world0 = Done (0, None) c world0
  /\ CompareVersion env "3.9" c world0 = Done (-1, None) c world0.
Proof.
  cbv zeta.
  pose proof (fun target v2 H =>
    CompareVersion_of_target_against_cached (lib := Fake.lib None)
      (Fake.env_const (inl Fake.not_found) 0) Fake.larger
      (set_version "4.2.2" Fake.retry2) world0 target [4; 2; 2] v2
      ltac:(discriminate) ltac:(discriminate) eq_refl H
      compare_refl (fun a b L => proj1 L) (fun a b L => proj2 L)) as T.
  split; [|split].
  - destruct (T "5.2.2" [5; 2; 2] eq_refl) as (_ & _ & G & _).
    apply G. split; reflexivity.
  - destruct (T "5.2.2" [5; 2; 2] eq_refl) as (_ & E & _). exact E.
  - destruct (T "3.9" [3; 9] eq_refl) as (_ & _ & _ & L).
    apply L. split; reflexivity.
Defined.

(** The flag around a login: down afterwards for a client built with the
    flag up; still up when the request cannot be built. *)
Lemma login_overwrites_logging_flag_witness :
  (exists e c3 w3,
      skipLoggingPayload Fake.client_nd = true
      /\ Authenticate (Fake.env_const (inl Fake.logged_in) 0) Fake.client_nd world0
         = Done e c3 w3
      /\ skipLoggingPayload c3 = false)
  /\ (exists err c2,
        skipLoggingPayload Fake.client_bad_base = false
        /\ Authenticate (Fake.env_const (inl Fake.logged_in) 0)
             Fake.client_bad_base world0
           = Done (Some err) c2 world0
        /\ skipLoggingPayload c2 = true).
Proof.
  split.
  - edestruct (login_overwrites_logging_flag (lib := Fake.lib None)
                 (Fake.env_const (inl Fake.logged_in) 0) Fake.client_nd world0)
      as [_ H]; [vm_compute; reflexivity|].
    edestruct H as (d & w2 & e & c3 & w3 & _ & _ & HA & HF);
      [vm_compute; reflexivity | vm_compute; reflexivity |].
    exists e, c3, w3. split; [reflexivity|]. split; [exact HA | exact HF].
  - edestruct (login_overwrites_logging_flag (lib := Fake.lib None)
                 (Fake.env_const (inl Fake.logged_in) 0) Fake.client_bad_base world0)
      as [H _]; [vm_compute; reflexivity|].
    edestruct H as [HA HF]; [vm_compute; reflexivity|].
    eexists _, _. split; [reflexivity|]. split; [exact HA | exact HF].
Defined.

(** A POST with a nil body panics where [Bytes] dereferences its receiver; a
    GET takes a nil body and sends none. *)
Lemma nil_body_reaches_Bytes_witness :
  MakeRestRequest "POST" "/api/v1/x" None false Fake.retry2 world0 = Panic
  /\ MakeRestRequest "GET" "/api/v1/x" None false Fake.retry2 world0
     = Done (Some (mkRequest "GET" "https://mso.example/api/v1/x" None
                     [("Content-Type", "application/json")]), None)
         Fake.retry2 world0.
Proof.
  split.
  - destruct (nil_body_reaches_Bytes Fake.retry2 world0 "POST" "/api/v1/x" false
                "/api/v1/x" eq_refl) as [H _].
    exact (H eq_refl).
  - reflexivity.
Defined.

(** With a [Bytes] that yields [{}] on nil, the POST is built from it. *)
Example nil_body_posted_as_empty_object :
  MakeRestRequest "POST" "/api/v1/x" None false (Fake.client (Some "{}") 2) world0
  = Done (Some (mkRequest "POST" "https://mso.example/api/v1/x" (Some "{}")
                  [("Content-Type", "application/json")]), None)
      (Fake.client (Some "{}") 2) world0.
Proof. reflexivity. Qed.

(** * More on the client *)

Section Runs.

Context {lib : GoLib}.
Variable env : Env.

Lemma naps_counts c (k : nat) :
  forall attempts w,
    calls (naps env c attempts k w) = (calls w + k)%nat
    /\ draws (naps env c attempts k w) = (draws w + k)%nat
    /\ List.length (slept (naps env c attempts k w))
       = (List.length (slept w) + k)%nat.
Proof.
  induction k as [|k IH]; intros attempts w; cbn [naps].
  - repeat split; lia.
  - destruct (IH (attempts + 1) (nap env c attempts (tick w))) as (A & B & C).
    rewrite A, B, C. cbn. repeat split; lia.
Qed.

(** Every run of the loop that returns is a row of retried attempts and one
    last attempt whose outcome is returned. *)
Lemma loop_run_inv req retryFunc c (fuel : nat) :
  forall attempts w r c' w',
    1 <= attempts -> maxRetries c < int_max ->
    DoWithRetryFunc_loop env fuel req retryFunc attempts c w = Done r c' w' ->
    exists k : nat,
      (forall j, (j < k)%nat ->
         retryable (classify retryFunc (transport env (calls w + j) req)) = true)
      /\ Z.of_nat k <= Z.max 0 (maxRetries c + 1 - attempts)
      /\ (retryable (classify retryFunc (transport env (calls w + k) req)) = true ->
          attempts + Z.of_nat k > maxRetries c)
      /\ r = returned (classify retryFunc (transport env (calls w + k) req))
                      (attempts + Z.of_nat k)
      /\ c' = c
      /\ w' = tick (naps env c attempts k w).
Proof.
  induction fuel as [|fuel IH]; intros attempts w r c' w' Ha Hm H;
    [discriminate|].
  destruct (retryable (classify retryFunc (transport env (calls w) req))) eqn:R.
  - destruct (Z_le_gt_dec attempts (maxRetries c)) as [Hle|Hgt].
    + rewrite (loop_retries env _ _ _ _ _ _ R Hle) in H.
      rewrite wrap_int_small in H by (unfold int_min, int_max in *; lia).
      apply IH in H as (k & Hretry & Hk & Hex & Hr & Hc & Hw); try lia.
      cbn [nap tick calls] in Hretry, Hex, Hr.
      exists (S k). split; [|split; [|split; [|split; [|split]]]].
      * intros j Hj. destruct j as [|j].
        -- rewrite Nat.add_0_r. exact R.
        -- replace (calls w + S j)%nat with (S (calls w) + j)%nat by lia.
           apply Hretry. lia.
      * lia.
      * replace (calls w + S k)%nat with (S (calls w) + k)%nat by lia.
        intros E. specialize (Hex E). lia.
      * replace (calls w + S k)%nat with (S (calls w) + k)%nat by lia.
        replace (attempts + Z.of_nat (S k)) with (attempts + 1 + Z.of_nat k) by lia.
        exact Hr.
      * exact Hc.
      * exact Hw.
    + rewrite (loop_exhausted env _ _ _ _ _ _ R Hgt) in H.
      injection H as <- <- <-. exists 0%nat.
      rewrite Nat.add_0_r, Z.add_0_r.
      repeat split; try reflexivity; try lia.
  - rewrite (loop_returns env _ _ _ _ _ _ R) in H.
    injection H as <- <- <-. exists 0%nat.
    rewrite Nat.add_0_r, Z.add_0_r.
    repeat split; try reflexivity; try lia.
    rewrite R. discriminate.
Qed.

(** The other way round: a row of [k] retryable replies within the budget,
    then a reply that ends the loop. *)
Lemma loop_run req retryFunc c (k : nat) :
  forall fuel attempts w,
    1 <= attempts -> maxRetries c < int_max ->
    attempts + Z.of_nat k <= maxRetries c + 1 ->
    (k < fuel)%nat ->
    (forall j, (j < k)%nat ->
       retryable (classify retryFunc (transport env (calls w + j) req)) = true) ->
    (retryable (classify retryFunc (transport env (calls w + k) req)) = true ->
     attempts + Z.of_nat k > maxRetries c) ->
    DoWithRetryFunc_loop env fuel req retryFunc attempts c w
    = Done (returned (classify retryFunc (transport env (calls w + k) req))
                     (attempts + Z.of_nat k))
        c (tick (naps env c attempts k w)).
Proof.
  induction k as [|k IH]; intros fuel attempts w Ha Hm Hk Hf Hretry Hlast;
    (destruct fuel as [|fuel]; [lia|]).
  - rewrite Nat.add_0_r, Z.add_0_r in *. cbn [naps].
    destruct (retryable (classify retryFunc (transport env (calls w) req))) eqn:R.
    + apply loop_exhausted; [exact R|]. specialize (Hlast eq_refl). lia.
    + apply loop_returns. exact R.
  - assert (R : retryable (classify retryFunc (transport env (calls w) req)) = true).
    { specialize (Hretry 0%nat). rewrite Nat.add_0_r in Hretry. apply Hretry. lia. }
    rewrite (loop_retries env _ _ _ _ _ _ R) by lia.
    rewrite wrap_int_small by (unfold int_min, int_max in *; lia).
    rewrite IH; try lia.
    + cbn [naps nap tick calls].
      replace (S (calls w) + k)%nat with (calls w + S k)%nat by lia.
      replace (attempts + 1 + Z.of_nat k) with (attempts + Z.of_nat (S k)) by lia.
      reflexivity.
    + intros j Hj. cbn [nap tick calls].
      replace (S (calls w) + j)%nat with (calls w + S j)%nat by lia.
      apply Hretry. lia.
    + cbn [nap tick calls].
      replace (S (calls w) + k)%nat with (calls w + S k)%nat by lia.
      intros E. specialize (Hlast E). lia.
Qed.

Lemma classify_inv retryFunc reply :
  match classify retryFunc reply with
  | SuccessWithPayload obj resp =>
    reply = inl resp /\ 200 <= StatusCode resp < 300 /\ StatusCode resp <> 204
    /\ ParseJSON (BodyBytes resp) = inl obj /\ asks_retry retryFunc obj = false
  | SuccessNoContent => exists resp, reply = inl resp /\ StatusCode resp = 204
  | RetryableTransportError err => reply = inr err
  | RetryableStatus resp =>
    reply = inl resp /\ (StatusCode resp = 429 \/ StatusCode resp = 503)
  | RetryableMalformedSuccessBody resp =>
    reply = inl resp /\ 200 <= StatusCode resp < 300 /\ StatusCode resp <> 204
    /\ exists perr, ParseJSON (BodyBytes resp) = inr perr
  | CallerSignaledRetry obj resp =>
    reply = inl resp /\ 200 <= StatusCode resp < 300 /\ StatusCode resp <> 204
    /\ ParseJSON (BodyBytes resp) = inl obj /\ asks_retry retryFunc obj = true
  | NonRetryableError resp =>
    reply = inl resp /\ ~ (200 <= StatusCode resp < 300)
    /\ StatusCode resp <> 429 /\ StatusCode resp <> 503
  end.
Proof.
  unfold classify, asks_retry. destruct reply as [resp|err]; [|reflexivity].
  destruct (Z.eqb_spec (StatusCode resp) 204) as [E|N]; [eauto|].
  destruct (Z.leb_spec 200 (StatusCode resp));
    destruct (Z.ltb_spec (StatusCode resp) 300); cbn [andb].
  - destruct (ParseJSON (BodyBytes resp)) as [obj|perr] eqn:P.
    + destruct retryFunc as [f|].
      * destruct (f obj) eqn:F; repeat split; auto; lia.
      * repeat split; auto; lia.
    + repeat split; eauto; lia.
  - destruct (Z.eqb_spec (StatusCode resp) 429);
      destruct (Z.eqb_spec (StatusCode resp) 503); cbn [orb];
      repeat split; auto; lia.
  - destruct (Z.eqb_spec (StatusCode resp) 429);
      destruct (Z.eqb_spec (StatusCode resp) 503); cbn [orb];
      repeat split; auto; lia.
  - lia.
Qed.

(** X1. A call of [DoWithRetryFunc] that returns has made [k + 1] round
    trips, [k] draws and [k] sleeps for some [k] no larger than the retry
    budget (none when the budget is negative). The replies to the first [k]
    round trips asked for a retry, the result is the one the last reply
    gives at attempt [k + 1], and the client is the one passed in. *)
Theorem DoWithRetryFunc_within_budget c req retryFunc w r c' w' :
  maxRetries c < int_max ->
  DoWithRetryFunc env req retryFunc c w = Done r c' w' ->
  exists k : nat,
    Z.of_nat k <= Z.max 0 (maxRetries c)
    /\ calls w' = (calls w + k + 1)%nat
    /\ draws w' = (draws w + k)%nat
    /\ List.length (slept w') = (List.length (slept w) + k)%nat
    /\ (forall j, (j < k)%nat ->
          retryable (classify retryFunc (transport env (calls w + j) req)) = true)
    /\ r = returned (classify retryFunc (transport env (calls w + k) req))
                    (Z.of_nat k + 1)
    /\ c' = c.
Proof.
  intros Hm H. rewrite DoWithRetryFunc_unfold in H.
  apply loop_run_inv in H as (k & Hretry & Hk & _ & Hr & Hc & Hw); try lia.
  destruct (naps_counts c k 1 w) as (A & B & C).
  exists k. subst w'. cbn [tick calls draws slept]. rewrite A, B, C.
  replace (Z.of_nat k + 1) with (1 + Z.of_nat k) by lia.
  repeat split; try assumption; lia.
Qed.

(** X2. When the first [k] replies ask for a retry, [k] is within the retry
    budget and the next reply does not ask for one, [DoWithRetryFunc] returns
    what that reply gives, after [k + 1] round trips and [k] sleeps. *)
Theorem request_retried_until_answered c req retryFunc w (k : nat) :
  maxRetries c < int_max ->
  Z.of_nat k <= maxRetries c ->
  (forall j, (j < k)%nat ->
     retryable (classify retryFunc (transport env (calls w + j) req)) = true) ->
  retryable (classify retryFunc (transport env (calls w + k) req)) = false ->
  exists w',
    DoWithRetryFunc env req retryFunc c w
    = Done (returned (classify retryFunc (transport env (calls w + k) req))
                     (Z.of_nat k + 1)) c w'
    /\ calls w' = (calls w + k + 1)%nat
    /\ List.length (slept w') = (List.length (slept w) + k)%nat.
Proof.
  intros Hm Hk Hretry Hlast. exists (tick (naps env c 1 k w)).
  destruct (naps_counts c k 1 w) as (A & B & C).
  cbn [tick calls slept]. rewrite A, C. split; [|split; lia].
  rewrite DoWithRetryFunc_unfold.
  replace (Z.of_nat k + 1) with (1 + Z.of_nat k) by lia.
  apply loop_run; try lia; try assumption.
  rewrite Hlast. discriminate.
Qed.





(** X4. A nil error from [DoWithRetryFunc] means one of three things: the
    last response had a 2xx status other than 204, its body parsed to the
    payload returned and the retry predicate, if any, did not ask for a
    retry; or the last response was a 204 and payload and response are both
    nil; or the last response had a status outside 2xx, 429 and 503, its
    body was read without error, and the payload is nil. *)
Theorem nil_error_means c req retryFunc w obj resp c' w' :
  maxRetries c < int_max ->
  DoWithRetryFunc env req retryFunc c w = Done (obj, resp, None) c' w' ->
  exists last,
    transport env (Nat.pred (calls w')) req = inl last
    /\ ((exists o, obj = Some o /\ resp = Some last
                  /\ 200 <= StatusCode last < 300 /\ StatusCode last <> 204
                  /\ ParseJSON (BodyBytes last) = inl o
                  /\ asks_retry retryFunc o = false)
        \/ (obj = None /\ resp = None /\ StatusCode last = 204)
        \/ (obj = None /\ resp = Some last
            /\ ~ (200 <= StatusCode last < 300)
            /\ StatusCode last <> 429 /\ StatusCode last <> 503
            /\ ReadErr last = None)).
Proof.
  intros Hm H. rewrite DoWithRetryFunc_unfold in H.
  apply loop_run_inv in H as (k & _ & _ & _ & Hr & _ & Hw); try lia.
  destruct (naps_counts c k 1 w) as (A & _ & _).
  subst w'. cbn [tick calls Nat.pred]. rewrite A.
  pose proof (classify_inv retryFunc (transport env (calls w + k) req)) as I.
  destruct (classify retryFunc (transport env (calls w + k) req))
    as [o last| |err|last|last|o last|last]; unfold returned in Hr;
    try discriminate Hr.
  - destruct I as (E & H2 & H204 & HP & HA). injection Hr as -> ->.
    exists last. split; [exact E|]. left. exists o. auto 10.
  - destruct I as (last & E & H204). injection Hr as -> ->.
    exists last. split; [exact E|]. right. left. auto.
  - destruct I as (E & H2 & H429 & H503). injection Hr as -> -> Hread.
    exists last. split; [exact E|]. right. right. auto 10.
Qed.

(** X5. A payload returned by [DoWithRetryFunc] is the parse of the body
    of the response returned with it, whose status is 2xx and not 204. When
    an error comes with the payload, the retry predicate asked for a retry
    that the budget did not allow, and the error counts the attempts made. *)
Theorem payload_comes_from_2xx c req retryFunc w o resp err c' w' :
  maxRetries c < int_max ->
  DoWithRetryFunc env req retryFunc c w = Done (Some o, resp, err) c' w' ->
  exists last,
    resp = Some last
    /\ transport env (Nat.pred (calls w')) req = inl last
    /\ 200 <= StatusCode last < 300 /\ StatusCode last <> 204
    /\ ParseJSON (BodyBytes last) = inl o
    /\ match err with
       | None => asks_retry retryFunc o = false
       | Some e =>
         asks_retry retryFunc o = true
         /\ e = retries_exhausted (StatusCode last)
                  (Z.of_nat (calls w') - Z.of_nat (calls w))
         /\ Z.of_nat (calls w') - Z.of_nat (calls w) > maxRetries c
       end.
Proof.
  intros Hm H. rewrite DoWithRetryFunc_unfold in H.
  apply loop_run_inv in H as (k & _ & _ & Hex & Hr & _ & Hw); try lia.
  destruct (naps_counts c k 1 w) as (A & _ & _).
  subst w'. cbn [tick calls Nat.pred]. rewrite A.
  pose proof (classify_inv retryFunc (transport env (calls w + k) req)) as I.
  destruct (classify retryFunc (transport env (calls w + k) req))
    as [o' last| |e|last|last|o' last|last]; unfold returned in Hr;
    try discriminate Hr.
  - destruct I as (E & H2 & H204 & HP & HA). injection Hr as -> -> ->.
    exists last. auto 10.
  - destruct I as (E & H2 & H204 & HP & HA).
    remember (1 + Z.of_nat k) as n eqn:En.
    injection Hr as -> -> ->.
    exists last. repeat split; try assumption; try lia.
    + f_equal. lia.
    + specialize (Hex eq_refl). lia.
Qed.

End Runs.

(** ** Strings *)

Lemma append_empty_r (s : string) : s ++ EmptyString = s.
Proof. induction s as [|a s IH]; cbn; [reflexivity | rewrite IH; reflexivity]. Qed.

Lemma append_assoc (a b c : string) : (a ++ b) ++ c = a ++ (b ++ c).
Proof. induction a as [|x a IH]; cbn; [reflexivity | rewrite IH; reflexivity]. Qed.

Lemma length_append (a b : string) :
  String.length (a ++ b) = (String.length a + String.length b)%nat.
Proof. induction a as [|x a IH]; cbn; [reflexivity | rewrite IH; reflexivity]. Qed.

Lemma string_rev_append (a b : string) :
  string_rev (a ++ b) = string_rev b ++ string_rev a.
Proof.
  induction a as [|x a IH]; cbn.
  - rewrite append_empty_r. reflexivity.
  - rewrite IH, append_assoc. reflexivity.
Qed.

Lemma prefix_append (p s : string) : String.prefix p (p ++ s) = true.
Proof.
  induction p as [|a p IH]; cbn; [destruct s; reflexivity|].
  destruct (ascii_dec a a) as [_|N]; [exact IH | contradiction].
Qed.

Lemma substring_whole (s t : string) :
  substring 0 (String.length s) (s ++ t) = s.
Proof. induction s as [|a s IH]; cbn; [destruct t|rewrite IH]; reflexivity. Qed.

Lemma HasSuffix_append (s suf : string) : HasSuffix (s ++ suf) suf = true.
Proof. unfold HasSuffix. rewrite string_rev_append. apply prefix_append. Qed.

Lemma TrimPrefix_append (p s : string) : TrimPrefix (p ++ s) p = s.
Proof.
  unfold TrimPrefix, HasPrefix. rewrite prefix_append, length_append.
  replace (String.length p + String.length s - String.length p)%nat
    with (String.length s) by lia.
  induction p as [|a p IH]; cbn.
  - rewrite <- (append_empty_r s) at 2. apply substring_whole.
  - exact IH.
Qed.

Lemma TrimSuffix_append (s suf : string) : TrimSuffix (s ++ suf) suf = s.
Proof.
  unfold TrimSuffix. rewrite HasSuffix_append, length_append.
  replace (String.length s + String.length suf - String.length suf)%nat
    with (String.length s) by lia.
  apply substring_whole.
Qed.

(** X6. [stripQuotes] undoes quoting: a text between two double quotes
    loses exactly those two, whatever it holds; a text that does not both
    start and end with a double quote is returned as it is; and the text that
    is one double quote alone, its own first and last character, becomes
    empty. *)
Theorem stripQuotes_unquotes :
  (forall s, stripQuotes (dquote ++ s ++ dquote) = s)
  /\ (forall word,
        HasPrefix word dquote = false \/ HasSuffix word dquote = false ->
        stripQuotes word = word)
  /\ stripQuotes dquote = EmptyString.
Proof.
  split; [|split].
  - intros s. unfold stripQuotes.
    unfold HasPrefix at 1. rewrite prefix_append.
    rewrite <- append_assoc, HasSuffix_append. cbn [andb].
    rewrite append_assoc, TrimPrefix_append. apply TrimSuffix_append.
  - intros word [H|H]; unfold stripQuotes; rewrite H;
      [|rewrite andb_false_r]; reflexivity.
  - reflexivity.
Qed.

Section Login.

Context {lib : GoLib}.
Variable env : Env.

Lemma GetDomainId_scan_find obj domain (elems : list (Container + error)) :
  forall start,
    (forall i x, nth_error elems i = Some x ->
       Container_ArrayElement obj (Z.of_nat (start + i)) ["domains"] = x) ->
    GetDomainId_scan obj domain (map Z.of_nat (seq start (List.length elems)))
    = scan_result domain (find (stops_scan domain) elems).
Proof.
  induction elems as [|x elems IH]; intros start Hel; [reflexivity|].
  cbn [List.length seq map GetDomainId_scan find].
  pose proof (Hel 0%nat x eq_refl) as H0. rewrite Nat.add_0_r in H0.
  rewrite H0. destruct x as [e|err]; cbn [stops_scan]; [|reflexivity].
  fold (domain_name e). fold (domain_id e).
  destruct (String.eqb (domain_name e) domain); [reflexivity|].
  apply IH. intros i x Hi.
  replace (S start + i)%nat with (start + S i)%nat by lia.
  apply Hel. exact Hi.
Qed.

(** X7. Once the listing of login domains is received, [GetDomainId] goes
    through the elements of [domains] in order and stops at the first that
    cannot be read or whose name is the domain asked for, names compared
    exactly: it returns the error of the former, the identifier of the
    latter. When it stops nowhere, also when the listing is empty, it
    returns the error "Unable to find domain id for domain <name>". *)
Theorem GetDomainId_returns_first_match c w req obj resp w' count elems domain :
  MakeRestRequest "GET" "/api/v1/auth/login-domains" None false c w
  = Done (Some req, None) c w ->
  Do env req c w = Done (obj, resp, None) c w' ->
  CheckForErrors obj "GET" = None ->
  Container_ArrayCount obj ["domains"] = inl count ->
  List.length elems = Z.to_nat count ->
  (forall i x, nth_error elems i = Some x ->
     Container_ArrayElement obj (Z.of_nat i) ["domains"] = x) ->
  GetDomainId env domain c w
  = Done (scan_result domain (find (stops_scan domain) elems)) c w'.
Proof.
  intros HM HD HC HN HL Hel. unfold GetDomainId.
  rewrite (bind_Done _ _ _ _ _ _ _ HM), (bind_Done _ _ _ _ _ _ _ HD).
  rewrite HC, HN, <- HL. unfold ret. f_equal.
  apply GetDomainId_scan_find. exact Hel.
Qed.

Lemma MakeRestRequest_unauth_Done method path body c w :
  (String.eqb method "GET" || String.eqb method "DELETE" = true \/ body <> None) ->
  exists req err,
    MakeRestRequest method path body false c w = Done (req, err) c w
    /\ (req = None -> err <> None).
Proof.
  intros Hb. unfold MakeRestRequest, bind, getClient, ret, body_Bytes,
    http_NewRequest.
  destruct (url_Parse (gateway_path c path)) as [u|e].
  - destruct (String.eqb method "GET" || String.eqb method "DELETE").
    + destruct (http_NewRequest_error _ _); eexists _, _;
        (split; [reflexivity | intros; discriminate]).
    + destruct body as [b|]; [|destruct Hb as [Hb|Hb]; [discriminate | contradiction]].
      unfold ret. destruct (http_NewRequest_error _ _); eexists _, _;
        (split; [reflexivity | intros; discriminate]).
  - eexists _, _. split; [reflexivity | intros; discriminate].
Qed.

Lemma Do_returns_bounded req c w :
  maxRetries c < int_max ->
  exists r w',
    Do env req c w = Done r c w'
    /\ (calls w <= calls w' <= calls w + Z.to_nat (maxRetries c) + 1)%nat.
Proof.
  intros Hm. destruct (DoWithRetryFunc_total env req None c w Hm) as (r & w' & H).
  exists r, w'. split; [exact H|].
  destruct (DoWithRetryFunc_within_budget env _ _ _ _ _ _ _ Hm H)
    as (k & Hk & Hc & _).
  lia.
Qed.

Lemma GetDomainId_returns_bounded domain c w :
  maxRetries c < int_max ->
  exists r w',
    GetDomainId env domain c w = Done r c w'
    /\ (calls w <= calls w' <= calls w + Z.to_nat (maxRetries c) + 1)%nat.
Proof.
  intros Hm. unfold GetDomainId.
  destruct (MakeRestRequest_unauth_Done "GET" "/api/v1/auth/login-domains" None c w)
    as (req & err & HM & Hnn); [left; reflexivity|].
  rewrite (bind_Done _ _ _ _ _ _ _ HM).
  destruct err as [err|].
  - destruct req; eexists _, w; (split; [reflexivity | lia]).
  - destruct req as [req|]; [|exfalso; exact (Hnn eq_refl eq_refl)].
    destruct (Do_returns_bounded req c w Hm) as ([[obj resp] err] & w' & HD & Hc).
    rewrite (bind_Done _ _ _ _ _ _ _ HD). unfold ret.
    destruct err; [|destruct (CheckForErrors obj "GET");
                     [|destruct (Container_ArrayCount obj ["domains"])]];
      eexists _, w'; (split; [reflexivity | exact Hc]).
Qed.

Lemma Authenticate_body_returns_bounded c w :
  maxRetries c < int_max ->
  exists r c1 w1,
    Authenticate_body env c w = Done r c1 w1
    /\ maxRetries c1 = maxRetries c
    /\ (calls w <= calls w1 <= calls w + Z.to_nat (maxRetries c) + 1)%nat.
Proof.
  intros Hm. unfold Authenticate_body, bind at 1, getClient at 1.
  set (c1 := if String.eqb (platform c) "nd" && String.eqb (domain c) EmptyString
             then set_domain "DefaultAuth" c else c).
  assert (Hm1 : maxRetries c1 = maxRetries c).
  { unfold c1. destruct (_ && _); reflexivity. }
  assert (HP : exists payload,
             (if String.eqb (platform c) "nd"
              then bind (if String.eqb (domain c) EmptyString
                         then modifyClient (set_domain "DefaultAuth")
                         else ret tt)
                     (fun _ => ret (ndAuthPayload, "/login"))
              else ret (msoAuthPayload, "/api/v1/auth/login")) c w
             = Done payload c1 w).
  { unfold c1. destruct (String.eqb (platform c) "nd");
      [destruct (String.eqb (domain c) EmptyString)|]; eexists; reflexivity. }
  destruct HP as ([authPayload path] & HP).
  rewrite (bind_Done _ _ _ _ _ _ _ HP).
  destruct (ParseJSON _) as [body|err].
  - unfold bind at 1, getClient at 1.
    destruct (negb _).
    + destruct (String.eqb (platform c1) "nd").
      * eexists _, c1, w. repeat split; [exact Hm1 | lia | lia].
      * destruct (GetDomainId_returns_bounded (domain c1) c1 w)
          as (d & w1 & HD & Hc); [lia|].
        rewrite (bind_Done _ _ _ _ _ _ _ HD). unfold ret.
        destruct (snd d); eexists _, c1, w1;
          (split; [reflexivity | split; [exact Hm1 | lia]]).
    + eexists _, c1, w. repeat split; [exact Hm1 | lia | lia].
  - eexists _, c1, w. repeat split; [exact Hm1 | lia | lia].
Qed.

(** X8. [Authenticate] always returns: it dereferences no nil pointer,
    and with a retry budget below the largest [int] it makes at most two
    exchanges, the lookup of the login domain and the login, each of at most
    [maxRetries + 1] round trips. *)
Theorem Authenticate_returns_within_budget c w :
  maxRetries c < int_max ->
  exists e c' w',
    Authenticate env c w = Done e c' w'
    /\ (calls w <= calls w' <= calls w + 2 * (Z.to_nat (maxRetries c) + 1))%nat.
Proof.
  intros Hm.
  destruct (Authenticate_body_returns_bounded c w Hm)
    as (b & c1 & w1 & Hb & Hm1 & Hc1).
  unfold Authenticate. rewrite (bind_Done _ _ _ _ _ _ _ Hb).
  destruct b as [[body path]|err];
    [|eexists _, c1, w1; split; [reflexivity | lia]].
  unfold Authenticate_exchange, bind at 1, bind at 1, modifyClient at 1.
  set (c2 := set_skipLoggingPayload true c1).
  destruct (MakeRestRequest_unauth_Done "POST" path (Some body) c2 w1)
    as (req & err & HM & Hnn); [right; discriminate|].
  rewrite (bind_Done _ _ _ _ _ _ _ HM).
  destruct err as [err|].
  - destruct req; eexists _, c2, w1; (split; [reflexivity | lia]).
  - destruct req as [req|]; [|exfalso; exact (Hnn eq_refl eq_refl)].
    destruct (Do_returns_bounded req c2 w1) as ([[obj resp] err] & w2 & HD & Hc2);
      [change (maxRetries c1 < int_max); lia|].
    rewrite (bind_Done _ _ _ _ _ _ _ HD).
    assert (Hc : (calls w <= calls w2
                  <= calls w + 2 * (Z.to_nat (maxRetries c) + 1))%nat).
    { change (maxRetries c2) with (maxRetries c1) in Hc2.
      rewrite Hm1 in Hc2. lia. }
    unfold bind at 1, modifyClient at 1.
    destruct err as [err|]; [eexists _, _, w2; split; [reflexivity | exact Hc]|].
    unfold ret, Authenticate_store, CalculateExpiry, bind, getClient,
      modifyClient, time_Now, ret.
    destruct obj as [obj|]; [destruct (_ || _)|];
      eexists _, _, w2; (split; [reflexivity | exact Hc]).
Qed.

(** X9. When the payload of the login exchange carries a token that is
    neither empty nor [{}], [Authenticate] returns nil and stores the token,
    stripped of a pair of enclosing double quotes once more; nothing else of
    the client changes at that step, and the payload-logging flag is down. *)
Theorem login_stores_stripped_token c w body path c1 w1 obj c2 w2 :
  Authenticate_body env c w = Done (inl (body, path)) c1 w1 ->
  Authenticate_exchange env body path c1 w1 = Done (inl (Some obj)) c2 w2 ->
  login_token obj <> EmptyString -> login_token obj <> "{}" ->
  exists a,
    Authenticate env c w = Done None (set_AuthToken (Some a) c2) w2
    /\ Token a = stripQuotes (login_token obj)
    /\ skipLoggingPayload c2 = false.
Proof.
  intros Hb Hx H1 H2.
  rewrite (Authenticate_unfold env _ _ _ _ _ _ Hb), Hx.
  unfold Authenticate_store.
  destruct (String.eqb_spec (login_token obj) EmptyString) as [E|_];
    [contradiction|].
  destruct (String.eqb_spec (login_token obj) "{}") as [E|_]; [contradiction|].
  cbn [orb]. eexists. split; [reflexivity|]. split; [reflexivity|].
  destruct (Authenticate_exchange_client env _ _ _ _ _ _ _ Hx)
    as [(? & ? & _ & E & _)|(? & ? & _ & _ & _ & ->)];
    [discriminate E | reflexivity].
Qed.

Lemma Do_single_reply req c w (o : AttemptOutcome) :
  classify None (transport env (calls w) req) = o ->
  retryable o = false ->
  Do env req c w = Done (returned o 1) c (tick w).
Proof.
  intros Ho R. unfold Do. rewrite DoWithRetryFunc_unfold.
  pose proof (loop_returns env (Z.to_nat (maxRetries c)) req None 1 c w) as L.
  cbv zeta in L. rewrite Ho in L. exact (L R).
Qed.

(** X10. A login request answered at the first attempt with a 204, or
    with a status outside 2xx, 429 and 503 whose body is read without error
    (a 401, say), makes [Authenticate] return the error "Empty response",
    after that one round trip and with the stored token untouched. *)
Theorem login_refused_is_empty_response c w body path c1 w1 req resp :
  Authenticate_body env c w = Done (inl (body, path)) c1 w1 ->
  MakeRestRequest "POST" path (Some body) false (set_skipLoggingPayload true c1) w1
  = Done (Some req, None) (set_skipLoggingPayload true c1) w1 ->
  transport env (calls w1) req = inl resp ->
  StatusCode resp = 204
  \/ (~ (200 <= StatusCode resp < 300) /\ StatusCode resp <> 429
      /\ StatusCode resp <> 503 /\ ReadErr resp = None) ->
  exists c',
    Authenticate env c w = Done (Some (errors_New "Empty response")) c' (tick w1)
    /\ AuthToken c' = AuthToken c
    /\ skipLoggingPayload c' = false.
Proof.
  intros Hb HM Hreply Hstatus.
  assert (HD : exists resp',
             Do env req (set_skipLoggingPayload true c1) w1
             = Done (None, resp', None) (set_skipLoggingPayload true c1) (tick w1)).
  { destruct Hstatus as [H204|(H2 & H429 & H503 & Hread)].
    - exists None.
      apply (Do_single_reply req _ w1 SuccessNoContent); [|reflexivity].
      rewrite Hreply. unfold classify. cbv zeta. rewrite H204. reflexivity.
    - exists (Some resp). rewrite <- Hread.
      apply (Do_single_reply req _ w1 (NonRetryableError resp)); [|reflexivity].
      rewrite Hreply. apply classify_other_status; assumption. }
  destruct HD as (resp' & HD).
  assert (Hrun : Authenticate env c w
                 = Done (Some (errors_New "Empty response"))
                     (set_skipLoggingPayload false (set_skipLoggingPayload true c1))
                     (tick w1)).
  { rewrite (Authenticate_unfold env _ _ _ _ _ _ Hb).
    unfold Authenticate_exchange, bind at 1, modifyClient at 1.
    rewrite (bind_Done _ _ _ _ _ _ _ HM), (bind_Done _ _ _ _ _ _ _ HD).
    reflexivity. }
  eexists. split; [exact Hrun|]. split; [|reflexivity].
  exact (Authenticate_failure_keeps_token env _ _ _ _ _ Hrun).
Qed.

(** X11. Off the platform [nd], with a login domain set, a failing lookup
    of the domain identifier ends [Authenticate] with the error of the
    lookup: no login request is made and the client is left as it was, the
    payload-logging flag included. *)
Theorem domain_lookup_failure_aborts_login c w body id err w' :
  String.eqb (platform c) "nd" = false ->
  domain c <> EmptyString ->
  ParseJSON (msoAuthPayload (username c) (password c)) = inl body ->
  GetDomainId env (domain c) c w = Done (id, Some err) c w' ->
  Authenticate env c w = Done (Some err) c w'.
Proof.
  intros Hnd Hdom Hparse HG.
  unfold Authenticate, Authenticate_body, bind, getClient, ret.
  rewrite Hnd. cbv beta iota. rewrite Hparse. cbv beta iota.
  destruct (String.eqb_spec (domain c) EmptyString) as [E|_]; [contradiction|].
  cbn [negb]. cbv beta iota. rewrite Hnd, HG. reflexivity.
Qed.

(** X12. [GetVersion] returns a nil error exactly when it caches a version:
    then the version returned is not empty and is the one cached. With an
    error the value returned is "unknown" and the cached version is left as
    it was; "unknown" itself is never written on that path. *)
Theorem GetVersion_caches_on_success c w v e c' w' :
  GetVersion env c w = Done (v, e) c' w' ->
  match e with
  | None => v <> EmptyString /\ version c' = v
  | Some _ => v = "unknown" /\ version c' = version c
  end.
Proof.
  unfold GetVersion. intros H.
  apply bind_Done_inv in H as (r0 & c1 & w1 & HM & H).
  apply MakeRestRequest_pure in HM as [-> ->].
  destruct r0 as [[req|] [err|]]; unfold ret, panic in H;
    try (injection H as <- <- <- _; split; reflexivity); try discriminate H.
  apply bind_Done_inv in H as (d & c2 & w2 & HD & H).
  apply DoWithRetryFunc_client in HD as ->.
  destruct d as [[obj resp] err]. unfold bind, modifyClient, ret in H.
  destruct err as [err|]; [injection H as <- <- <- _; split; reflexivity|].
  destruct (CheckForErrors obj "GET");
    [injection H as <- <- <- _; split; reflexivity|].
  destruct (String.eqb_spec
              (stripQuotes (Container_String (Container_S obj ["version"])))
              EmptyString) as [E|N].
  - injection H as <- <- <- _. split; reflexivity.
  - injection H as <- <- <- _. split; [exact N | reflexivity].
Qed.

(** X13. [CompareVersion] returns 0 whenever it returns an error. With a
    version cached it makes no request and changes neither the client nor
    anything else, and with "unknown" cached it always fails. *)
Theorem CompareVersion_with_cache c w v n e c' w' :
  CompareVersion env v c w = Done (n, e) c' w' ->
  (e <> None -> n = 0)
  /\ (version c <> EmptyString ->
      c' = c /\ w' = w /\ (version c = "unknown" -> e <> None)).
Proof.
  unfold CompareVersion. intros H.
  apply bind_Done_inv in H as (c0 & c1 & w1 & HG & H).
  injection HG as <- <- <-.
  apply bind_Done_inv in H as (u & c1 & w1 & HV & H).
  unfold bind, getClient, ret in H.
  assert (Hzero : e <> None -> n = 0).
  { run_cases H; injection H as <- <- _ _; congruence. }
  split; [exact Hzero|]. intros Hv.
  destruct (String.eqb_spec (version c) EmptyString) as [E|_]; [contradiction|].
  injection HV as _ <- <-.
  destruct (String.eqb_spec (version c) "unknown") as [E|N].
  - injection H as _ <- <- <-. repeat split. discriminate.
  - run_cases H; injection H as _ _ <- <-; repeat split; contradiction.
Qed.

(** X14. When nothing is cached and [GetVersion] fails, [CompareVersion]
    drops that error: what it returns is the failure to parse the empty
    string, "Could not parse retrieved version" for a parser that refuses
    it, and the cache stays empty, so that the next call asks again. *)
Theorem CompareVersion_fetch_failure c w v err c1 w1 perr :
  version c = EmptyString ->
  GetVersion env c w = Done ("unknown", Some err) c1 w1 ->
  version_NewVersion EmptyString = inr perr ->
  CompareVersion env v c w
  = Done (0, Some (errors_New "Could not parse retrieved version")) c1 w1
  /\ version c1 = EmptyString.
Proof.
  intros Hv HG Hparse.
  pose proof (GetVersion_caches_on_success _ _ _ _ _ _ HG) as [_ Hc1].
  rewrite Hv in Hc1. split; [|exact Hc1].
  unfold CompareVersion, bind at 1, getClient at 1.
  rewrite Hv. cbn [String.eqb].
  unfold bind at 1, bind at 1. rewrite HG.
  unfold ret at 1, bind at 1, getClient at 1.
  rewrite Hc1. cbn [String.eqb]. rewrite Hparse. reflexivity.
Qed.

End Login.

(** * The provider *)

Section ProviderProperties.

Context {lib : GoLib} {sdk : GoSdk lib}.

Lemma is_string_other_not_firewall (v : Value) :
  is_string v "other" = true -> is_string v "firewall" = false.
Proof.
  destruct v as [|s| |]; unfold is_string; try discriminate.
  intros H. apply String.eqb_eq in H. subst s. reflexivity.
Qed.

Lemma CustomizeDiff_node_accepted (i : Z) (serviceNode : list (string * Value)) :
  CustomizeDiff_node i (VMap serviceNode)
  = Returns (if node_accepted serviceNode then None
             else Some (node_error i serviceNode)).
Proof.
  unfold CustomizeDiff_node, node_accepted, node_error, allowed_connectors,
    found_in.
  destruct (is_string (map_index serviceNode "service_node_type") "other") eqn:O.
  - rewrite (is_string_other_not_firewall _ O).
    destruct (existsb _ other_provider_connector_type_list); reflexivity.
  - destruct (is_string (map_index serviceNode "service_node_type") "firewall");
      [|reflexivity].
    destruct (existsb _ firewall_provider_connector_type_list); reflexivity.
Qed.

Lemma CustomizeDiff_loop_accepts (nodes : list (list (string * Value))) :
  forall i,
    forallb node_accepted nodes = true ->
    CustomizeDiff_loop i (map VMap nodes) = Returns None.
Proof.
  induction nodes as [|m nodes IH]; intros i H; [reflexivity|].
  cbn [forallb] in H. apply andb_true_iff in H as [Hm Hrest].
  cbn [map CustomizeDiff_loop]. rewrite CustomizeDiff_node_accepted, Hm.
  apply IH. exact Hrest.
Qed.

Lemma CustomizeDiff_loop_rejects (nodes : list (list (string * Value))) :
  forall (k : nat) (i : Z) m,
    nth_error nodes k = Some m ->
    node_accepted m = false ->
    (forall j m', (j < k)%nat -> nth_error nodes j = Some m' ->
                  node_accepted m' = true) ->
    CustomizeDiff_loop i (map VMap nodes)
    = Returns (Some (node_error (i + Z.of_nat k) m)).
Proof.
  induction nodes as [|m0 nodes IH]; intros k i m Hk Hm Hbefore;
    [destruct k; discriminate|].
  cbn [map CustomizeDiff_loop]. rewrite CustomizeDiff_node_accepted.
  destruct k as [|k].
  - injection Hk as ->. rewrite Hm, Z.add_0_r. reflexivity.
  - rewrite (Hbefore 0%nat m0) by (try lia; reflexivity).
    rewrite (IH k (i + 1) m Hk Hm).
    + do 3 f_equal. lia.
    + intros j m' Hj Hnth. apply (Hbefore (S j) m'); [lia | exact Hnth].
Qed.

(** X15. [CustomizeDiff] accepts a list of service nodes exactly when
    every node of type "other" has a provider connector type among none and
    redir, and every node of type "firewall" one among none, redir, snat,
    dnat and snat_dnat; nodes of any other type are not looked at. When a
    node is refused, the error is the one for the first such node and names
    its index. *)
Theorem CustomizeDiff_refuses_first_bad_node (nodes : list (list (string * Value))) :
  (forallb node_accepted nodes = true <->
   CustomizeDiff (VList (map VMap nodes)) = Returns None)
  /\ (forall (k : nat) m,
        nth_error nodes k = Some m ->
        node_accepted m = false ->
        (forall j m', (j < k)%nat -> nth_error nodes j = Some m' ->
                      node_accepted m' = true) ->
        CustomizeDiff (VList (map VMap nodes))
        = Returns (Some (node_error (Z.of_nat k) m))).
Proof.
  assert (Hrej : forall (k : nat) m,
             nth_error nodes k = Some m ->
             node_accepted m = false ->
             (forall j m', (j < k)%nat -> nth_error nodes j = Some m' ->
                           node_accepted m' = true) ->
             CustomizeDiff (VList (map VMap nodes))
             = Returns (Some (node_error (Z.of_nat k) m))).
  { intros k m Hk Hm Hbefore. unfold CustomizeDiff.
    rewrite (CustomizeDiff_loop_rejects nodes k 0 m Hk Hm Hbefore).
    reflexivity. }
  split; [|exact Hrej]. split.
  - intros H. apply CustomizeDiff_loop_accepts. exact H.
  - intros H. destruct (forallb node_accepted nodes) eqn:F; [reflexivity|].
    exfalso.
    assert (Hex : exists k m,
               nth_error nodes k = Some m /\ node_accepted m = false
               /\ forall j m', (j < k)%nat -> nth_error nodes j = Some m' ->
                               node_accepted m' = true).
    { clear H Hrej. induction nodes as [|m0 nodes IH]; [discriminate|].
      cbn [forallb] in F. destruct (node_accepted m0) eqn:A0.
      - cbn [andb] in F. destruct (IH F) as (k & m & Hk & Hm & Hb).
        exists (S k), m. split; [exact Hk|]. split; [exact Hm|].
        intros j m' Hj Hnth. destruct j as [|j].
        + injection Hnth as <-. exact A0.
        + apply (Hb j m'); [lia | exact Hnth].
      - exists 0%nat, m0. split; [reflexivity|]. split; [exact A0|].
        intros j m' Hj. lia. }
    destruct Hex as (k & m & Hk & Hm & Hb).
    rewrite (Hrej k m Hk Hm Hb) in H. discriminate H.
Qed.

Lemma createSiteServiceNodeList_loop_pairs sites :
  forall (tnodes snodes : list (list (string * Value))) (index : nat) acc,
    List.length snodes = List.length tnodes ->
    (forall i m, nth_error snodes i = Some m ->
                 nth_error sites (index + i) = Some (VMap m)) ->
    createSiteServiceNodeList_loop (VList sites) index (map VMap tnodes) acc
    = Returns (acc ++ map (fun p => site_node (fst p) (snd p))
                          (combine tnodes snodes))%list.
Proof.
  induction tnodes as [|t tnodes IH]; intros snodes index acc Hlen Hsites.
  - cbn. rewrite app_nil_r. reflexivity.
  - destruct snodes as [|s snodes]; [discriminate|].
    cbn [map createSiteServiceNodeList_loop combine fst snd].
    pose proof (Hsites 0%nat s eq_refl) as H0. rewrite Nat.add_0_r in H0.
    rewrite H0. rewrite (IH snodes (S index)).
    + rewrite <- app_assoc. reflexivity.
    + cbn in Hlen. lia.
    + intros i m Hi. replace (S index + i)%nat with (index + S i)%nat by lia.
      apply Hsites. exact Hi.
Qed.

Lemma createSiteServiceNodeList_loop_short siteServiceNodes :
  forall (nodes : list Value) (index : nat) acc,
    nodes <> [] ->
    (forall sites, siteServiceNodes = VList sites ->
                   (List.length sites < index + List.length nodes)%nat) ->
    createSiteServiceNodeList_loop siteServiceNodes index nodes acc = Panics.
Proof.
  induction nodes as [|n nodes IH]; intros index acc Hne Hshort;
    [contradiction|].
  cbn [createSiteServiceNodeList_loop].
  destruct siteServiceNodes as [|s|sites|m]; try reflexivity.
  specialize (Hshort sites eq_refl). cbn [List.length] in Hshort.
  destruct (nth_error sites index) as [v|] eqn:E; [|reflexivity].
  destruct v as [|s|l|m]; try reflexivity.
  destruct n as [|s|l|n]; try reflexivity.
  destruct nodes as [|n' nodes].
  - assert (index < List.length sites)%nat
      by (apply nth_error_Some; rewrite E; discriminate).
    cbn in Hshort. lia.
  - apply IH; [discriminate|].
    intros sites' Hs. injection Hs as <-. cbn [List.length] in *. lia.
Qed.

(** X16. [createSiteServiceNodeList] returns one node for each service
    node of the template, in order, built from the reference of that
    template node and the device and connector settings of the configured
    node at the same position; configured nodes beyond the last template
    node are ignored, whatever they are. With fewer configured nodes than
    template nodes it panics. It never returns an error. *)
Theorem createSiteServiceNodeList_pairs_by_position msoClient graphCont
    (tnodes snodes : list (list (string * Value))) (more : list Value) :
  serviceNodes_Data graphCont = VList (map VMap tnodes) ->
  List.length snodes = List.length tnodes ->
  createSiteServiceNodeList msoClient (VList (map VMap snodes ++ more)) graphCont
  = Returns (map (fun p => site_node (fst p) (snd p)) (combine tnodes snodes),
             None)
  /\ (forall sites,
        (List.length sites < List.length tnodes)%nat ->
        createSiteServiceNodeList msoClient (VList sites) graphCont = Panics).
Proof.
  intros HD Hlen. unfold createSiteServiceNodeList. rewrite HD. split.
  - rewrite (createSiteServiceNodeList_loop_pairs _ tnodes snodes 0 [] Hlen);
      [reflexivity|].
    intros i m Hi. cbn [Nat.add].
    rewrite nth_error_app1
      by (rewrite length_map; apply nth_error_Some; rewrite Hi; discriminate).
    rewrite nth_error_map, Hi. reflexivity.
  - intros sites Hshort.
    rewrite createSiteServiceNodeList_loop_short; [reflexivity| |].
    + destruct tnodes; [cbn in Hshort; lia | discriminate].
    + intros sites' Hs. injection Hs as <-. rewrite length_map. lia.
Qed.

Lemma state_node_site_node (t s : list (string * Value)) :
  state_node (site_node t s) = Returns (read_back s).
Proof. reflexivity. Qed.

Lemma setServiceNodeList_loop_read_back :
  forall (pairs : list (list (string * Value) * list (string * Value))) acc,
    setServiceNodeList_loop
      (map (fun p => site_node (fst p) (snd p)) pairs) acc
    = Returns (acc ++ map (fun p => read_back (snd p)) pairs)%list.
Proof.
  induction pairs as [|p pairs IH]; intros acc; cbn [map setServiceNodeList_loop].
  - rewrite app_nil_r. reflexivity.
  - rewrite state_node_site_node, IH, <- app_assoc. reflexivity.
Qed.

Lemma map_snd_combine {A B C : Type} (f : B -> C) (l : list A) (l' : list B) :
  List.length l' = List.length l ->
  map (fun p => f (snd p)) (combine l l') = map f l'.
Proof.
  revert l'. induction l as [|a l IH]; intros [|b l'] Hlen;
    try discriminate; [reflexivity|].
  cbn [combine map snd]. f_equal. apply IH. cbn in Hlen. lia.
Qed.

(** X17. Reading back what was created: when the service nodes of a graph
    are the list [createSiteServiceNodeList] built, [setServiceNodeList]
    returns, for each configured node in order, its device, its two
    connector types and its two interfaces as they were configured. The
    node type is not among the attributes it returns. *)
Theorem setServiceNodeList_reads_back_created msoClient graphCont graphCont'
    (tnodes snodes : list (list (string * Value))) created :
  serviceNodes_Data graphCont = VList (map VMap tnodes) ->
  List.length snodes = List.length tnodes ->
  createSiteServiceNodeList msoClient (VList (map VMap snodes)) graphCont
  = Returns (created, None) ->
  serviceNodes_Data graphCont' = VList created ->
  setServiceNodeList graphCont' = Returns (map read_back snodes, None)
  /\ Forall (fun v => forall entries,
                v = VMap entries -> map_index entries "service_node_type" = VNil)
            (map read_back snodes).
Proof.
  intros HD Hlen Hcreate HD'.
  destruct (createSiteServiceNodeList_pairs_by_position
              msoClient graphCont tnodes snodes [] HD Hlen) as [Hc _].
  rewrite app_nil_r, Hcreate in Hc. injection Hc as ->.
  split.
  - unfold setServiceNodeList. rewrite HD'.
    rewrite setServiceNodeList_loop_read_back, app_nil_l.
    rewrite (map_snd_combine read_back tnodes snodes Hlen). reflexivity.
  - apply Forall_forall. intros v Hin entries ->.
    apply in_map_iff in Hin as (s & Hs & _). unfold read_back in Hs.
    injection Hs as <-. reflexivity.
Qed.

End ProviderProperties.

(** ** Identifiers *)

Lemma Split_nonempty (s : string) (sep : ascii) : Split s sep <> [].
Proof.
  destruct s as [|a s]; cbn; [discriminate|].
  destruct (Ascii.eqb a sep); [discriminate|].
  destruct (Split s sep); discriminate.
Qed.

Lemma Split_whole (s : string) (sep : ascii) :
  has_char sep s = false -> Split s sep = [s].
Proof.
  induction s as [|a s IH]; cbn; [reflexivity|].
  intros H. apply orb_false_iff in H as [Ha Hs].
  rewrite Ha, (IH Hs). reflexivity.
Qed.

Lemma Split_append (s t : string) (sep : ascii) :
  has_char sep s = false ->
  Split (s ++ String sep t) sep = s :: Split t sep.
Proof.
  induction s as [|a s IH]; cbn.
  - rewrite Ascii.eqb_refl. reflexivity.
  - intros H. apply orb_false_iff in H as [Ha Hs].
    rewrite Ha, (IH Hs). reflexivity.
Qed.

Section ResourceProperties.

Context {lib : GoLib} {sdk : GoSdk lib}.
Variable GetViaURL : string -> M (option Container * option error).
Variable getSiteServiceGraphCont :
  option Container -> string -> string -> string -> string ->
  Container * Z + error.

Lemma Split_created_id (schemaId siteId templateName graphName : string) :
  has_char slash schemaId = false -> has_char slash siteId = false ->
  has_char slash templateName = false -> has_char slash graphName = false ->
  Split (created_id schemaId siteId templateName graphName) slash
  = [schemaId; "sites"; siteId; "template"; templateName; "serviceGraphs";
     graphName].
Proof.
  intros H1 H2 H3 H4. unfold created_id.
  change (schemaId ++ "/sites/" ++ siteId ++ "/template/" ++ templateName
          ++ "/serviceGraphs/" ++ graphName)
    with (schemaId ++ String slash
            ("sites" ++ String slash
               (siteId ++ String slash
                  ("template" ++ String slash
                     (templateName ++ String slash
                        ("serviceGraphs" ++ String slash graphName)))))).
  rewrite (Split_append schemaId _ slash H1).
  rewrite (Split_append "sites" _ slash eq_refl).
  rewrite (Split_append siteId _ slash H2).
  rewrite (Split_append "template" _ slash eq_refl).
  rewrite (Split_append templateName _ slash H3).
  rewrite (Split_append "serviceGraphs" _ slash eq_refl).
  rewrite (Split_whole graphName slash H4). reflexivity.
Qed.

Lemma Split_imported_id (schemaId templateName graphName : string) :
  has_char slash schemaId = false ->
  has_char slash templateName = false -> has_char slash graphName = false ->
  Split (imported_id schemaId templateName graphName) slash
  = [schemaId; "templates"; templateName; "serviceGraphs"; graphName].
Proof.
  intros H1 H3 H4. unfold imported_id.
  change (schemaId ++ "/templates/" ++ templateName ++ "/serviceGraphs/"
          ++ graphName)
    with (schemaId ++ String slash
            ("templates" ++ String slash
               (templateName ++ String slash
                  ("serviceGraphs" ++ String slash graphName)))).
  rewrite (Split_append schemaId _ slash H1).
  rewrite (Split_append "templates" _ slash eq_refl).
  rewrite (Split_append templateName _ slash H3).
  rewrite (Split_append "serviceGraphs" _ slash eq_refl).
  rewrite (Split_whole graphName slash H4). reflexivity.
Qed.

(** X18. [Import] reads back the identifier [Create] sets: for a schema,
    a site, a template and a graph whose names hold no slash, importing the
    identifier "<schema>/sites/<site>/template/<template>/serviceGraphs/
    <graph>" looks up exactly that schema, site, template and graph. An
    identifier of fewer than seven segments makes [Import] panic before it
    makes any request. *)
Theorem Import_reads_created_id d (schemaId siteId templateName graphName : string) :
  has_char slash schemaId = false -> has_char slash siteId = false ->
  has_char slash templateName = false -> has_char slash graphName = false ->
  d_Id d = created_id schemaId siteId templateName graphName ->
  resourceMSOSchemaSiteServiceGraphImport GetViaURL getSiteServiceGraphCont d
  = Import_of GetViaURL getSiteServiceGraphCont schemaId siteId templateName
      graphName d
  /\ (forall d0 c w,
        (List.length (Split (d_Id d0) slash) < 7)%nat ->
        resourceMSOSchemaSiteServiceGraphImport GetViaURL
          getSiteServiceGraphCont d0 c w
        = Panic).
Proof.
  intros H1 H2 H3 H4 Hid. split.
  - unfold resourceMSOSchemaSiteServiceGraphImport.
    rewrite Hid, (Split_created_id _ _ _ _ H1 H2 H3 H4). reflexivity.
  - intros d0 c w Hlen. unfold resourceMSOSchemaSiteServiceGraphImport.
    assert (E : nth_error (Split (d_Id d0) slash) 6 = None)
      by (apply nth_error_None; lia).
    rewrite E.
    destruct (nth_error _ 0); [destruct (nth_error _ 2);
                                [destruct (nth_error _ 4)|]|]; reflexivity.
Qed.

(** X19. The identifier [Import] leaves is not one it reads: after an
    import without error of names that hold no slash, the identifier is
    "<schema>/templates/<template>/serviceGraphs/<graph>", five segments,
    and [Import] on the data so imported panics. *)
Theorem Import_does_not_read_its_own_id d d' c w c' w'
    (schemaId siteId templateName graphName : string) :
  has_char slash schemaId = false -> has_char slash siteId = false ->
  has_char slash templateName = false -> has_char slash graphName = false ->
  d_Id d = created_id schemaId siteId templateName graphName ->
  resourceMSOSchemaSiteServiceGraphImport GetViaURL getSiteServiceGraphCont d c w
  = Done (d', None) c' w' ->
  d_Id d' = imported_id schemaId templateName graphName
  /\ forall c2 w2,
       resourceMSOSchemaSiteServiceGraphImport GetViaURL
         getSiteServiceGraphCont d' c2 w2
       = Panic.
Proof.
  intros H1 H2 H3 H4 Hid Hrun.
  assert (Hid' : d_Id d' = imported_id schemaId templateName graphName).
  { unfold resourceMSOSchemaSiteServiceGraphImport in Hrun.
    rewrite Hid, (Split_created_id _ _ _ _ H1 H2 H3 H4) in Hrun.
    cbn [nth_error] in Hrun. unfold Import_of in Hrun.
    apply bind_Done_inv in Hrun as (r & c1 & w1 & _ & Hrun).
    destruct (snd r); [injection Hrun as _ E _ _; discriminate E|].
    destruct (getSiteServiceGraphCont _ _ _ _ _) as [[graphCont n]|err];
      [|injection Hrun as _ E _ _; discriminate E].
    apply bind_Done_inv in Hrun as (s & c2 & w2 & _ & Hrun).
    injection Hrun as <- _ _. apply d_Id_SetId. }
  split; [exact Hid'|]. intros c2 w2.
  unfold resourceMSOSchemaSiteServiceGraphImport.
  rewrite Hid', (Split_imported_id _ _ _ H1 H3 H4). reflexivity.
Qed.

(** X20. Once the schema is fetched, [Read] of the site service graph
    returns no error: when the graph is found the identifier is the one the
    data had, and when it is not found the identifier is cleared and nil is
    returned all the same. *)
Theorem Read_keeps_or_clears_id errorForObjectNotFound d c w d' e c' w'
    schemaId templateName siteId graphName cont c1 w1 :
  get_names d = Returns (schemaId, templateName, siteId, graphName) ->
  GetViaURL ("api/v1/schemas/" ++ schemaId) c w = Done (cont, None) c1 w1 ->
  resourceMSOSchemaSiteServiceGraphRead GetViaURL getSiteServiceGraphCont
    errorForObjectNotFound d c w
  = Done (d', e) c' w' ->
  e = None
  /\ match getSiteServiceGraphCont cont schemaId templateName siteId graphName with
     | inl _ => d_Id d' = d_Id d
     | inr _ => d' = d_SetId EmptyString d
     end.
Proof.
  intros Hn HG H. unfold resourceMSOSchemaSiteServiceGraphRead in H.
  rewrite Hn in H. unfold lift at 1 in H.
  unfold bind at 1, ret at 1 in H. rewrite (bind_Done _ _ _ _ _ _ _ HG) in H.
  cbn [fst snd] in H.
  destruct (getSiteServiceGraphCont cont schemaId templateName siteId graphName)
    as [[graphCont n]|err].
  - apply bind_Done_inv in H as (s & c2 & w2 & _ & H).
    injection H as <- <- _ _. split; [reflexivity|]. apply d_Id_SetId.
  - injection H as <- <- _ _. split; reflexivity.
Qed.

Lemma find_filter_head {A : Type} (f : A -> bool) (l : list A) :
  match find f l with
  | Some x => exists rest, filter f l = x :: rest
  | None => filter f l = []
  end.
Proof.
  induction l as [|a l IH]; cbn; [reflexivity|].
  destruct (f a); [eauto | exact IH].
Qed.

Lemma contracts_loop_find d schemaId stateTemplate stateContract apiTemplate
    tempCont (cs : list Container) :
  forall start,
    (forall j x, nth_error cs j = Some x ->
       Container_ArrayElement (Some tempCont) (Z.of_nat (start + j)) ["contracts"]
       = inl x) ->
    contracts_loop d schemaId stateTemplate stateContract apiTemplate tempCont
      (map Z.of_nat (seq start (List.length cs)))
    = match find (fun x => String.eqb (quoted_field x "name") stateContract) cs with
      | None => Returns NotFound
      | Some x =>
        match contract_found d schemaId stateTemplate stateContract apiTemplate
                (quoted_field x "name") x with
        | Panics => Panics
        | Returns (d, err) => Returns (Returned d err)
        end
      end.
Proof.
  induction cs as [|x cs IH]; intros start Hel; [reflexivity|].
  cbn [List.length seq map contracts_loop find].
  pose proof (Hel 0%nat x eq_refl) as H0. rewrite Nat.add_0_r in H0.
  rewrite H0.
  destruct (String.eqb (quoted_field x "name") stateContract).
  - destruct (contract_found _ _ _ _ _ _ _) as [[d1 [err|]]|]; reflexivity.
  - apply IH. intros j y Hj.
    replace (S start + j)%nat with (start + S j)%nat by lia.
    apply Hel. exact Hj.
Qed.

Lemma templates_loop_hits d schemaId stateTemplate stateContract cont
    (templates : list (Container * list Container)) :
  forall start,
    (forall i t cs, nth_error templates i = Some (t, cs) ->
       Container_ArrayElement cont (Z.of_nat (start + i)) ["templates"] = inl t
       /\ (quoted_field t "name" = stateTemplate ->
           Container_ArrayCount (Some t) ["contracts"]
           = inl (Z.of_nat (List.length cs))
           /\ forall j x, nth_error cs j = Some x ->
                Container_ArrayElement (Some t) (Z.of_nat j) ["contracts"] = inl x)) ->
    templates_loop d schemaId stateTemplate stateContract cont
      (map Z.of_nat (seq start (List.length templates)))
    = match contract_hits stateTemplate stateContract templates with
      | [] => Returns (d, Some (contract_not_found schemaId stateTemplate stateContract))
      | (t, x) :: _ =>
        contract_found d schemaId stateTemplate stateContract stateTemplate
          stateContract x
      end.
Proof.
  induction templates as [|[t cs] templates IH]; intros start Hel;
    [reflexivity|].
  cbn [List.length seq map templates_loop contract_hits flat_map fst snd].
  destruct (Hel 0%nat t cs eq_refl) as [H0 Hcs]. rewrite Nat.add_0_r in H0.
  rewrite H0.
  assert (Hrest : templates_loop d schemaId stateTemplate stateContract cont
                    (map Z.of_nat (seq (S start) (List.length templates)))
                  = match contract_hits stateTemplate stateContract templates with
                    | [] => Returns (d, Some (contract_not_found schemaId
                                                stateTemplate stateContract))
                    | (t, x) :: _ =>
                      contract_found d schemaId stateTemplate stateContract
                        stateTemplate stateContract x
                    end).
  { apply IH. intros i t' cs' Hi.
    replace (S start + i)%nat with (start + S i)%nat by lia.
    apply Hel. exact Hi. }
  destruct (String.eqb_spec (quoted_field t "name") stateTemplate) as [E|N].
  - destruct (Hcs E) as [Hcount Hx]. rewrite Hcount.
    unfold indices. rewrite Nat2Z.id.
    rewrite (contracts_loop_find d schemaId stateTemplate stateContract
               (quoted_field t "name") t cs 0) by exact Hx.
    destruct (find (fun x => String.eqb (quoted_field x "name") stateContract) cs)
      as [x|] eqn:F.
    + pose proof (find_filter_head
                    (fun x => String.eqb (quoted_field x "name") stateContract) cs)
        as Hf.
      rewrite F in Hf. destruct Hf as (rest & Hf). rewrite Hf.
      cbn [map]. rewrite <- app_comm_cons. apply find_some in F as [_ Hname].
      apply String.eqb_eq in Hname. rewrite E, Hname.
      destruct (contract_found _ _ _ _ _ _ _) as [[d1 err]|]; reflexivity.
    + pose proof (find_filter_head
                    (fun x => String.eqb (quoted_field x "name") stateContract) cs)
        as Hf.
      rewrite F in Hf. rewrite Hf. cbn [map app]. exact Hrest.
  - cbn [app]. exact Hrest.
Qed.

(** X21. With the schema fetched and its templates and their contracts
    readable, the data source takes the first contract, in the order of the
    document, that bears the contract name asked for inside a template that
    bears the template name asked for; a template of that name without such
    a contract does not end the search. When there is no such contract it
    returns "Unable to find the Contract <c> in Template <t> of Schema Id
    <s>" and leaves the resource data as they were. *)
Theorem contract_read_takes_first_hit d c w schemaId stateTemplate stateContract
    cont c1 w1 (templates : list (Container * list Container)) :
  d_Get d "schema_id" = VString schemaId ->
  d_Get d "template_name" = VString stateTemplate ->
  d_Get d "contract_name" = VString stateContract ->
  GetViaURL ("api/v1/schemas/" ++ schemaId) c w = Done (cont, None) c1 w1 ->
  Container_ArrayCount cont ["templates"]
  = inl (Z.of_nat (List.length templates)) ->
  (forall i t cs, nth_error templates i = Some (t, cs) ->
     Container_ArrayElement cont (Z.of_nat i) ["templates"] = inl t
     /\ (quoted_field t "name" = stateTemplate ->
         Container_ArrayCount (Some t) ["contracts"]
         = inl (Z.of_nat (List.length cs))
         /\ forall j x, nth_error cs j = Some x ->
              Container_ArrayElement (Some t) (Z.of_nat j) ["contracts"] = inl x)) ->
  dataSourceMSOTemplateContractRead GetViaURL d c w
  = match contract_hits stateTemplate stateContract templates with
    | [] =>
      Done (d, Some (contract_not_found schemaId stateTemplate stateContract))
        c1 w1
    | (t, x) :: _ =>
      lift (contract_found d schemaId stateTemplate stateContract stateTemplate
              stateContract x) c1 w1
    end.
Proof.
  intros Hs Ht Hc HG Hcount Hel.
  unfold dataSourceMSOTemplateContractRead.
  rewrite Hs. unfold as_string at 1, lift at 1, bind at 1, ret at 1.
  rewrite (bind_Done _ _ _ _ _ _ _ HG). rewrite Hcount, Ht, Hc.
  unfold as_string, lift at 1 2, bind, ret.
  unfold indices. rewrite Nat2Z.id.
  rewrite (templates_loop_hits d schemaId stateTemplate stateContract cont
             templates 0 Hel).
  destruct (contract_hits stateTemplate stateContract templates) as [|[t x] hits];
    reflexivity.
Qed.

Lemma Split_filter_ref (schema template name : string) :
  has_char slash schema = false -> has_char slash template = false ->
  has_char slash name = false ->
  Split ("/schemas/" ++ schema ++ "/templates/" ++ template ++ "/filters/" ++ name)
        slash
  = [EmptyString; "schemas"; schema; "templates"; template; "filters"; name].
Proof.
  intros H1 H2 H3.
  change ("/schemas/" ++ schema ++ "/templates/" ++ template ++ "/filters/" ++ name)
    with (EmptyString ++ String slash
            ("schemas" ++ String slash
               (schema ++ String slash
                  ("templates" ++ String slash
                     (template ++ String slash
                        ("filters" ++ String slash name)))))).
  rewrite (Split_append EmptyString _ slash eq_refl).
  rewrite (Split_append "schemas" _ slash eq_refl).
  rewrite (Split_append schema _ slash H1).
  rewrite (Split_append "templates" _ slash eq_refl).
  rewrite (Split_append template _ slash H2).
  rewrite (Split_append "filters" _ slash eq_refl).
  rewrite (Split_whole name slash H3). reflexivity.
Qed.

(** X22. A filter relationship whose reference reads
    "/schemas/<s>/templates/<t>/filters/<f>", the names without slash, is
    reported with the schema id <s>, the template <t> and the filter <f>,
    its directives and its action. A reference that is no string, or one of
    fewer than seven segments, such as the same reference without its
    leading slash, makes the function panic. *)
Theorem filter_map_reads_reference filterCont (schema template name action : string)
    (directives : list Value) :
  has_char slash schema = false -> has_char slash template = false ->
  has_char slash name = false ->
  Container_Data (Container_S (Some filterCont) ["directives"]) = VList directives ->
  Container_Data (Container_S (Some filterCont) ["action"]) = VString action ->
  (Container_Data (Container_S (Some filterCont) ["filterRef"])
   = VString ("/schemas/" ++ schema ++ "/templates/" ++ template
              ++ "/filters/" ++ name) ->
   filter_map filterCont
   = Returns (VMap [("filter_schema_id", VString schema);
                    ("filter_template_name", VString template);
                    ("filter_name", VString name);
                    ("directives", VList directives);
                    ("action", VString action)]))
  /\ (Container_Data (Container_S (Some filterCont) ["filterRef"])
      = VString ("schemas/" ++ schema ++ "/templates/" ++ template
                 ++ "/filters/" ++ name) ->
      filter_map filterCont = Panics)
  /\ (forall ref,
        Container_Data (Container_S (Some filterCont) ["filterRef"]) = VString ref ->
        (List.length (Split ref slash) < 7)%nat ->
        filter_map filterCont = Panics)
  /\ ((forall ref,
         Container_Data (Container_S (Some filterCont) ["filterRef"])
         <> VString ref) ->
      filter_map filterCont = Panics).
Proof.
  intros H1 H2 H3 Hd Ha.
  assert (Hshort : forall ref,
             Container_Data (Container_S (Some filterCont) ["filterRef"])
             = VString ref ->
             (List.length (Split ref slash) < 7)%nat ->
             filter_map filterCont = Panics).
  { intros ref Href Hlen. unfold filter_map. rewrite Href.
    assert (E : nth_error (Split ref slash) 6 = None)
      by (apply nth_error_None; lia).
    cbv zeta. rewrite E.
    destruct (nth_error _ 2); [destruct (nth_error _ 4)|]; reflexivity. }
  split; [|split; [|split]].
  - intros Href. unfold filter_map.
    rewrite Href. cbv zeta. rewrite (Split_filter_ref _ _ _ H1 H2 H3).
    cbn [nth_error]. rewrite Hd, Ha. reflexivity.
  - intros Href. apply (Hshort _ Href).
    change ("schemas/" ++ schema ++ "/templates/" ++ template ++ "/filters/" ++ name)
      with ("schemas" ++ String slash
              (schema ++ String slash
                 ("templates" ++ String slash
                    (template ++ String slash
                       ("filters" ++ String slash name))))).
    rewrite (Split_append "schemas" _ slash eq_refl).
    rewrite (Split_append schema _ slash H1).
    rewrite (Split_append "templates" _ slash eq_refl).
    rewrite (Split_append template _ slash H2).
    rewrite (Split_append "filters" _ slash eq_refl).
    rewrite (Split_whole name slash H3). cbn. lia.
  - exact Hshort.
  - intros Hno. unfold filter_map.
    destruct (Container_Data (Container_S (Some filterCont) ["filterRef"]))
      as [|ref| |] eqn:E; try reflexivity.
    exfalso. exact (Hno ref eq_refl).
Qed.

End ResourceProperties.

(** ** The theorems above at work *)

(** A 429, then a 503, then a 200, with a budget of two retries. *)
Lemma DoWithRetryFunc_within_budget_witness :
  exists r c' w' (k : nat),
    DoWithRetryFunc Fake.busy_twice (Fake.get "/api/v1/x") None Fake.retry2 world0
    = Done r c' w'
    /\ Z.of_nat k <= 2
    /\ calls w' = (k + 1)%nat
    /\ List.length (slept w') = k
    /\ c' = Fake.retry2.
Proof.
  destruct (DoWithRetryFunc Fake.busy_twice (Fake.get "/api/v1/x") None
              Fake.retry2 world0)
    as [r c' w'| |] eqn:H; [|vm_compute in H; discriminate..].
  destruct (DoWithRetryFunc_within_budget Fake.busy_twice Fake.retry2
              (Fake.get "/api/v1/x") None world0 r c' w'
              ltac:(vm_compute; reflexivity) H)
    as (k & Hk & Hc & _ & Hs & _ & _ & Hc').
  exists r, c', w', k.
  repeat split; [exact Hk | exact Hc | exact Hs | exact Hc'].
Defined.

Lemma request_retried_until_answered_witness :
  exists w',
    DoWithRetryFunc Fake.busy_twice (Fake.get "/api/v1/x") None Fake.retry2 world0
    = Done (Some (Fake.JObject [("token", Fake.JString "abc")]),
            Some Fake.logged_in, None) Fake.retry2 w'
    /\ calls w' = 3%nat /\ List.length (slept w') = 2%nat.
Proof.
  apply (request_retried_until_answered Fake.busy_twice Fake.retry2
           (Fake.get "/api/v1/x") None world0 2).
  - vm_compute. reflexivity.
  - vm_compute. discriminate.
  - intros [|[|j]] Hj; [reflexivity | reflexivity | lia].
  - reflexivity.
Defined.


(** A 404: a nil error with a nil payload and the response. *)
Lemma nil_error_means_witness :
  exists last,
    transport (Fake.env_const (inl Fake.not_found) 0) 0 (Fake.get "/api/v1/x")
    = inl last
    /\ ((exists o, @None Fake.JSON = Some o /\ Some Fake.not_found = Some last
                  /\ 200 <= StatusCode last < 300 /\ StatusCode last <> 204
                  /\ Fake.parse (BodyBytes last) = inl o
                  /\ asks_retry (lib := Fake.lib None) None o = false)
        \/ (@None Fake.JSON = None /\ Some Fake.not_found = None
            /\ StatusCode last = 204)
        \/ (@None Fake.JSON = None /\ Some Fake.not_found = Some last
            /\ ~ (200 <= StatusCode last < 300)
            /\ StatusCode last <> 429 /\ StatusCode last <> 503
            /\ ReadErr last = None)).
Proof.
  apply (nil_error_means (lib := Fake.lib None)
           (Fake.env_const (inl Fake.not_found) 0) Fake.retry2
           (Fake.get "/api/v1/x") None world0 None (Some Fake.not_found)
           Fake.retry2 (mkWorld 1 0 [] 0)).
  - vm_compute. reflexivity.
  - reflexivity.
Defined.

(** A 200 that the caller's predicate never accepts: the payload comes
    back with the error of the third attempt. *)
Lemma payload_comes_from_2xx_witness :
  exists o last e w',
    DoWithRetryFunc (Fake.env_const (inl Fake.logged_in) (1 # 4))
      (Fake.get "/api/v1/x") (Some (fun _ => true)) Fake.retry2 world0
    = Done (Some o, Some last, Some e) Fake.retry2 w'
    /\ Fake.parse (BodyBytes last) = inl o
    /\ e = errors_New
             "[ERROR] HTTP Request failed with status code 200 after 3 attempts".
Proof.
  destruct (DoWithRetryFunc (Fake.env_const (inl Fake.logged_in) (1 # 4))
              (Fake.get "/api/v1/x") (Some (fun _ => true)) Fake.retry2 world0)
    as [[[o resp] err] c' w'| |] eqn:H; [|vm_compute in H; discriminate..].
  pose proof H as E. vm_compute in E.
  injection E as <- <- <- <- <-.
  destruct (payload_comes_from_2xx (lib := Fake.lib None)
              (Fake.env_const (inl Fake.logged_in) (1 # 4)) Fake.retry2
              (Fake.get "/api/v1/x") (Some (fun _ => true)) world0 _ _ _ _ _
              ltac:(vm_compute; reflexivity) H)
    as (last & Hr & _ & _ & _ & Hp & _ & He & _).
  injection Hr as <-.
  eexists _, _, _, _. split; [reflexivity|]. split; [exact Hp | exact He].
Defined.

(** The listing of the domains "local" and "radius": the identifier of
    "radius" is the second one. *)
Lemma GetDomainId_returns_first_match_witness :
  exists w',
    GetDomainId (Fake.env_const (Fake.status 200 "{...}") 0) "radius"
      (Fake.client_reading Fake.login_domains "radius") world0
    = Done ("1111", None) (Fake.client_reading Fake.login_domains "radius") w'.
Proof.
  eexists.
  eapply (GetDomainId_returns_first_match (lib := Fake.lib_reading Fake.login_domains)
            (Fake.env_const (Fake.status 200 "{...}") 0)
            (Fake.client_reading Fake.login_domains "radius") world0
            _ _ _ _ 2
            [inl (Fake.named "local" "0000"); inl (Fake.named "radius" "1111")]
            "radius").
  - reflexivity.
  - vm_compute. reflexivity.
  - reflexivity.
  - reflexivity.
  - reflexivity.
  - intros [|[|i]] x Hx; [injection Hx as <-; reflexivity
                         |injection Hx as <-; reflexivity
                         |destruct i; discriminate Hx].
Defined.

Lemma Authenticate_returns_within_budget_witness :
  exists e c' w',
    Authenticate (Fake.env_const (inl Fake.unavailable) (1 # 4)) Fake.client_radius
      world0
    = Done e c' w'
    /\ (0 <= calls w' <= 6)%nat.
Proof.
  apply (Authenticate_returns_within_budget (lib := Fake.lib None)
           (Fake.env_const (inl Fake.unavailable) (1 # 4)) Fake.client_radius world0).
  vm_compute. reflexivity.
Defined.

(** A login answered with the token "abc". *)
Lemma login_stores_stripped_token_witness :
  exists c2 w2 a,
    Authenticate (Fake.env_const (inl Fake.logged_in) 0) Fake.client_logged_in world0
    = Done None (set_AuthToken (Some a) c2) w2
    /\ Token a = "abc"
    /\ skipLoggingPayload c2 = false.
Proof.
  edestruct (login_stores_stripped_token (lib := Fake.lib None)
               (Fake.env_const (inl Fake.logged_in) 0) Fake.client_logged_in world0)
    as (a & HA & HT & HS);
    [vm_compute; reflexivity | vm_compute; reflexivity
     | vm_compute; discriminate | vm_compute; discriminate |].
  eexists _, _, a. split; [exact HA|]. split; [exact HT | exact HS].
Defined.

(** A login answered with a 401. *)
Lemma login_refused_is_empty_response_witness :
  exists c',
    Authenticate (Fake.env_const (Fake.status 401 "denied") 0)
      Fake.client_logged_in world0
    = Done (Some (errors_New "Empty response")) c' (mkWorld 1 0 [] 0)
    /\ AuthToken c' = Some (mkAuth "old" 7)
    /\ skipLoggingPayload c' = false.
Proof.
  edestruct (login_refused_is_empty_response (lib := Fake.lib None)
               (Fake.env_const (Fake.status 401 "denied") 0)
               Fake.client_logged_in world0)
    as (c' & HA & HT & HS).
  - vm_compute. reflexivity.
  - vm_compute. reflexivity.
  - reflexivity.
  - right. cbn. repeat split; lia || reflexivity.
  - exists c'. split; [exact HA|]. split; [exact HT | exact HS].
Defined.

(** The domain "radius" is set and the listing is a 404: one round trip,
    the lookup, and no login. *)
Lemma domain_lookup_failure_aborts_login_witness :
  exists err w',
    Authenticate (Fake.env_const (inl Fake.not_found) 0) Fake.client_radius world0
    = Done (Some err) Fake.client_radius w'
    /\ calls w' = 1%nat.
Proof.
  eexists _, _. split.
  - eapply (domain_lookup_failure_aborts_login (lib := Fake.lib None)
              (Fake.env_const (inl Fake.not_found) 0) Fake.client_radius world0).
    + reflexivity.
    + discriminate.
    + vm_compute. reflexivity.
    + vm_compute. reflexivity.
  - reflexivity.
Defined.

Lemma GetVersion_caches_on_success_witness :
  exists v c' w',
    GetVersion (Fake.env_const (Fake.status 200 (Fake.doc "version" "4.2.2")) 0)
      Fake.client_logged_in world0
    = Done (v, None) c' w'
    /\ v <> EmptyString /\ version c' = v.
Proof.
  destruct (GetVersion (Fake.env_const (Fake.status 200 (Fake.doc "version" "4.2.2")) 0)
              Fake.client_logged_in world0)
    as [[v e] c' w'| |] eqn:H; [|vm_compute in H; discriminate..].
  pose proof H as E. vm_compute in E. injection E as <- <- <- <-.
  pose proof (GetVersion_caches_on_success (lib := Fake.lib None) _ _ _ _ _ _ _ H)
    as G.
  eexists _, _, _. split; [reflexivity | exact G].
Defined.

(** With "unknown" cached, the comparison fails and returns 0. *)
Lemma CompareVersion_with_cache_witness :
  exists n e,
    CompareVersion (Fake.env_const (inl Fake.not_found) 0) "4.2.2"
      (set_version "unknown" Fake.retry2) world0
    = Done (n, e) (set_version "unknown" Fake.retry2) world0
    /\ e <> None /\ n = 0.
Proof.
  destruct (CompareVersion (Fake.env_const (inl Fake.not_found) 0) "4.2.2"
              (set_version "unknown" Fake.retry2) world0)
    as [[n e] c' w'| |] eqn:H; [|vm_compute in H; discriminate..].
  destruct (CompareVersion_with_cache (lib := Fake.lib None) _ _ _ _ _ _ _ _ H)
    as [H0 H1].
  destruct (H1 ltac:(discriminate)) as (-> & -> & He).
  exists n, e. split; [reflexivity|].
  split; [exact (He eq_refl) | exact (H0 (He eq_refl))].
Defined.

(** The platform cannot be reached and nothing is cached. *)
Lemma CompareVersion_fetch_failure_witness :
  exists c1 w1,
    CompareVersion (Fake.env_const (inr (errors_New "connection refused")) 0)
      "4.2.2" Fake.client_logged_in world0
    = Done (0, Some (errors_New "Could not parse retrieved version")) c1 w1
    /\ version c1 = EmptyString.
Proof.
  eexists _, _.
  eapply (CompareVersion_fetch_failure (lib := Fake.lib None)
            (Fake.env_const (inr (errors_New "connection refused")) 0)
            Fake.client_logged_in world0 "4.2.2").
  - reflexivity.
  - vm_compute. reflexivity.
  - vm_compute. reflexivity.
Defined.

(** Two template nodes and two configured nodes, followed by a value that
    is no node at all. *)
Lemma createSiteServiceNodeList_pairs_by_position_witness :
  createSiteServiceNodeList (sdk := Fake.sdk0) Fake.retry2
    (VList (map VMap Fake.site_nodes ++ [VNil]))
    (Fake.graph (map VMap Fake.template_nodes))
  = Returns (Fake.created_nodes, None)
  /\ createSiteServiceNodeList (sdk := Fake.sdk0) Fake.retry2
       (VList [VMap []]) (Fake.graph (map VMap Fake.template_nodes))
     = Panics.
Proof.
  destruct (createSiteServiceNodeList_pairs_by_position (sdk := Fake.sdk0)
              Fake.retry2 (Fake.graph (map VMap Fake.template_nodes))
              Fake.template_nodes Fake.site_nodes [VNil] eq_refl eq_refl)
    as [H P].
  split; [exact H|]. apply P. cbn. lia.
Defined.

Lemma setServiceNodeList_reads_back_created_witness :
  setServiceNodeList (sdk := Fake.sdk0) (Fake.graph Fake.created_nodes)
  = Returns (map read_back Fake.site_nodes, None).
Proof.
  destruct (setServiceNodeList_reads_back_created (sdk := Fake.sdk0)
              Fake.retry2 (Fake.graph (map VMap Fake.template_nodes))
              (Fake.graph Fake.created_nodes)
              Fake.template_nodes Fake.site_nodes Fake.created_nodes
              eq_refl eq_refl eq_refl eq_refl)
    as [H _].
  exact H.
Defined.

Lemma Import_reads_created_id_witness :
  resourceMSOSchemaSiteServiceGraphImport (sdk := Fake.sdk0) Fake.get_schema
    (Fake.site_graph Fake.created_nodes)
    (Fake.resource "s1/sites/site1/template/t1/serviceGraphs/g1")
  = Import_of (sdk := Fake.sdk0) Fake.get_schema (Fake.site_graph Fake.created_nodes)
      "s1" "site1" "t1" "g1"
      (Fake.resource "s1/sites/site1/template/t1/serviceGraphs/g1")
  /\ resourceMSOSchemaSiteServiceGraphImport (sdk := Fake.sdk0) Fake.get_schema
       (Fake.site_graph Fake.created_nodes)
       (Fake.resource "s1/templates/t1/serviceGraphs/g1") Fake.retry2 world0
     = Panic.
Proof.
  destruct (Import_reads_created_id (sdk := Fake.sdk0) Fake.get_schema
              (Fake.site_graph Fake.created_nodes)
              (Fake.resource "s1/sites/site1/template/t1/serviceGraphs/g1")
              "s1" "site1" "t1" "g1" eq_refl eq_refl eq_refl eq_refl eq_refl)
    as [H P].
  split; [exact H|]. apply P. cbn. lia.
Defined.

Lemma Import_does_not_read_its_own_id_witness :
  exists d' c' w',
    resourceMSOSchemaSiteServiceGraphImport (sdk := Fake.sdk0) Fake.get_schema
      (Fake.site_graph Fake.created_nodes)
      (Fake.resource "s1/sites/site1/template/t1/serviceGraphs/g1")
      Fake.retry2 world0
    = Done (d', None) c' w'
    /\ Fake.id d' = "s1/templates/t1/serviceGraphs/g1"
    /\ resourceMSOSchemaSiteServiceGraphImport (sdk := Fake.sdk0) Fake.get_schema
         (Fake.site_graph Fake.created_nodes) d' Fake.retry2 world0
       = Panic.
Proof.
  destruct (resourceMSOSchemaSiteServiceGraphImport (sdk := Fake.sdk0)
              Fake.get_schema (Fake.site_graph Fake.created_nodes)
              (Fake.resource "s1/sites/site1/template/t1/serviceGraphs/g1")
              Fake.retry2 world0)
    as [[d' e] c' w'| |] eqn:H; [|vm_compute in H; discriminate..].
  pose proof H as E. vm_compute in E. injection E as <- <- <- <-.
  destruct (Import_does_not_read_its_own_id (sdk := Fake.sdk0) Fake.get_schema
              (Fake.site_graph Fake.created_nodes)
              (Fake.resource "s1/sites/site1/template/t1/serviceGraphs/g1")
              _ Fake.retry2 world0 _ _ "s1" "site1" "t1" "g1"
              eq_refl eq_refl eq_refl eq_refl eq_refl H)
    as [G P].
  eexists _, _, _. split; [reflexivity|]. split; [exact G | apply P].
Defined.

(** [Read] of the graph "g1", which exists: the identifier stays. *)
Lemma Read_keeps_or_clears_id_witness :
  exists d' c' w',
    resourceMSOSchemaSiteServiceGraphRead (sdk := Fake.sdk0) Fake.get_schema
      (Fake.site_graph Fake.created_nodes) Fake.not_found_gone
      (Fake.resource "s1/sites/site1/template/t1/serviceGraphs/g1")
      Fake.retry2 world0
    = Done (d', None) c' w'
    /\ Fake.id d' = "s1/sites/site1/template/t1/serviceGraphs/g1".
Proof.
  destruct (resourceMSOSchemaSiteServiceGraphRead (sdk := Fake.sdk0)
              Fake.get_schema (Fake.site_graph Fake.created_nodes)
              Fake.not_found_gone
              (Fake.resource "s1/sites/site1/template/t1/serviceGraphs/g1")
              Fake.retry2 world0)
    as [[d' e] c' w'| |] eqn:H; [|vm_compute in H; discriminate..].
  destruct (Read_keeps_or_clears_id (sdk := Fake.sdk0) Fake.get_schema
              (Fake.site_graph Fake.created_nodes) Fake.not_found_gone
              (Fake.resource "s1/sites/site1/template/t1/serviceGraphs/g1")
              Fake.retry2 world0 d' e c' w' "s1" "t1" "site1" "g1"
              (Some Fake.schema) Fake.retry2 (mkWorld 1 0 [] 0)
              eq_refl eq_refl H)
    as [-> G].
  exists d', c', w'. split; [reflexivity | exact G].
Defined.

(** The contract "web" of the template "t1": the template "t0" holds a
    contract of that name too, and "t1" holds "db" before it. *)
Lemma contract_read_takes_first_hit_witness :
  exists d' w',
    dataSourceMSOTemplateContractRead (sdk := Fake.sdk0) Fake.get_schema
      (Fake.resource EmptyString) Fake.retry2 world0
    = Done (d', None) Fake.retry2 w'
    /\ Fake.id d' = "s1/templates/t1/contracts/web"
    /\ map_index (Fake.attributes d') "filter_relationships"
       = VList [VMap [("filter_schema_id", VString "s1");
                      ("filter_template_name", VString "t1");
                      ("filter_name", VString "http");
                      ("directives", VList [VString "none"]);
                      ("action", VString "permit")]].
Proof.
  eexists _, _.
  rewrite (contract_read_takes_first_hit (sdk := Fake.sdk0) Fake.get_schema
             (Fake.resource EmptyString) Fake.retry2 world0 "s1" "t1" "web"
             (Some Fake.schema) Fake.retry2 (mkWorld 1 0 [] 0)
             Fake.schema_templates eq_refl eq_refl eq_refl eq_refl eq_refl).
  - split; [vm_compute; reflexivity|]. split; reflexivity.
  - intros [|[|i]] t cs Ht; [| |destruct i; discriminate Ht];
      injection Ht as <- <-; (split; [reflexivity|]); intros _;
      (split; [reflexivity|]).
    + intros [|j] x Hx; [injection Hx as <-; reflexivity
                        |destruct j; discriminate Hx].
    + intros [|[|j]] x Hx; [injection Hx as <-; reflexivity
                           |injection Hx as <-; reflexivity
                           |destruct j; discriminate Hx].
Defined.

Lemma filter_map_reads_reference_witness :
  filter_map (sdk := Fake.sdk0) Fake.filter_web
  = Returns (VMap [("filter_schema_id", VString "s1");
                   ("filter_template_name", VString "t1");
                   ("filter_name", VString "http");
                   ("directives", VList [VString "none"]);
                   ("action", VString "permit")]).
Proof.
  destruct (filter_map_reads_reference (sdk := Fake.sdk0) Fake.filter_web
              "s1" "t1" "http" "permit" [VString "none"]
              eq_refl eq_refl eq_refl eq_refl eq_refl)
    as [H _].
  exact (H eq_refl).
Defined.
